(** * HMMER build pipeline ([p7_builder.c]): a shallow embedding

    The construction pipeline of [p7_builder.c] is rendered as Rocq
    functions.  C [int]s are [Z], C [double]s are idealised as real
    numbers ([R]; with the IEEE special values where a logarithm or a
    division can produce them), nullable pointers are [option]s, and
    every call that leaves the file (Easel routines, model makers,
    calibration, destructors) is recorded in an event log that is
    threaded through the functions, so that "which routine was invoked,
    and in which order" is a fact about the returned log.

    The first part is the embedding, in the order: data, collaborators,
    internal functions, construction API, configuration.  The second
    part states and proves the properties. *)

From Stdlib Require Import ZArith List String Bool Reals Lra Lia.
Import ListNotations.
Local Open Scope string_scope.
Local Open Scope list_scope.
Local Open Scope Z_scope.

(** ** Easel status codes ([easel.h]) *)

Definition status := Z.
Definition eslOK        : status := 0.
Definition eslEMEM      : status := 5.
Definition eslENOTFOUND : status := 6.
Definition eslEFORMAT   : status := 7.
Definition eslEINVAL    : status := 11.
Definition eslENORESULT : status := 19.

(** ** Error messages

    [bld->errbuf] is filled by [ESL_XFAIL] through a printf-style
    format.  A message is kept as the format with its arguments. *)

Inductive fmt_arg :=
| ArgStr (s : string)
| ArgInt (z : Z).

Record message := Msg { fmt : string; fmt_args : list fmt_arg }.

Definition empty_message : message := Msg "" [].

(** The C cast [(int) x] of a double: truncation toward zero. *)
Definition int_of_double (x : R) : Z :=
  if Rle_dec 0 x then Int_part x else (- Int_part (- x))%Z.

(** A C [double] where infinities and NaN matter: the finite values are
    real numbers, and the special values follow IEEE 754. *)
Inductive c_double :=
| Finite (x : R)
| PlusInf
| MinusInf
| NaN.

(** [log((double) n)] for an [int] [n]. *)
Definition c_log_int (n : Z) : c_double :=
  if 0 <? n then Finite (ln (IZR n))
  else if n =? 0 then MinusInf
  else NaN.

(** An operation that keeps the special values as they are: adding a
    finite number, multiplying or dividing by a positive one. *)
Definition c_lift (f : R -> R) (x : c_double) : c_double :=
  match x with
  | Finite v => Finite (f v)
  | PlusInf => PlusInf
  | MinusInf => MinusInf
  | NaN => NaN
  end.

(** [x / (double) d] for an [int] [d]; [(double) 0] is [+0.0]. *)
Definition c_div_int (x : c_double) (d : Z) : c_double :=
  match x with
  | Finite v =>
      if d =? 0 then
        if Rlt_dec 0 v then PlusInf else if Rlt_dec v 0 then MinusInf else NaN
      else Finite (v / IZR d)
  | PlusInf => if d <? 0 then MinusInf else PlusInf
  | MinusInf => if d <? 0 then PlusInf else MinusInf
  | NaN => NaN
  end.

(** [if (x < lo) x = lo;] -- a comparison with NaN is false. *)
Definition c_raise_to (x : c_double) (lo : R) : c_double :=
  match x with
  | Finite v => Finite (if Rlt_dec v lo then lo else v)
  | PlusInf => PlusInf
  | MinusInf => Finite lo
  | NaN => NaN
  end.

(** ** Strategy enumerations ([p7_archchoice_e] and friends) *)

Inductive p7_archchoice_e := p7_ARCH_FAST | p7_ARCH_HAND.

Inductive p7_wgtchoice_e :=
  p7_WGT_NONE | p7_WGT_GIVEN | p7_WGT_GSC | p7_WGT_PB | p7_WGT_BLOSUM.

Inductive p7_effnchoice_e :=
  p7_EFFN_NONE | p7_EFFN_SET | p7_EFFN_CLUST | p7_EFFN_ENTROPY.

(** [abc->type]; every type other than the three named ones takes the
    [default:] branch of the switches. *)
Inductive alphabet_type := eslAMINO | eslDNA | eslRNA | eslNONSTANDARD.

Record ESL_ALPHABET := { abc_type : alphabet_type; abc_K : Z }.

(** ** Collaborator objects *)

(** Priors are known to this file only by the constructor that made them. *)
Inductive P7_PRIOR :=
| prior_Amino
| prior_Nucleic
| prior_Laplace (abc : ESL_ALPHABET).

(** Modelled from the spec: the random source ([esl_random.c] is a
    collaborator).  A deterministic generator is the stream fixed by its
    seed together with the number of draws already consumed. *)
Record ESL_RANDOMNESS := { rng_seed : Z; rng_used : N }.

Definition ESL_SCOREMATRIX := list (list Z).
Definition ESL_DMATRIX := list (list R).

Record P7_BG := { bg_f : list R }.

Inductive P7_PROFILE := profile_id (id : Z).
Inductive P7_OPROFILE := oprofile_id (id : Z).

(** Score cut-off slots: the indices [eslMSA_GA1] .. / [p7_GA1] .. of the
    [cutoff] and [cutset] arrays. *)
Inductive cutoff_slot := TC1 | TC2 | GA1 | GA2 | NC1 | NC2.

Definition cutoff_slot_eqb (a b : cutoff_slot) : bool :=
  match a, b with
  | TC1, TC1 | TC2, TC2 | GA1, GA1 | GA2, GA2 | NC1, NC1 | NC2, NC2 => true
  | _, _ => false
  end.

Record ESL_MSA := {
  msa_name   : option string;
  msa_acc    : option string;
  msa_desc   : option string;
  msa_nseq   : Z;
  msa_wgt    : list R;
  msa_rf     : option string;
  msa_cutset : cutoff_slot -> bool;
  msa_cutoff : cutoff_slot -> R
}.

Definition set_msa_wgt (msa : ESL_MSA) (w : list R) : ESL_MSA :=
  {| msa_name := msa_name msa; msa_acc := msa_acc msa; msa_desc := msa_desc msa;
     msa_nseq := msa_nseq msa; msa_wgt := w; msa_rf := msa_rf msa;
     msa_cutset := msa_cutset msa; msa_cutoff := msa_cutoff msa |}.

(** The model under construction.  [hmm_counts] stands for all emission
    and transition counts ([mat], [ins], [t]) taken together. *)
Record P7_HMM := {
  hmm_M        : Z;
  hmm_nseq     : Z;
  hmm_eff_nseq : R;
  hmm_counts   : list R;
  hmm_name     : option string;
  hmm_checksum : Z;
  hmm_flags    : Z;
  hmm_cutoff   : cutoff_slot -> R;
  hmm_evparam  : list R
}.

Definition set_eff_nseq (hmm : P7_HMM) (x : R) : P7_HMM :=
  {| hmm_M := hmm_M hmm; hmm_nseq := hmm_nseq hmm; hmm_eff_nseq := x;
     hmm_counts := hmm_counts hmm; hmm_name := hmm_name hmm;
     hmm_checksum := hmm_checksum hmm; hmm_flags := hmm_flags hmm;
     hmm_cutoff := hmm_cutoff hmm; hmm_evparam := hmm_evparam hmm |}.

Definition set_counts (hmm : P7_HMM) (c : list R) : P7_HMM :=
  {| hmm_M := hmm_M hmm; hmm_nseq := hmm_nseq hmm; hmm_eff_nseq := hmm_eff_nseq hmm;
     hmm_counts := c; hmm_name := hmm_name hmm;
     hmm_checksum := hmm_checksum hmm; hmm_flags := hmm_flags hmm;
     hmm_cutoff := hmm_cutoff hmm; hmm_evparam := hmm_evparam hmm |}.

Definition set_checksum (hmm : P7_HMM) (c : Z) : P7_HMM :=
  {| hmm_M := hmm_M hmm; hmm_nseq := hmm_nseq hmm; hmm_eff_nseq := hmm_eff_nseq hmm;
     hmm_counts := hmm_counts hmm; hmm_name := hmm_name hmm;
     hmm_checksum := c; hmm_flags := hmm_flags hmm;
     hmm_cutoff := hmm_cutoff hmm; hmm_evparam := hmm_evparam hmm |}.

Definition or_flags (hmm : P7_HMM) (f : Z) : P7_HMM :=
  {| hmm_M := hmm_M hmm; hmm_nseq := hmm_nseq hmm; hmm_eff_nseq := hmm_eff_nseq hmm;
     hmm_counts := hmm_counts hmm; hmm_name := hmm_name hmm;
     hmm_checksum := hmm_checksum hmm; hmm_flags := Z.lor (hmm_flags hmm) f;
     hmm_cutoff := hmm_cutoff hmm; hmm_evparam := hmm_evparam hmm |}.

Definition set_cutoff (hmm : P7_HMM) (s : cutoff_slot) (x : R) : P7_HMM :=
  {| hmm_M := hmm_M hmm; hmm_nseq := hmm_nseq hmm; hmm_eff_nseq := hmm_eff_nseq hmm;
     hmm_counts := hmm_counts hmm; hmm_name := hmm_name hmm;
     hmm_checksum := hmm_checksum hmm; hmm_flags := hmm_flags hmm;
     hmm_cutoff := fun s' => if cutoff_slot_eqb s' s then x else hmm_cutoff hmm s';
     hmm_evparam := hmm_evparam hmm |}.

(** Trace states used in this file ([p7T_B], [p7T_M], [p7T_E]). *)
Inductive p7t_statetype := p7T_B | p7T_M | p7T_E.

(** Modelled from the spec: a trace ([p7_trace.c] is a collaborator) is
    the ordered sequence of (state, node index, position) triples, with
    its model-length and sequence-length fields. *)
Record P7_TRACE := {
  tr_steps : list (p7t_statetype * Z * Z);
  tr_M : Z;
  tr_L : Z
}.

Record ESL_SQ := { sq_name : string; sq_dsq : list Z; sq_n : Z }.

(** ** The builder configuration ([P7_BUILDER]) *)

Record P7_BUILDER := {
  arch_strategy : p7_archchoice_e;
  symfrac       : R;
  wgt_strategy  : p7_wgtchoice_e;
  wid           : R;
  pbswitch      : Z;
  effn_strategy : p7_effnchoice_e;
  re_target     : R;
  eX            : R;
  eid           : R;
  eset          : R;
  EvL           : Z;
  EvN           : Z;
  EfL           : Z;
  EfN           : Z;
  Eft           : R;
  bld_r         : ESL_RANDOMNESS;
  do_reseeding  : bool;
  prior         : option P7_PRIOR;
  abc           : ESL_ALPHABET;
  bld_S         : option ESL_SCOREMATRIX;
  bld_Q         : option ESL_DMATRIX;
  popen         : R;
  pextend       : R;
  errbuf        : message
}.

Definition set_errbuf (bld : P7_BUILDER) (m : message) : P7_BUILDER :=
  {| arch_strategy := arch_strategy bld; symfrac := symfrac bld;
     wgt_strategy := wgt_strategy bld; wid := wid bld; pbswitch := pbswitch bld;
     effn_strategy := effn_strategy bld; re_target := re_target bld;
     eX := eX bld; eid := eid bld; eset := eset bld;
     EvL := EvL bld; EvN := EvN bld; EfL := EfL bld; EfN := EfN bld; Eft := Eft bld;
     bld_r := bld_r bld; do_reseeding := do_reseeding bld; prior := prior bld;
     abc := abc bld; bld_S := bld_S bld; bld_Q := bld_Q bld;
     popen := popen bld; pextend := pextend bld; errbuf := m |}.

Definition set_rng (bld : P7_BUILDER) (g : ESL_RANDOMNESS) : P7_BUILDER :=
  {| arch_strategy := arch_strategy bld; symfrac := symfrac bld;
     wgt_strategy := wgt_strategy bld; wid := wid bld; pbswitch := pbswitch bld;
     effn_strategy := effn_strategy bld; re_target := re_target bld;
     eX := eX bld; eid := eid bld; eset := eset bld;
     EvL := EvL bld; EvN := EvN bld; EfL := EfL bld; EfN := EfN bld; Eft := Eft bld;
     bld_r := g; do_reseeding := do_reseeding bld; prior := prior bld;
     abc := abc bld; bld_S := bld_S bld; bld_Q := bld_Q bld;
     popen := popen bld; pextend := pextend bld; errbuf := errbuf bld |}.

Definition set_score_system (bld : P7_BUILDER)
    (s : option ESL_SCOREMATRIX) (q : option ESL_DMATRIX) : P7_BUILDER :=
  {| arch_strategy := arch_strategy bld; symfrac := symfrac bld;
     wgt_strategy := wgt_strategy bld; wid := wid bld; pbswitch := pbswitch bld;
     effn_strategy := effn_strategy bld; re_target := re_target bld;
     eX := eX bld; eid := eid bld; eset := eset bld;
     EvL := EvL bld; EvN := EvN bld; EfL := EfL bld; EfN := EfN bld; Eft := Eft bld;
     bld_r := bld_r bld; do_reseeding := do_reseeding bld; prior := prior bld;
     abc := abc bld; bld_S := s; bld_Q := q;
     popen := popen bld; pextend := pextend bld; errbuf := errbuf bld |}.

Definition set_gap_probs (bld : P7_BUILDER) (po pe : R) : P7_BUILDER :=
  {| arch_strategy := arch_strategy bld; symfrac := symfrac bld;
     wgt_strategy := wgt_strategy bld; wid := wid bld; pbswitch := pbswitch bld;
     effn_strategy := effn_strategy bld; re_target := re_target bld;
     eX := eX bld; eid := eid bld; eset := eset bld;
     EvL := EvL bld; EvN := EvN bld; EfL := EfL bld; EfN := EfN bld; Eft := Eft bld;
     bld_r := bld_r bld; do_reseeding := do_reseeding bld; prior := prior bld;
     abc := abc bld; bld_S := bld_S bld; bld_Q := bld_Q bld;
     popen := po; pextend := pe; errbuf := errbuf bld |}.

(** [ESL_XFAIL(status, bld->errbuf, fmt, ...)]: format the message into
    the buffer. *)
Definition xfail (bld : P7_BUILDER) (f : string) (a : list fmt_arg) : P7_BUILDER :=
  set_errbuf bld (Msg f a).

(** ** Results of collaborators and out-parameters *)

(** What a collaborator that delivers objects through out-pointers hands
    back: on [eslOK] the objects; otherwise a failure code (Easel's
    failure codes are the positive integers) with whatever it left
    behind in the out-pointers. *)
Inductive esl_result (A B : Type) :=
| Done (a : A)
| Failed (code : positive) (left : B).
Arguments Done {A B} a.
Arguments Failed {A B} code left.

Definition status_of {A B} (x : esl_result A B) : status :=
  match x with Done _ => eslOK | Failed c _ => Z.pos c end.

(** An optional out-parameter [T **opt]: [None] is a [NULL] argument,
    [Some v] a pointer to a caller variable currently holding [v]. *)
Definition cell (A : Type) := option (option A).

Definition store {A} (c : cell A) (v : option A) : cell A :=
  match c with None => None | Some _ => Some v end.

Definition requested {A} (c : cell A) : bool :=
  match c with None => false | Some _ => true end.

Record ESL_FILEPARSER := { efp_errbuf : string }.

(** The five calibration sample parameters read by the calibration. *)
Record calib_params := {
  cp_EvL : Z; cp_EvN : Z; cp_EfL : Z; cp_EfN : Z; cp_Eft : R
}.

(** ** The event log *)

Inductive Event :=
| Ev_vec_DSet (n : Z) (v : R)
| Ev_msaweight_PB
| Ev_msaweight_GSC
| Ev_msaweight_BLOSUM (maxid : R)
| Ev_Fastmodelmaker (symfrac : R)
| Ev_Handmodelmaker
| Ev_msacluster_SingleLinkage (maxid : R)
| Ev_EntropyWeight (etarget : c_double)
| Ev_hmm_Scale (scale : R)
| Ev_ParameterEstimation
| Ev_hmm_SetName
| Ev_hmm_SetAccession
| Ev_hmm_SetDescription
| Ev_hmm_SetCtime
| Ev_msa_Checksum
| Ev_hmm_SetComposition
| Ev_Calibrate (reseeded : bool)
| Ev_tracealign_MSA
| Ev_Seqmodel
| Ev_trace_Create
| Ev_trace_Append (st : p7t_statetype) (k i : Z)
| Ev_scorematrix_Create
| Ev_scorematrix_SetBLOSUM62
| Ev_fileparser_Open (mxfile : string)
| Ev_sco_Read
| Ev_fileparser_Close
| Ev_scorematrix_IsSymmetric (S : ESL_SCOREMATRIX)
| Ev_sco_Probify (S : ESL_SCOREMATRIX)
| Ev_exception (code : status) (msg : string)
| Ev_hmm_Destroy (hmm : option P7_HMM)
| Ev_trace_Destroy (tr : P7_TRACE)
| Ev_trace_DestroyArray (tr : option (list P7_TRACE)) (n : Z)
| Ev_profile_Destroy (gm : option P7_PROFILE)
| Ev_oprofile_Destroy (om : option P7_OPROFILE)
| Ev_msa_Destroy (msa : ESL_MSA)
| Ev_scorematrix_Destroy
| Ev_dmatrix_Destroy.

Definition Log := list Event.

(** ** The collaborators

    Everything the file calls but does not define: one deterministic
    function per routine, from the arguments it reads to its status and
    the objects it writes.  Constants of [hmmer.h] that the file uses
    are carried along. *)

Record Collaborators := {
  (* esl_msaweight.c *)
  esl_msaweight_PB     : ESL_MSA -> status * ESL_MSA;
  esl_msaweight_GSC    : ESL_MSA -> status * ESL_MSA;
  esl_msaweight_BLOSUM : ESL_MSA -> R -> status * ESL_MSA;
  (* build.c: msa, [symfrac], whether traces are wanted *)
  p7_Fastmodelmaker : ESL_MSA -> R -> bool ->
    esl_result (P7_HMM * list P7_TRACE) (option P7_HMM * option (list P7_TRACE)) * ESL_MSA;
  p7_Handmodelmaker : ESL_MSA -> bool ->
    esl_result (P7_HMM * list P7_TRACE) (option P7_HMM * option (list P7_TRACE)) * ESL_MSA;
  (* esl_msacluster.c: status and [nclust] *)
  esl_msacluster_SingleLinkage : ESL_MSA -> R -> status * Z;
  (* eweight.c: status and [eff_nseq] *)
  p7_EntropyWeight : P7_HMM -> P7_BG -> option P7_PRIOR -> c_double -> status * R;
  (* modelmaker / p7_hmm.c *)
  p7_ParameterEstimation : P7_HMM -> option P7_PRIOR -> status * P7_HMM;
  p7_hmm_SetName        : P7_HMM -> string -> status * P7_HMM;
  p7_hmm_SetAccession   : P7_HMM -> option string -> status * P7_HMM;
  p7_hmm_SetDescription : P7_HMM -> option string -> status * P7_HMM;
  p7_hmm_SetCtime       : P7_HMM -> status * P7_HMM;
  p7_hmm_SetComposition : P7_HMM -> status * P7_HMM;
  esl_msa_Checksum      : ESL_MSA -> status * Z;
  (* evalues.c: the two simulations of the calibration, run on a
     generator and given the caller's profile variables as they stand;
     status, the model with its parameters, the generator afterwards,
     the profiles built on the way, and the message left for [errbuf]
     when it fails with one *)
  calibration_simulations : P7_HMM -> calib_params -> ESL_RANDOMNESS -> P7_BG ->
    cell P7_PROFILE -> cell P7_OPROFILE ->
    status * P7_HMM * ESL_RANDOMNESS * option P7_PROFILE * option P7_OPROFILE
    * option message;
  (* tracealign.c *)
  p7_tracealign_MSA : ESL_MSA -> option (list P7_TRACE) -> Z -> Z ->
    esl_result ESL_MSA (option ESL_MSA);
  (* seqmodel.c *)
  p7_Seqmodel : ESL_ALPHABET -> list Z -> Z -> string -> ESL_DMATRIX -> list R -> R -> R ->
    esl_result P7_HMM (option P7_HMM);
  (* p7_trace.c: whether allocation succeeds *)
  trace_Create_ok     : bool;
  trace_Append_status : P7_TRACE -> status;
  (* esl_scorematrix.c, esl_fileparser.c *)
  esl_scorematrix_Create      : ESL_ALPHABET -> option ESL_SCOREMATRIX;
  esl_scorematrix_SetBLOSUM62 : ESL_SCOREMATRIX -> status * ESL_SCOREMATRIX;
  esl_fileparser_Open : string -> option string ->
    esl_result ESL_FILEPARSER (option ESL_FILEPARSER);
  esl_sco_Read : ESL_FILEPARSER -> ESL_ALPHABET -> ESL_SCOREMATRIX ->
    esl_result ESL_SCOREMATRIX (option ESL_SCOREMATRIX) * ESL_FILEPARSER;
  esl_scorematrix_IsSymmetric : ESL_SCOREMATRIX -> bool;
  esl_sco_Probify : ESL_SCOREMATRIX ->
    esl_result (ESL_DMATRIX * list R * list R * R)
               (option ESL_DMATRIX * option (list R) * option (list R));
  (* p7_prior.c: [NULL] on allocation failure *)
  p7_prior_CreateAmino   : option P7_PRIOR;
  p7_prior_CreateNucleic : option P7_PRIOR;
  p7_prior_CreateLaplace : ESL_ALPHABET -> option P7_PRIOR;
  (* hmmer.h *)
  p7_ETARGET_AMINO : R;
  p7_ETARGET_DNA   : R;
  p7_ETARGET_OTHER : R;
  p7H_CHKSUM : Z;
  p7H_COMPO  : Z;
  p7H_GA     : Z;
  p7H_TC     : Z;
  p7H_NC     : Z;
  p7_DEFAULT : Z
}.

(** ** Small Easel and HMMER helpers, modelled directly *)

(** Modelled from the spec: [esl_vec_DSet(vec, n, value)] ("none" sets
    uniform weight 1) writes [value] into [vec[0..n-1]]. *)
Fixpoint esl_vec_DSet (vec : list R) (n : nat) (value : R) : list R :=
  match n, vec with
  | O, _ => vec
  | Datatypes.S n', _ :: rest => value :: esl_vec_DSet rest n' value
  | Datatypes.S _, [] => []
  end.

(** Modelled from the spec: [p7_hmm_Scale(hmm, scale)] scales every
    count in the Model by [scale]. *)
Definition p7_hmm_Scale (hmm : P7_HMM) (scale : R) : P7_HMM :=
  set_counts hmm (map (fun c => (c * scale)%R) (hmm_counts hmm)).

(** Modelled from the spec: the generator operations.  Seed 0 asks for
    an arbitrarily chosen seed, [arbitrary] being the choice made. *)
Definition esl_randomness_Create (arbitrary : Z) (seed : Z) : ESL_RANDOMNESS :=
  {| rng_seed := if seed =? 0 then arbitrary else seed; rng_used := 0%N |}.

Definition esl_randomness_GetSeed (g : ESL_RANDOMNESS) : Z := rng_seed g.

Definition esl_randomness_Init (g : ESL_RANDOMNESS) (seed : Z) : ESL_RANDOMNESS :=
  {| rng_seed := seed; rng_used := 0%N |}.

(** C [int] arithmetic on the usual two's-complement targets. *)
Definition int_wrap (z : Z) : Z := (z + 2147483648) mod 4294967296 - 2147483648.

Section Pipeline.

Variable X : Collaborators.

(** ** 3. Internal functions *)

(** [relative_weights()]: set [msa->wgt] by the configured algorithm.
    The three pairwise strategies share the [pbswitch] test of the
    source's third branch. *)
Definition relative_weights (bld : P7_BUILDER) (msa : ESL_MSA) (log : Log)
  : status * P7_BUILDER * ESL_MSA * Log :=
  let forced := negb (pbswitch bld =? -1) && (msa_nseq msa >=? pbswitch bld) in
  let '(status, msa, log) :=
    match wgt_strategy bld with
    | p7_WGT_NONE =>
        (eslOK,
         set_msa_wgt msa (esl_vec_DSet (msa_wgt msa) (Z.to_nat (msa_nseq msa)) 1%R),
         log ++ [Ev_vec_DSet (msa_nseq msa) 1%R])
    | p7_WGT_GIVEN => (eslOK, msa, log)
    | p7_WGT_PB =>
        if forced
        then let '(s, m) := esl_msaweight_PB X msa in (s, m, log ++ [Ev_msaweight_PB])
        else let '(s, m) := esl_msaweight_PB X msa in (s, m, log ++ [Ev_msaweight_PB])
    | p7_WGT_GSC =>
        if forced
        then let '(s, m) := esl_msaweight_PB X msa in (s, m, log ++ [Ev_msaweight_PB])
        else let '(s, m) := esl_msaweight_GSC X msa in (s, m, log ++ [Ev_msaweight_GSC])
    | p7_WGT_BLOSUM =>
        if forced
        then let '(s, m) := esl_msaweight_PB X msa in (s, m, log ++ [Ev_msaweight_PB])
        else let '(s, m) := esl_msaweight_BLOSUM X msa (wid bld) in
             (s, m, log ++ [Ev_msaweight_BLOSUM (wid bld)])
    end in
  if negb (status =? eslOK)
  then (status, xfail bld "failed to set relative weights in alignment" [], msa, log)
  else (eslOK, bld, msa, log).

(** [build_model()]: choose the architecture and collect counts. *)
Definition build_model (bld : P7_BUILDER) (msa : ESL_MSA) (want_tr : bool) (log : Log)
  : esl_result (P7_HMM * option (list P7_TRACE))
               (option P7_HMM * option (list P7_TRACE))
    * P7_BUILDER * ESL_MSA * Log :=
  let keep (t : option (list P7_TRACE)) := if want_tr then t else None in
  let name_of (m : ESL_MSA) := match msa_name m with Some n => n | None => "" end in
  match arch_strategy bld with
  | p7_ARCH_FAST =>
      let '(res, msa) := p7_Fastmodelmaker X msa (symfrac bld) want_tr in
      let log := log ++ [Ev_Fastmodelmaker (symfrac bld)] in
      match res with
      | Done (hmm, tr) => (Done (hmm, keep (Some tr)), bld, msa, log)
      | Failed c (hmm, tr) =>
          let status := Z.pos c in
          let bld :=
            if status =? eslENORESULT then
              xfail bld "Alignment %s has no consensus columns w/ > %d%% residues - can't build a model.\n"
                    [ArgStr (name_of msa); ArgInt (int_of_double (100 * symfrac bld))]
            else if status =? eslEMEM then
              xfail bld "Memory allocation failure in model construction.\n" []
            else if negb (status =? eslOK) then
              xfail bld "internal error in model construction.\n" []
            else bld in
          (Failed c (hmm, keep tr), bld, msa, log)
      end
  | p7_ARCH_HAND =>
      let '(res, msa) := p7_Handmodelmaker X msa want_tr in
      let log := log ++ [Ev_Handmodelmaker] in
      match res with
      | Done (hmm, tr) => (Done (hmm, keep (Some tr)), bld, msa, log)
      | Failed c (hmm, tr) =>
          let status := Z.pos c in
          let bld :=
            if status =? eslENORESULT then
              xfail bld "Alignment %s has no annotated consensus columns - can't build a model.\n"
                    [ArgStr (name_of msa)]
            else if status =? eslEFORMAT then
              xfail bld "Alignment %s has no reference annotation line\n" [ArgStr (name_of msa)]
            else if status =? eslEMEM then
              xfail bld "Memory allocation failure in model construction.\n" []
            else if negb (status =? eslOK) then
              xfail bld "internal error in model construction.\n" []
            else bld in
          (Failed c (hmm, keep tr), bld, msa, log)
      end
  end.

(** [default_target_relent()]: the length-dependent target relative
    entropy.  [(M * (M+1)) / 2] and [2*M + 4] are [int] computations. *)
Definition default_target_relent (bld : P7_BUILDER) (M : Z) : c_double :=
  let etarget :=
    c_div_int
      (c_lift (Rmult 6)
         (c_lift (Rplus (eX bld))
            (c_lift (fun v => (v / ln 2)%R)
               (c_log_int (Z.quot (int_wrap (M * int_wrap (M + 1))) 2)))))
      (int_wrap (int_wrap (2 * M) + 4)) in
  match abc_type (abc bld) with
  | eslAMINO => c_raise_to etarget (p7_ETARGET_AMINO X)
  | eslDNA   => c_raise_to etarget (p7_ETARGET_DNA X)
  | eslRNA   => c_raise_to etarget (p7_ETARGET_DNA X)
  | eslNONSTANDARD => c_raise_to etarget (p7_ETARGET_OTHER X)
  end.

(** The tail shared by every branch of [effective_seqnumber()] that
    does not fail: [p7_hmm_Scale(hmm, hmm->eff_nseq / (double) hmm->nseq)]. *)
Definition scale_to_effective (bld : P7_BUILDER) (hmm : P7_HMM) (log : Log)
  : status * P7_BUILDER * P7_HMM * Log :=
  let scale := (hmm_eff_nseq hmm / IZR (hmm_nseq hmm))%R in
  (eslOK, bld, p7_hmm_Scale hmm scale, log ++ [Ev_hmm_Scale scale]).

(** [effective_seqnumber()] *)
Definition effective_seqnumber (bld : P7_BUILDER) (msa : ESL_MSA) (hmm : P7_HMM)
    (bg : P7_BG) (log : Log) : status * P7_BUILDER * P7_HMM * Log :=
  match effn_strategy bld with
  | p7_EFFN_NONE => scale_to_effective bld (set_eff_nseq hmm (IZR (msa_nseq msa))) log
  | p7_EFFN_SET  => scale_to_effective bld (set_eff_nseq hmm (eset bld)) log
  | p7_EFFN_CLUST =>
      let '(status, nclust) := esl_msacluster_SingleLinkage X msa (eid bld) in
      let log := log ++ [Ev_msacluster_SingleLinkage (eid bld)] in
      if status =? eslEMEM then
        (status, xfail bld "memory allocation failed" [], hmm, log)
      else if negb (status =? eslOK) then
        (status,
         xfail bld "single linkage clustering algorithm (at %d%% id) failed"
               [ArgInt (int_of_double (100 * eid bld))],
         hmm, log)
      else scale_to_effective bld (set_eff_nseq hmm (IZR nclust)) log
  | p7_EFFN_ENTROPY =>
      let etarget :=
        if Rlt_dec (re_target bld) 0 then default_target_relent bld (hmm_M hmm)
        else Finite (re_target bld) in
      let '(status, eff_nseq) := p7_EntropyWeight X hmm bg (prior bld) etarget in
      let log := log ++ [Ev_EntropyWeight etarget] in
      if status =? eslEMEM then
        (status, xfail bld "memory allocation failed" [], hmm, log)
      else if negb (status =? eslOK) then
        (status, xfail bld "internal failure in entropy weighting algorithm" [], hmm, log)
      else scale_to_effective bld (set_eff_nseq hmm eff_nseq) log
  end.

(** [parameterize()] *)
Definition parameterize (bld : P7_BUILDER) (hmm : P7_HMM) (log : Log)
  : status * P7_BUILDER * P7_HMM * Log :=
  let '(status, hmm) := p7_ParameterEstimation X hmm (prior bld) in
  let log := log ++ [Ev_ParameterEstimation] in
  if negb (status =? eslOK)
  then (status, xfail bld "parameter estimation failed" [], hmm, log)
  else (eslOK, bld, hmm, log).

(** The copy of one pair of score cut-offs at the end of [annotate()]. *)
Definition copy_cutoffs (msa : ESL_MSA) (hmm : P7_HMM) (c1 c2 : cutoff_slot) (flag : Z)
  : P7_HMM :=
  if msa_cutset msa c1 && msa_cutset msa c2
  then or_flags (set_cutoff (set_cutoff hmm c1 (msa_cutoff msa c1)) c2 (msa_cutoff msa c2)) flag
  else hmm.

(** [annotate()] *)
Definition annotate (bld : P7_BUILDER) (msa : ESL_MSA) (hmm : P7_HMM) (log : Log)
  : status * P7_BUILDER * P7_HMM * Log :=
  match msa_name msa with
  | None => (eslEINVAL, xfail bld "Unable to name the HMM." [], hmm, log)
  | Some name =>
    let '(_, hmm) := p7_hmm_SetName X hmm name in
    let log := log ++ [Ev_hmm_SetName] in
    let '(status, hmm) := p7_hmm_SetAccession X hmm (msa_acc msa) in
    let log := log ++ [Ev_hmm_SetAccession] in
    if negb (status =? eslOK)
    then (status, xfail bld "Failed to record MSA accession" [], hmm, log) else
    let '(status, hmm) := p7_hmm_SetDescription X hmm (msa_desc msa) in
    let log := log ++ [Ev_hmm_SetDescription] in
    if negb (status =? eslOK)
    then (status, xfail bld "Failed to record MSA description" [], hmm, log) else
    let '(status, hmm) := p7_hmm_SetCtime X hmm in
    let log := log ++ [Ev_hmm_SetCtime] in
    if negb (status =? eslOK)
    then (status, xfail bld "Failed to record timestamp" [], hmm, log) else
    let '(status, checksum) := esl_msa_Checksum X msa in
    let hmm := set_checksum hmm checksum in
    let log := log ++ [Ev_msa_Checksum] in
    if negb (status =? eslOK)
    then (status, xfail bld "Failed to record checksum" [], hmm, log) else
    let '(status, hmm) := p7_hmm_SetComposition X hmm in
    let log := log ++ [Ev_hmm_SetComposition] in
    if negb (status =? eslOK)
    then (status, xfail bld "Failed to determine model composition" [], hmm, log) else
    let hmm := or_flags hmm (p7H_CHKSUM X) in
    let hmm := or_flags hmm (p7H_COMPO X) in
    let hmm := copy_cutoffs msa hmm GA1 GA2 (p7H_GA X) in
    let hmm := copy_cutoffs msa hmm TC1 TC2 (p7H_TC X) in
    let hmm := copy_cutoffs msa hmm NC1 NC2 (p7H_NC X) in
    (eslOK, bld, hmm, log)
  end.

(** Modelled from the spec: [p7_Calibrate()] of [evalues.c], which is
    not part of this file.  It is handed the configuration [cfg_b], the
    generator and the caller's profile variables, all by pointer.  It
    runs the two simulations on the configuration's random source,
    "reseeded deterministically per the reseed flag", and materialises
    a profile or optimized profile only when requested.  When it fails
    it may leave an explanation in the configuration's message buffer
    (none on an allocation failure); when it succeeds the buffer is
    left alone. *)
Definition p7_Calibrate (hmm : P7_HMM) (cfg_b : P7_BUILDER) (g : ESL_RANDOMNESS) (bg : P7_BG)
    (opt_gm : cell P7_PROFILE) (opt_om : cell P7_OPROFILE)
  : status * P7_HMM * P7_BUILDER * ESL_RANDOMNESS * cell P7_PROFILE * cell P7_OPROFILE :=
  let g := if do_reseeding cfg_b
           then esl_randomness_Init g (esl_randomness_GetSeed g) else g in
  let cp := {| cp_EvL := EvL cfg_b; cp_EvN := EvN cfg_b; cp_EfL := EfL cfg_b;
               cp_EfN := EfN cfg_b; cp_Eft := Eft cfg_b |} in
  let '(status, hmm, g, gm, om, msg) :=
    calibration_simulations X hmm cp g bg opt_gm opt_om in
  let cfg_b := match msg with
               | Some m => if status =? eslOK then cfg_b else set_errbuf cfg_b m
               | None => cfg_b
               end in
  (status, hmm, cfg_b, g, store opt_gm gm, store opt_om om).

(** [calibrate()] *)
Definition calibrate (bld : P7_BUILDER) (hmm : P7_HMM) (bg : P7_BG)
    (opt_gm : cell P7_PROFILE) (opt_om : cell P7_OPROFILE) (log : Log)
  : status * P7_BUILDER * P7_HMM * cell P7_PROFILE * cell P7_OPROFILE * Log :=
  let opt_gm := store opt_gm None in
  let opt_om := store opt_om None in
  let log := log ++ [Ev_Calibrate (do_reseeding bld)] in
  let '(status, hmm, bld, g, opt_gm, opt_om) :=
    p7_Calibrate hmm bld (bld_r bld) bg opt_gm opt_om in
  let bld := set_rng bld g in
  if negb (status =? eslOK)
  then (status, bld, hmm, opt_gm, opt_om, log)
  else (eslOK, bld, hmm, opt_gm, opt_om, log).

(** [make_post_msa()] *)
Definition make_post_msa (bld : P7_BUILDER) (premsa : ESL_MSA) (hmm : P7_HMM)
    (tr : option (list P7_TRACE)) (opt_postmsa : cell ESL_MSA) (log : Log)
  : status * cell ESL_MSA * Log :=
  match opt_postmsa with
  | None => (eslOK, opt_postmsa, log)
  | Some _ =>
      let optflags := p7_DEFAULT X in
      let log := log ++ [Ev_tracealign_MSA] in
      match p7_tracealign_MSA X premsa tr (hmm_M hmm) optflags with
      | Done postmsa => (eslOK, Some (Some postmsa), log)
      | Failed c postmsa =>
          (Z.pos c, opt_postmsa,
           match postmsa with Some m => log ++ [Ev_msa_Destroy m] | None => log end)
      end
  end.

(** ** 2. Standardized model construction API *)

(** What [p7_Builder()] leaves behind: its return value, the objects it
    mutates, the caller's out-variables, and the log. *)
Record BuilderRun := {
  run_status      : status;
  run_bld         : P7_BUILDER;
  run_msa         : ESL_MSA;
  run_opt_hmm     : cell P7_HMM;
  run_opt_trarr   : cell (list P7_TRACE);
  run_opt_gm      : cell P7_PROFILE;
  run_opt_om      : cell P7_OPROFILE;
  run_opt_postmsa : cell ESL_MSA;
  run_log         : Log
}.

(** The destructor calls of the [ERROR:] block of [p7_Builder()]. *)
Definition builder_cleanup (hmm : option P7_HMM) (tr : option (list P7_TRACE)) (nseq : Z)
    (opt_gm : cell P7_PROFILE) (opt_om : cell P7_OPROFILE) : Log :=
  [Ev_hmm_Destroy hmm; Ev_trace_DestroyArray tr nseq]
  ++ match opt_gm with Some gm => [Ev_profile_Destroy gm] | None => [] end
  ++ match opt_om with Some om => [Ev_oprofile_Destroy om] | None => [] end.

(** The [ERROR:] block of [p7_Builder()], entered with the current
    values of the locals. *)
Definition builder_ERROR (status : status) (bld : P7_BUILDER) (msa : ESL_MSA)
    (hmm : option P7_HMM) (tr : option (list P7_TRACE))
    (opt_hmm : cell P7_HMM) (opt_trarr : cell (list P7_TRACE))
    (opt_gm : cell P7_PROFILE) (opt_om : cell P7_OPROFILE)
    (opt_postmsa : cell ESL_MSA) (log : Log) : BuilderRun :=
  {| run_status := status; run_bld := bld; run_msa := msa;
     run_opt_hmm := opt_hmm; run_opt_trarr := opt_trarr;
     run_opt_gm := opt_gm; run_opt_om := opt_om; run_opt_postmsa := opt_postmsa;
     run_log := log ++ builder_cleanup hmm tr (msa_nseq msa) opt_gm opt_om |}.

(** [p7_Builder()] *)
Definition p7_Builder (bld : P7_BUILDER) (msa : ESL_MSA) (bg : P7_BG)
    (opt_hmm : cell P7_HMM) (opt_trarr : cell (list P7_TRACE))
    (opt_gm : cell P7_PROFILE) (opt_om : cell P7_OPROFILE)
    (opt_postmsa : cell ESL_MSA) (log : Log) : BuilderRun :=
  let want_tr := requested opt_trarr || requested opt_postmsa in
  let '(status, bld, msa, log) := relative_weights bld msa log in
  if negb (status =? eslOK)
  then builder_ERROR status bld msa None None opt_hmm opt_trarr opt_gm opt_om opt_postmsa log
  else
  let '(built, bld, msa, log) := build_model bld msa want_tr log in
  match built with
  | Failed c (hmm, tr) =>
      builder_ERROR (Z.pos c) bld msa hmm tr opt_hmm opt_trarr opt_gm opt_om opt_postmsa log
  | Done (hmm, tr) =>
  let '(status, bld, hmm, log) := effective_seqnumber bld msa hmm bg log in
  if negb (status =? eslOK)
  then builder_ERROR status bld msa (Some hmm) tr opt_hmm opt_trarr opt_gm opt_om opt_postmsa log
  else
  let '(status, bld, hmm, log) := parameterize bld hmm log in
  if negb (status =? eslOK)
  then builder_ERROR status bld msa (Some hmm) tr opt_hmm opt_trarr opt_gm opt_om opt_postmsa log
  else
  let '(status, bld, hmm, log) := annotate bld msa hmm log in
  if negb (status =? eslOK)
  then builder_ERROR status bld msa (Some hmm) tr opt_hmm opt_trarr opt_gm opt_om opt_postmsa log
  else
  let '(status, bld, hmm, opt_gm, opt_om, log) := calibrate bld hmm bg opt_gm opt_om log in
  if negb (status =? eslOK)
  then builder_ERROR status bld msa (Some hmm) tr opt_hmm opt_trarr opt_gm opt_om opt_postmsa log
  else
  let '(status, opt_postmsa, log) := make_post_msa bld msa hmm tr opt_postmsa log in
  if negb (status =? eslOK)
  then builder_ERROR status bld msa (Some hmm) tr opt_hmm opt_trarr opt_gm opt_om opt_postmsa log
  else
  {| run_status := eslOK; run_bld := bld; run_msa := msa;
     run_opt_hmm := store opt_hmm (Some hmm);
     run_opt_trarr := store opt_trarr tr;
     run_opt_gm := opt_gm; run_opt_om := opt_om; run_opt_postmsa := opt_postmsa;
     run_log := log
       ++ (if requested opt_hmm then [] else [Ev_hmm_Destroy (Some hmm)])
       ++ (if requested opt_trarr then [] else [Ev_trace_DestroyArray tr (msa_nseq msa)]) |}
  end.

(** Modelled from the spec: [p7_trace_Create()] and [p7_trace_Append()]
    of [p7_trace.c].  A new trace is empty; appending adds one (state,
    node index, position) triple at the end; either can fail to
    allocate. *)
Definition p7_trace_Create : option P7_TRACE :=
  if trace_Create_ok X then Some {| tr_steps := []; tr_M := 0; tr_L := 0 |} else None.

Definition p7_trace_Append (tr : P7_TRACE) (st : p7t_statetype) (k i : Z)
  : status * P7_TRACE :=
  let s := trace_Append_status X tr in
  if s =? eslOK
  then (eslOK, {| tr_steps := tr_steps tr ++ [(st, k, i)]; tr_M := tr_M tr; tr_L := tr_L tr |})
  else (s, tr).

(** The loop [for (k = 1; k <= sq->n; k++) p7_trace_Append(tr, p7T_M, k, k)],
    entered at [k] with [todo] iterations to go. *)
Fixpoint append_match_states (todo : nat) (k : Z) (tr : P7_TRACE) (log : Log)
  : status * P7_TRACE * Log :=
  match todo with
  | O => (eslOK, tr, log)
  | Datatypes.S todo' =>
      let '(status, tr) := p7_trace_Append tr p7T_M k k in
      let log := log ++ [Ev_trace_Append p7T_M k k] in
      if negb (status =? eslOK) then (status, tr, log)
      else append_match_states todo' (k + 1) tr log
  end.

Definition set_trace_lengths (tr : P7_TRACE) (M L : Z) : P7_TRACE :=
  {| tr_steps := tr_steps tr; tr_M := M; tr_L := L |}.

Record SingleRun := {
  srun_status  : status;
  srun_bld     : P7_BUILDER;
  srun_opt_hmm : cell P7_HMM;
  srun_opt_tr  : cell P7_TRACE;
  srun_opt_gm  : cell P7_PROFILE;
  srun_opt_om  : cell P7_OPROFILE;
  srun_log     : Log
}.

(** The [ERROR:] block of [p7_SingleBuilder()]. *)
Definition single_ERROR (status : status) (bld : P7_BUILDER)
    (hmm : option P7_HMM) (tr : option P7_TRACE)
    (opt_hmm : cell P7_HMM) (opt_tr : cell P7_TRACE)
    (opt_gm : cell P7_PROFILE) (opt_om : cell P7_OPROFILE) (log : Log) : SingleRun :=
  {| srun_status := status; srun_bld := bld;
     srun_opt_hmm := opt_hmm; srun_opt_tr := opt_tr;
     srun_opt_gm := opt_gm; srun_opt_om := opt_om;
     srun_log := log ++ [Ev_hmm_Destroy hmm]
       ++ match tr with Some t => [Ev_trace_Destroy t] | None => [] end
       ++ match opt_gm with Some gm => [Ev_profile_Destroy gm] | None => [] end
       ++ match opt_om with Some om => [Ev_oprofile_Destroy om] | None => [] end |}.

(** [p7_SingleBuilder()].  [ESL_XEXCEPTION] sets [status], reports to
    the exception handler and goes to [ERROR:]. *)
Definition p7_SingleBuilder (bld : P7_BUILDER) (sq : ESL_SQ) (bg : P7_BG)
    (opt_hmm : cell P7_HMM) (opt_tr : cell P7_TRACE)
    (opt_gm : cell P7_PROFILE) (opt_om : cell P7_OPROFILE) (log : Log) : SingleRun :=
  let bld := set_errbuf bld empty_message in
  match bld_Q bld with
  | None =>
      single_ERROR eslEINVAL bld None None opt_hmm opt_tr opt_gm opt_om
        (log ++ [Ev_exception eslEINVAL "score system not initialized"])
  | Some Q =>
  let log := log ++ [Ev_Seqmodel] in
  match p7_Seqmodel X (abc bld) (sq_dsq sq) (sq_n sq) (sq_name sq) Q (bg_f bg)
                    (popen bld) (pextend bld) with
  | Failed c hmm => single_ERROR (Z.pos c) bld hmm None opt_hmm opt_tr opt_gm opt_om log
  | Done hmm =>
  let '(status, bld, hmm, opt_gm, opt_om, log) := calibrate bld hmm bg opt_gm opt_om log in
  if negb (status =? eslOK)
  then single_ERROR status bld (Some hmm) None opt_hmm opt_tr opt_gm opt_om log
  else
  let finish (tr : option P7_TRACE) (log : Log) :=
    {| srun_status := eslOK; srun_bld := bld;
       srun_opt_hmm := store opt_hmm (Some hmm);
       srun_opt_tr := store opt_tr tr;
       srun_opt_gm := opt_gm; srun_opt_om := opt_om;
       srun_log := log ++ (if requested opt_hmm then [] else [Ev_hmm_Destroy (Some hmm)]) |} in
  match opt_tr with
  | None => finish None log
  | Some _ =>
      let log := log ++ [Ev_trace_Create] in
      match p7_trace_Create with
      | None => single_ERROR status bld (Some hmm) None opt_hmm opt_tr opt_gm opt_om log
      | Some tr =>
      let '(status, tr) := p7_trace_Append tr p7T_B 0 0 in
      let log := log ++ [Ev_trace_Append p7T_B 0 0] in
      if negb (status =? eslOK)
      then single_ERROR status bld (Some hmm) (Some tr) opt_hmm opt_tr opt_gm opt_om log
      else
      let '(status, tr, log) := append_match_states (Z.to_nat (sq_n sq)) 1 tr log in
      if negb (status =? eslOK)
      then single_ERROR status bld (Some hmm) (Some tr) opt_hmm opt_tr opt_gm opt_om log
      else
      let '(status, tr) := p7_trace_Append tr p7T_E 0 0 in
      let log := log ++ [Ev_trace_Append p7T_E 0 0] in
      if negb (status =? eslOK)
      then single_ERROR status bld (Some hmm) (Some tr) opt_hmm opt_tr opt_gm opt_om log
      else finish (Some (set_trace_lengths tr (sq_n sq) (sq_n sq))) log
      end
  end
  end
  end.

(** ** 1. P7_BUILDER: allocation, initialization *)

(** The application configuration [ESL_GETOPTS], seen through the four
    getters the builder uses. *)
Record ESL_GETOPTS := {
  esl_opt_GetBoolean : string -> bool;
  esl_opt_IsOn       : string -> bool;
  esl_opt_GetReal    : string -> R;
  esl_opt_GetInteger : string -> Z
}.

(** The strategy choices of [p7_builder_Create()].  [raw] is the freshly
    allocated block: a field that no option assigns keeps its contents. *)
Definition choose_arch (raw : P7_BUILDER) (go : option ESL_GETOPTS) : p7_archchoice_e :=
  match go with
  | None => p7_ARCH_FAST
  | Some go =>
      if esl_opt_GetBoolean go "--fast" then p7_ARCH_FAST
      else if esl_opt_GetBoolean go "--hand" then p7_ARCH_HAND
      else arch_strategy raw
  end.

Definition choose_wgt (raw : P7_BUILDER) (go : option ESL_GETOPTS) : p7_wgtchoice_e :=
  match go with
  | None => p7_WGT_GSC
  | Some go =>
      if esl_opt_GetBoolean go "--wgsc" then p7_WGT_GSC
      else if esl_opt_GetBoolean go "--wblosum" then p7_WGT_BLOSUM
      else if esl_opt_GetBoolean go "--wpb" then p7_WGT_PB
      else if esl_opt_GetBoolean go "--wnone" then p7_WGT_NONE
      else if esl_opt_GetBoolean go "--wgiven" then p7_WGT_GIVEN
      else wgt_strategy raw
  end.

(** The effective-number strategy together with [eset], which starts
    as [-1.0] ("unset") and is assigned only with [--eset]. *)
Definition choose_effn (raw : P7_BUILDER) (go : option ESL_GETOPTS)
  : p7_effnchoice_e * R :=
  match go with
  | None => (p7_EFFN_ENTROPY, (-1)%R)
  | Some go =>
      if esl_opt_GetBoolean go "--eent" then (p7_EFFN_ENTROPY, (-1)%R)
      else if esl_opt_GetBoolean go "--eclust" then (p7_EFFN_CLUST, (-1)%R)
      else if esl_opt_GetBoolean go "--enone" then (p7_EFFN_NONE, (-1)%R)
      else if esl_opt_IsOn go "--eset" then (p7_EFFN_SET, esl_opt_GetReal go "--eset")
      else (effn_strategy raw, (-1)%R)
  end.

Definition choose_seed (go : option ESL_GETOPTS) : Z :=
  match go with
  | None => 0
  | Some go => esl_opt_GetInteger go "--seed"
  end.

(** [(go != NULL) ? esl_opt_GetReal(go, name) : default], and its
    integer twin. *)
Definition real_option (go : option ESL_GETOPTS) (name : string) (default : R) : R :=
  match go with Some go => esl_opt_GetReal go name | None => default end.

Definition int_option (go : option ESL_GETOPTS) (name : string) (default : Z) : Z :=
  match go with Some go => esl_opt_GetInteger go name | None => default end.

Definition choose_prior (abc : ESL_ALPHABET) : option P7_PRIOR :=
  match abc_type abc with
  | eslAMINO => p7_prior_CreateAmino X
  | eslDNA   => p7_prior_CreateNucleic X
  | eslRNA   => p7_prior_CreateNucleic X
  | eslNONSTANDARD => p7_prior_CreateLaplace X abc
  end.

(** [p7_builder_Create()].  [fresh] is the block [ESL_ALLOC] returns
    ([None] when the allocation fails).  [arbitrary] is the seed the
    random source picks when asked for seed 0.  The generator itself is
    always present: a failure to allocate it is not modelled.  The
    result is [None] for the [NULL] of an allocation failure. *)
Definition p7_builder_Create (fresh : option P7_BUILDER) (arbitrary : Z)
    (go : option ESL_GETOPTS) (abc : ESL_ALPHABET) : option P7_BUILDER :=
  match fresh with
  | None => None
  | Some raw =>
    let seed := choose_seed go in
    match choose_prior abc with
    | None => None
    | Some p =>
      Some {| arch_strategy := choose_arch raw go;
              symfrac   := real_option go "--symfrac" (5 / 10)%R;
              wgt_strategy := choose_wgt raw go;
              wid       := real_option go "--wid" (62 / 100)%R;
              pbswitch  := int_option go "--pbswitch" 1000;
              effn_strategy := fst (choose_effn raw go);
              re_target :=
                match go with
                | Some go =>
                    if esl_opt_IsOn go "--ere" then esl_opt_GetReal go "--ere" else (-1)%R
                | None => (-1)%R
                end;
              eX        := real_option go "--eX" 6%R;
              eid       := real_option go "--eid" (62 / 100)%R;
              eset      := snd (choose_effn raw go);
              EvL       := int_option go "--EvL" 100;
              EvN       := int_option go "--EvN" 200;
              EfL       := int_option go "--EfL" 100;
              EfN       := int_option go "--EfN" 200;
              Eft       := real_option go "--Eft" (4 / 100)%R;
              bld_r     := esl_randomness_Create arbitrary seed;
              do_reseeding := if seed =? 0 then false else true;
              prior     := Some p;
              abc       := abc;
              bld_S     := None;
              bld_Q     := None;
              popen     := popen raw;
              pextend   := pextend raw;
              errbuf    := empty_message |}
    end
  end.

(** [Q->mx[a][b] /= fa[a]] for [a], [b] below [K]. *)
Fixpoint divide_row (row : list R) (cols : nat) (d : R) : list R :=
  match cols, row with
  | O, _ => row
  | Datatypes.S c, x :: rest => (x / d)%R :: divide_row rest c d
  | Datatypes.S _, [] => []
  end.

Fixpoint divide_rows (mx : list (list R)) (fa : list R) (rows cols : nat)
  : list (list R) :=
  match rows, mx with
  | O, _ => mx
  | Datatypes.S n, row :: rest =>
      divide_row row cols (hd 0%R fa) :: divide_rows rest (tl fa) n cols
  | Datatypes.S _, [] => []
  end.

(** The first half of [p7_builder_SetScoreSystem()], "Get the scoring
    matrix": the matrix now in [bld->S], or the status, configuration
    and log with which the function leaves through [ERROR:]. *)
Definition get_scoring_matrix (bld : P7_BUILDER) (mxfile env : option string) (log : Log)
  : (ESL_SCOREMATRIX * P7_BUILDER * Log) + (status * P7_BUILDER * Log) :=
  let log := log ++ [Ev_scorematrix_Create] in
  match esl_scorematrix_Create X (abc bld) with
  | None => inr (eslEMEM, set_score_system bld None (bld_Q bld), log)
  | Some S0 =>
    let bld := set_score_system bld (Some S0) (bld_Q bld) in
    match mxfile with
    | None =>
        let '(status, S1) := esl_scorematrix_SetBLOSUM62 X S0 in
        let bld := set_score_system bld (Some S1) (bld_Q bld) in
        let log := log ++ [Ev_scorematrix_SetBLOSUM62] in
        if negb (status =? eslOK) then inr (status, bld, log)
        else inl (S1, bld, log)
    | Some file =>
        let log := log ++ [Ev_fileparser_Open file] in
        match esl_fileparser_Open X file env with
        | Failed c efp =>
            inr (Z.pos c,
                 xfail bld "Failed to find or open matrix file %s" [ArgStr file],
                 match efp with Some _ => log ++ [Ev_fileparser_Close] | None => log end)
        | Done efp =>
            let log := log ++ [Ev_sco_Read] in
            match esl_sco_Read X efp (abc bld) S0 with
            | (Failed c S1, efp) =>
                inr (Z.pos c,
                     xfail (set_score_system bld S1 (bld_Q bld))
                           "Failed to read matrix from %s:\n%s"
                           [ArgStr file; ArgStr (efp_errbuf efp)],
                     log ++ [Ev_fileparser_Close])
            | (Done S1, efp) =>
                inl (S1, set_score_system bld (Some S1) (bld_Q bld),
                     log ++ [Ev_fileparser_Close])
            end
        end
    end
  end.

(** "If a score system is already set, delete it": the destructor
    calls at the head of [p7_builder_SetScoreSystem()]. *)
Definition release_score_system (bld : P7_BUILDER) : Log :=
  match bld_S bld with Some _ => [Ev_scorematrix_Destroy] | None => [] end
  ++ match bld_Q bld with Some _ => [Ev_dmatrix_Destroy] | None => [] end.

(** [p7_builder_SetScoreSystem()] *)
Definition p7_builder_SetScoreSystem (bld : P7_BUILDER) (mxfile env : option string)
    (popen pextend : R) (log : Log) : status * P7_BUILDER * Log :=
  let bld := set_errbuf bld empty_message in
  let log := log ++ release_score_system bld in
  match get_scoring_matrix bld mxfile env log with
  | inr failure => failure
  | inl (S1, bld, log) =>
    let log := log ++ [Ev_scorematrix_IsSymmetric S1] in
    if negb (esl_scorematrix_IsSymmetric X S1)
    then (eslEINVAL, xfail bld "Matrix isn't symmetric" [], log)
    else
    let log := log ++ [Ev_sco_Probify S1] in
    match esl_sco_Probify X S1 with
    | Failed _ (Q1, _, _) =>
        (eslEINVAL,
         xfail (set_score_system bld (bld_S bld) Q1)
               "Yu/Altschul method failed to backcalculate probabilistic basis of score matrix" [],
         log)
    | Done (Q1, fa, fb, slambda) =>
        let K := Z.to_nat (abc_K (abc bld)) in
        let bld := set_score_system bld (bld_S bld) (Some (divide_rows Q1 fa K K)) in
        (eslOK, set_gap_probs bld popen pextend, log)
    end
  end.

End Pipeline.

(** ** Reading results *)

Definition res_status {A B C} (x : status * A * B * C) : status := fst (fst (fst x)).
Definition res_bld {A B C} (x : status * A * B * C) : A := snd (fst (fst x)).
Definition res_obj {A B C} (x : status * A * B * C) : B := snd (fst x).
Definition res_log {A B C} (x : status * A * B * C) : C := snd x.

(** ** Concrete collaborators and inputs

    A world in which every collaborator succeeds, used to run the
    pipeline on examples; variants make one collaborator fail. *)

Definition sample_hmm (M nseq : Z) : P7_HMM :=
  {| hmm_M := M; hmm_nseq := nseq; hmm_eff_nseq := IZR nseq;
     hmm_counts := [2%R; 4%R]; hmm_name := None; hmm_checksum := 0;
     hmm_flags := 0; hmm_cutoff := fun _ => 0%R; hmm_evparam := [] |}.

Definition sample_trace : P7_TRACE := {| tr_steps := []; tr_M := 0; tr_L := 0 |}.

Definition nominal : Collaborators :=
  {| esl_msaweight_PB := fun msa => (eslOK, msa);
     esl_msaweight_GSC := fun msa => (eslOK, msa);
     esl_msaweight_BLOSUM := fun msa _ => (eslOK, msa);
     p7_Fastmodelmaker := fun msa _ _ =>
       (Done (sample_hmm 3 (msa_nseq msa), [sample_trace]), msa);
     p7_Handmodelmaker := fun msa _ =>
       (Done (sample_hmm 3 (msa_nseq msa), [sample_trace]), msa);
     esl_msacluster_SingleLinkage := fun _ _ => (eslOK, 1);
     p7_EntropyWeight := fun _ _ _ _ => (eslOK, 1%R);
     p7_ParameterEstimation := fun hmm _ => (eslOK, hmm);
     p7_hmm_SetName := fun hmm _ => (eslOK, hmm);
     p7_hmm_SetAccession := fun hmm _ => (eslOK, hmm);
     p7_hmm_SetDescription := fun hmm _ => (eslOK, hmm);
     p7_hmm_SetCtime := fun hmm => (eslOK, hmm);
     p7_hmm_SetComposition := fun hmm => (eslOK, hmm);
     esl_msa_Checksum := fun _ => (eslOK, 7);
     calibration_simulations := fun hmm _ g _ opt_gm opt_om =>
       (eslOK, hmm, {| rng_seed := rng_seed g; rng_used := (rng_used g + 2)%N |},
        match opt_gm with Some (Some gm) => Some gm | _ => Some (profile_id 1) end,
        match opt_om with Some (Some om) => Some om | _ => Some (oprofile_id 1) end,
        None);
     p7_tracealign_MSA := fun msa _ _ _ => Done msa;
     p7_Seqmodel := fun _ _ n _ _ _ _ _ => Done (sample_hmm n 1);
     trace_Create_ok := true;
     trace_Append_status := fun _ => eslOK;
     esl_scorematrix_Create := fun _ => Some [];
     esl_scorematrix_SetBLOSUM62 := fun _ => (eslOK, [[4; -1]; [-1; 5]]);
     esl_fileparser_Open := fun _ _ => Done {| efp_errbuf := "" |};
     esl_sco_Read := fun efp _ _ => (Done [[1; 2]; [3; 4]], efp);
     esl_scorematrix_IsSymmetric := fun S =>
       match S with
       | [[_; b]; [c; _]] => b =? c
       | _ => true
       end;
     esl_sco_Probify := fun _ =>
       Done ([[1%R; 1%R]; [1%R; 1%R]], [2%R; 2%R], [2%R; 2%R], 1%R);
     p7_prior_CreateAmino := Some prior_Amino;
     p7_prior_CreateNucleic := Some prior_Nucleic;
     p7_prior_CreateLaplace := fun abc => Some (prior_Laplace abc);
     p7_ETARGET_AMINO := (59 / 100)%R;
     p7_ETARGET_DNA := (62 / 100)%R;
     p7_ETARGET_OTHER := 1%R;
     p7H_CHKSUM := 32768; p7H_COMPO := 16384;
     p7H_GA := 1024; p7H_TC := 2048; p7H_NC := 4096;
     p7_DEFAULT := 0 |}.

Definition amino : ESL_ALPHABET := {| abc_type := eslAMINO; abc_K := 20 |}.

(** A configuration with the defaults of [p7_builder_Create(NULL, abc)]
    except for the fields given. *)
Definition config (wgt : p7_wgtchoice_e) (pbs : Z) (effn : p7_effnchoice_e)
    (es x : R) (seed : Z) : P7_BUILDER :=
  {| arch_strategy := p7_ARCH_FAST; symfrac := (5 / 10)%R;
     wgt_strategy := wgt; wid := (62 / 100)%R; pbswitch := pbs;
     effn_strategy := effn; re_target := (-1)%R; eX := x; eid := (62 / 100)%R;
     eset := es; EvL := 100; EvN := 200; EfL := 100; EfN := 200; Eft := (4 / 100)%R;
     bld_r := esl_randomness_Create 12345 seed;
     do_reseeding := if seed =? 0 then false else true;
     prior := Some prior_Amino; abc := amino; bld_S := None; bld_Q := None;
     popen := (2 / 100)%R; pextend := (4 / 10)%R; errbuf := empty_message |}.

Definition sample_msa (nseq : Z) : ESL_MSA :=
  {| msa_name := Some "globins"; msa_acc := None; msa_desc := None;
     msa_nseq := nseq; msa_wgt := repeat (3 / 10)%R (Z.to_nat nseq);
     msa_rf := None; msa_cutset := fun _ => false; msa_cutoff := fun _ => 0%R |}.

Definition sample_bg : P7_BG := {| bg_f := [(5 / 10)%R; (5 / 10)%R] |}.

(** ** The vocabulary of the properties

    What the statements below speak of: the shape of results, the
    formula of the target, the linear trace, and the stages of the
    pipeline. *)

(** The model [hmm] leaves [effective_seqnumber()] with effective count
    [eff]: [eff_nseq] is set, every count is multiplied by
    [eff / nseq], and the scaling is the last thing that happened. *)
Definition scaled_to (hmm : P7_HMM) (eff : R)
    (out : status * P7_BUILDER * P7_HMM * Log) : Prop :=
  res_obj out = p7_hmm_Scale (set_eff_nseq hmm eff) (eff / IZR (hmm_nseq hmm)) /\
  hmm_eff_nseq (res_obj out) = eff /\
  hmm_counts (res_obj out) =
    map (fun c => (c * (eff / IZR (hmm_nseq hmm)))%R) (hmm_counts hmm) /\
  exists before, res_log out = before ++ [Ev_hmm_Scale (eff / IZR (hmm_nseq hmm))].

(** The target as the formula reads over the reals:
    [6 (offset + log2 (M (M+1) / 2)) / (2M + 4)]. *)
Definition target_formula (offset : R) (M : Z) : R :=
  (6 * (offset + ln (IZR (M * (M + 1) / 2)) / ln 2) / IZR (2 * M + 4))%R.

(** The hard minimum of an alphabet type. *)
Definition alphabet_floor (X : Collaborators) (t : alphabet_type) : R :=
  match t with
  | eslAMINO => p7_ETARGET_AMINO X
  | eslDNA | eslRNA => p7_ETARGET_DNA X
  | eslNONSTANDARD => p7_ETARGET_OTHER X
  end.

(** The largest [M] for which [M * (M+1)] fits an [int]. *)
Definition max_int_M : Z := 46340.

(** What a calibration run delivers: its status, the model with its
    parameters, and the profiles in the caller's variables. *)
Definition calibrated
    (out : status * P7_BUILDER * P7_HMM * cell P7_PROFILE * cell P7_OPROFILE * Log)
  : status * P7_HMM * cell P7_PROFILE * cell P7_OPROFILE :=
  let '(status, _, hmm, opt_gm, opt_om, _) := out in (status, hmm, opt_gm, opt_om).

(** The simulations of a calibration, as [calibrate] hands them the
    parameters of [bld], the generator [g] and the caller's profile
    variables set to [NULL]. *)
Definition simulated (X : Collaborators) (bld : P7_BUILDER) (g : ESL_RANDOMNESS)
    (hmm : P7_HMM) (bg : P7_BG) (opt_gm : cell P7_PROFILE) (opt_om : cell P7_OPROFILE)
  : status * P7_HMM * cell P7_PROFILE * cell P7_OPROFILE :=
  let '(status, hmm, _, gm, om, _) :=
    calibration_simulations X hmm
      {| cp_EvL := EvL bld; cp_EvN := EvN bld; cp_EfL := EfL bld;
         cp_EfN := EfN bld; cp_Eft := Eft bld |} g bg
      (store opt_gm None) (store opt_om None) in
  (status, hmm, store opt_gm gm, store opt_om om).

(** The events of releasing an old score system and of loading a matrix. *)
Definition loading_event (e : Event) : bool :=
  match e with
  | Ev_scorematrix_Destroy | Ev_dmatrix_Destroy | Ev_scorematrix_Create
  | Ev_scorematrix_SetBLOSUM62 | Ev_fileparser_Open _ | Ev_sco_Read
  | Ev_fileparser_Close => true
  | _ => false
  end.

Definition is_probify (e : Event) : bool :=
  match e with Ev_sco_Probify _ => true | _ => false end.

(** The match states [M_k .. M_(k+n-1)], each at node [j] and position [j]. *)
Definition match_states (k : Z) (n : nat) : list (p7t_statetype * Z * Z) :=
  map (fun i => (p7T_M, k + Z.of_nat i, k + Z.of_nat i)) (seq 0 n).

(** Begin, one match state per residue, End; both lengths [n]. *)
Definition linear_trace (n : Z) : P7_TRACE :=
  {| tr_steps := (p7T_B, 0, 0) :: match_states 1 (Z.to_nat n) ++ [(p7T_E, 0, 0)];
     tr_M := n; tr_L := n |}.

(** *** The stages of the alignment pipeline *)

Inductive p7_stage :=
| Stage_relative_weights
| Stage_build_model
| Stage_effective_seqnumber
| Stage_parameterize
| Stage_annotate
| Stage_calibrate
| Stage_make_post_msa.

Section Stages.

Variable X : Collaborators.
Variables (bld : P7_BUILDER) (msa : ESL_MSA) (bg : P7_BG).
Variables (opt_hmm : cell P7_HMM) (opt_trarr : cell (list P7_TRACE)).
Variables (opt_gm : cell P7_PROFILE) (opt_om : cell P7_OPROFILE).
Variables (opt_postmsa : cell ESL_MSA) (log : Log).

(** How far the pipeline has come with every stage so far returning
    [eslOK], and the configuration, alignment, model, traces and log at
    that point. *)
Definition after_weights (b : P7_BUILDER) (m : ESL_MSA) (l : Log) : Prop :=
  relative_weights X bld msa log = (eslOK, b, m, l).

Definition after_build (b : P7_BUILDER) (m : ESL_MSA) (h : P7_HMM)
    (t : option (list P7_TRACE)) (l : Log) : Prop :=
  exists b0 m0 l0, after_weights b0 m0 l0 /\
    build_model X b0 m0 (requested opt_trarr || requested opt_postmsa) l0
      = (Done (h, t), b, m, l).

Definition after_effective (b : P7_BUILDER) (m : ESL_MSA) (h : P7_HMM)
    (t : option (list P7_TRACE)) (l : Log) : Prop :=
  exists b0 h0 l0, after_build b0 m h0 t l0 /\
    effective_seqnumber X b0 m h0 bg l0 = (eslOK, b, h, l).

Definition after_parameterize (b : P7_BUILDER) (m : ESL_MSA) (h : P7_HMM)
    (t : option (list P7_TRACE)) (l : Log) : Prop :=
  exists b0 h0 l0, after_effective b0 m h0 t l0 /\
    parameterize X b0 h0 l0 = (eslOK, b, h, l).

Definition after_annotate (b : P7_BUILDER) (m : ESL_MSA) (h : P7_HMM)
    (t : option (list P7_TRACE)) (l : Log) : Prop :=
  exists b0 h0 l0, after_parameterize b0 m h0 t l0 /\
    annotate X b0 m h0 l0 = (eslOK, b, h, l).

Definition after_calibrate (b : P7_BUILDER) (m : ESL_MSA) (h : P7_HMM)
    (t : option (list P7_TRACE)) (gm : cell P7_PROFILE) (om : cell P7_OPROFILE)
    (l : Log) : Prop :=
  exists b0 h0 l0, after_annotate b0 m h0 t l0 /\
    calibrate X b0 h0 bg opt_gm opt_om l0 = (eslOK, b, h, gm, om, l).

(** [fails_at stage s b m h t gm om l]: every stage before [stage]
    returned [eslOK], and [stage] returned [s <> eslOK], leaving the
    configuration [b], the alignment [m], the locals [hmm = h] and
    [tr = t], the profile variables [gm] and [om], and the log [l]. *)
Inductive fails_at : p7_stage -> status -> P7_BUILDER -> ESL_MSA -> option P7_HMM ->
    option (list P7_TRACE) -> cell P7_PROFILE -> cell P7_OPROFILE -> Log -> Prop :=
| fail_relative_weights s b m l :
    relative_weights X bld msa log = (s, b, m, l) -> s <> eslOK ->
    fails_at Stage_relative_weights s b m None None opt_gm opt_om l
| fail_build_model b0 m0 l0 c h t b m l :
    after_weights b0 m0 l0 ->
    build_model X b0 m0 (requested opt_trarr || requested opt_postmsa) l0
      = (Failed c (h, t), b, m, l) ->
    fails_at Stage_build_model (Z.pos c) b m h t opt_gm opt_om l
| fail_effective_seqnumber b0 m h0 t l0 s b h l :
    after_build b0 m h0 t l0 ->
    effective_seqnumber X b0 m h0 bg l0 = (s, b, h, l) -> s <> eslOK ->
    fails_at Stage_effective_seqnumber s b m (Some h) t opt_gm opt_om l
| fail_parameterize b0 m h0 t l0 s b h l :
    after_effective b0 m h0 t l0 ->
    parameterize X b0 h0 l0 = (s, b, h, l) -> s <> eslOK ->
    fails_at Stage_parameterize s b m (Some h) t opt_gm opt_om l
| fail_annotate b0 m h0 t l0 s b h l :
    after_parameterize b0 m h0 t l0 ->
    annotate X b0 m h0 l0 = (s, b, h, l) -> s <> eslOK ->
    fails_at Stage_annotate s b m (Some h) t opt_gm opt_om l
| fail_calibrate b0 m h0 t l0 s b h gm om l :
    after_annotate b0 m h0 t l0 ->
    calibrate X b0 h0 bg opt_gm opt_om l0 = (s, b, h, gm, om, l) -> s <> eslOK ->
    fails_at Stage_calibrate s b m (Some h) t gm om l
| fail_make_post_msa b m h t gm om l0 s pm l :
    after_calibrate b m h t gm om l0 ->
    make_post_msa X b m h t opt_postmsa l0 = (s, pm, l) -> s <> eslOK ->
    fails_at Stage_make_post_msa s b m (Some h) t gm om l.

End Stages.

(** *** Further inputs and worlds for the examples *)

(** An option set in which the options listed in [on] are on,
    [--eset] has the value [eset_value], [--seed] the value [seed], and
    the remaining numeric options their documented defaults. *)
Definition sample_options (on : list string) (eset_value : R) (seed : Z) : ESL_GETOPTS :=
  {| esl_opt_GetBoolean := fun name => existsb (String.eqb name) on;
     esl_opt_IsOn := fun name => existsb (String.eqb name) on;
     esl_opt_GetReal := fun name =>
       if String.eqb name "--eset" then eset_value
       else if String.eqb name "--eX" then 6%R
       else if String.eqb name "--Eft" then (4 / 100)%R
       else if String.eqb name "--symfrac" then (5 / 10)%R
       else (62 / 100)%R;
     esl_opt_GetInteger := fun name =>
       if String.eqb name "--seed" then seed
       else if String.eqb name "--pbswitch" then 1000
       else if String.eqb name "--EvN" then 200
       else if String.eqb name "--EfN" then 200
       else 100 |}.

(** A world whose calibration parameters record the generator they were
    simulated with (its seed and the draws consumed before), and whose
    simulations consume two draws. *)
Definition set_evparam (hmm : P7_HMM) (p : list R) : P7_HMM :=
  {| hmm_M := hmm_M hmm; hmm_nseq := hmm_nseq hmm; hmm_eff_nseq := hmm_eff_nseq hmm;
     hmm_counts := hmm_counts hmm; hmm_name := hmm_name hmm;
     hmm_checksum := hmm_checksum hmm; hmm_flags := hmm_flags hmm;
     hmm_cutoff := hmm_cutoff hmm; hmm_evparam := p |}.

Definition with_simulations (X : Collaborators)
    (sim : P7_HMM -> calib_params -> ESL_RANDOMNESS -> P7_BG ->
           cell P7_PROFILE -> cell P7_OPROFILE ->
           status * P7_HMM * ESL_RANDOMNESS * option P7_PROFILE * option P7_OPROFILE
           * option message)
  : Collaborators :=
  {| esl_msaweight_PB := esl_msaweight_PB X;
     esl_msaweight_GSC := esl_msaweight_GSC X;
     esl_msaweight_BLOSUM := esl_msaweight_BLOSUM X;
     p7_Fastmodelmaker := p7_Fastmodelmaker X;
     p7_Handmodelmaker := p7_Handmodelmaker X;
     esl_msacluster_SingleLinkage := esl_msacluster_SingleLinkage X;
     p7_EntropyWeight := p7_EntropyWeight X;
     p7_ParameterEstimation := p7_ParameterEstimation X;
     p7_hmm_SetName := p7_hmm_SetName X;
     p7_hmm_SetAccession := p7_hmm_SetAccession X;
     p7_hmm_SetDescription := p7_hmm_SetDescription X;
     p7_hmm_SetCtime := p7_hmm_SetCtime X;
     p7_hmm_SetComposition := p7_hmm_SetComposition X;
     esl_msa_Checksum := esl_msa_Checksum X;
     calibration_simulations := sim;
     p7_tracealign_MSA := p7_tracealign_MSA X;
     p7_Seqmodel := p7_Seqmodel X;
     trace_Create_ok := trace_Create_ok X;
     trace_Append_status := trace_Append_status X;
     esl_scorematrix_Create := esl_scorematrix_Create X;
     esl_scorematrix_SetBLOSUM62 := esl_scorematrix_SetBLOSUM62 X;
     esl_fileparser_Open := esl_fileparser_Open X;
     esl_sco_Read := esl_sco_Read X;
     esl_scorematrix_IsSymmetric := esl_scorematrix_IsSymmetric X;
     esl_sco_Probify := esl_sco_Probify X;
     p7_prior_CreateAmino := p7_prior_CreateAmino X;
     p7_prior_CreateNucleic := p7_prior_CreateNucleic X;
     p7_prior_CreateLaplace := p7_prior_CreateLaplace X;
     p7_ETARGET_AMINO := p7_ETARGET_AMINO X;
     p7_ETARGET_DNA := p7_ETARGET_DNA X;
     p7_ETARGET_OTHER := p7_ETARGET_OTHER X;
     p7H_CHKSUM := p7H_CHKSUM X; p7H_COMPO := p7H_COMPO X;
     p7H_GA := p7H_GA X; p7H_TC := p7H_TC X; p7H_NC := p7H_NC X;
     p7_DEFAULT := p7_DEFAULT X |}.

Definition stream_sensitive : Collaborators :=
  with_simulations nominal (fun hmm _ g _ _ _ =>
    (eslOK,
     set_evparam hmm [IZR (rng_seed g); IZR (Z.of_N (rng_used g))],
     {| rng_seed := rng_seed g; rng_used := (rng_used g + 2)%N |},
     Some (profile_id 1), Some (oprofile_id 1), None)).

(** An alignment without a name: [annotate] cannot name the model. *)
Definition nameless_msa (nseq : Z) : ESL_MSA :=
  {| msa_name := None; msa_acc := None; msa_desc := None;
     msa_nseq := nseq; msa_wgt := repeat (3 / 10)%R (Z.to_nat nseq);
     msa_rf := None; msa_cutset := fun _ => false; msa_cutoff := fun _ => 0%R |}.


(** *** Vocabulary of the further properties *)

(** How a stage reports: a success leaves the configuration as it was,
    a failure leaves it with a message in [errbuf] and nothing else
    changed. *)
Definition reported (bld b : P7_BUILDER) (s : status) : Prop :=
  (s = eslOK -> b = bld) /\
  (s <> eslOK -> exists f a, f <> "" /\ b = xfail bld f a).

(** All the bits of [f] are set in [flags]. *)
Definition has_flags (flags f : Z) : Prop := Z.land flags f = f.

Definition row_sum (row : list R) : R := fold_right Rplus 0%R row.

(** The three pairs of score cut-offs with their flags. *)
Definition cutoff_pairs (X : Collaborators) : list (cutoff_slot * cutoff_slot * Z) :=
  [(GA1, GA2, p7H_GA X); (TC1, TC2, p7H_TC X); (NC1, NC2, p7H_NC X)].

(** The parts of what [build_model] returns. *)
Definition built_status
    (r : esl_result (P7_HMM * option (list P7_TRACE))
                    (option P7_HMM * option (list P7_TRACE))
         * P7_BUILDER * ESL_MSA * Log) : status :=
  status_of (fst (fst (fst r))).

Definition built_errbuf
    (r : esl_result (P7_HMM * option (list P7_TRACE))
                    (option P7_HMM * option (list P7_TRACE))
         * P7_BUILDER * ESL_MSA * Log) : message :=
  errbuf (snd (fst (fst r))).

Definition built_traces
    (r : esl_result (P7_HMM * option (list P7_TRACE))
                    (option P7_HMM * option (list P7_TRACE))
         * P7_BUILDER * ESL_MSA * Log) : option (list P7_TRACE) :=
  match fst (fst (fst r)) with
  | Done (_, t) => t
  | Failed _ (_, t) => t
  end.

(** The configuration and the status [calibrate] returns. *)
Definition calibrate_bld
    (out : status * P7_BUILDER * P7_HMM * cell P7_PROFILE * cell P7_OPROFILE * Log)
  : P7_BUILDER :=
  let '(_, b, _, _, _, _) := out in b.

Definition calibrate_status
    (out : status * P7_BUILDER * P7_HMM * cell P7_PROFILE * cell P7_OPROFILE * Log)
  : status :=
  let '(s, _, _, _, _, _) := out in s.

(** The calls the stages of the alignment pipeline make while they
    succeed: no destructor is among them. *)
Definition stage_event (e : Event) : bool :=
  match e with
  | Ev_vec_DSet _ _ | Ev_msaweight_PB | Ev_msaweight_GSC | Ev_msaweight_BLOSUM _
  | Ev_Fastmodelmaker _ | Ev_Handmodelmaker
  | Ev_msacluster_SingleLinkage _ | Ev_EntropyWeight _ | Ev_hmm_Scale _
  | Ev_ParameterEstimation
  | Ev_hmm_SetName | Ev_hmm_SetAccession | Ev_hmm_SetDescription | Ev_hmm_SetCtime
  | Ev_msa_Checksum | Ev_hmm_SetComposition
  | Ev_Calibrate _ | Ev_tracealign_MSA => true
  | _ => false
  end.

(** [l] continues [log] by stage calls only. *)
Definition continues (log l : Log) : Prop :=
  exists evs, l = log ++ evs /\ forallb stage_event evs = true.

(** The stages that write a message of their own when they fail: all
    that come before [calibrate]. *)
Definition reporting_stage (stage : p7_stage) : bool :=
  match stage with
  | Stage_calibrate | Stage_make_post_msa => false
  | _ => true
  end.

(** A world like [nominal] in which chosen collaborators fail: the
    weighting and clustering routines and the simulations return the
    given status (the simulations with a message for [errbuf], unless
    the status is [eslEMEM]), and the model maker, the trace alignment,
    [p7_Seqmodel] and [esl_sco_Probify] fail with the given code when
    one is given; [trace_ok] says whether a trace can be allocated. *)
Definition world (weights cluster : status) (maker : option positive) (sim : status)
    (align seqmodel : option positive) (trace_ok : bool) (probify : option positive)
  : Collaborators :=
  {| esl_msaweight_PB := fun msa => (weights, msa);
     esl_msaweight_GSC := fun msa => (weights, msa);
     esl_msaweight_BLOSUM := fun msa _ => (weights, msa);
     p7_Fastmodelmaker := fun msa _ _ =>
       match maker with
       | None => (Done (sample_hmm 3 (msa_nseq msa), [sample_trace]), msa)
       | Some c => (Failed c (None, None), msa)
       end;
     p7_Handmodelmaker := fun msa _ =>
       match maker with
       | None => (Done (sample_hmm 3 (msa_nseq msa), [sample_trace]), msa)
       | Some c => (Failed c (None, None), msa)
       end;
     esl_msacluster_SingleLinkage := fun _ _ => (cluster, 1);
     p7_EntropyWeight := p7_EntropyWeight nominal;
     p7_ParameterEstimation := p7_ParameterEstimation nominal;
     p7_hmm_SetName := p7_hmm_SetName nominal;
     p7_hmm_SetAccession := p7_hmm_SetAccession nominal;
     p7_hmm_SetDescription := p7_hmm_SetDescription nominal;
     p7_hmm_SetCtime := p7_hmm_SetCtime nominal;
     p7_hmm_SetComposition := p7_hmm_SetComposition nominal;
     esl_msa_Checksum := esl_msa_Checksum nominal;
     calibration_simulations := fun hmm _ g _ opt_gm opt_om =>
       (sim, hmm, {| rng_seed := rng_seed g; rng_used := (rng_used g + 2)%N |},
        match opt_gm with Some (Some gm) => Some gm | _ => Some (profile_id 1) end,
        match opt_om with Some (Some om) => Some om | _ => Some (oprofile_id 1) end,
        if (sim =? eslOK) || (sim =? eslEMEM) then None
        else Some (Msg "failed to fit the E-value parameters" []));
     p7_tracealign_MSA := fun msa _ _ _ =>
       match align with None => Done msa | Some c => Failed c None end;
     p7_Seqmodel := fun _ _ n _ _ _ _ _ =>
       match seqmodel with None => Done (sample_hmm n 1) | Some c => Failed c None end;
     trace_Create_ok := trace_ok;
     trace_Append_status := trace_Append_status nominal;
     esl_scorematrix_Create := esl_scorematrix_Create nominal;
     esl_scorematrix_SetBLOSUM62 := esl_scorematrix_SetBLOSUM62 nominal;
     esl_fileparser_Open := esl_fileparser_Open nominal;
     esl_sco_Read := esl_sco_Read nominal;
     esl_scorematrix_IsSymmetric := esl_scorematrix_IsSymmetric nominal;
     esl_sco_Probify := fun S =>
       match probify with
       | None => esl_sco_Probify nominal S
       | Some c => Failed c (None, None, None)
       end;
     p7_prior_CreateAmino := p7_prior_CreateAmino nominal;
     p7_prior_CreateNucleic := p7_prior_CreateNucleic nominal;
     p7_prior_CreateLaplace := p7_prior_CreateLaplace nominal;
     p7_ETARGET_AMINO := p7_ETARGET_AMINO nominal;
     p7_ETARGET_DNA := p7_ETARGET_DNA nominal;
     p7_ETARGET_OTHER := p7_ETARGET_OTHER nominal;
     p7H_CHKSUM := p7H_CHKSUM nominal; p7H_COMPO := p7H_COMPO nominal;
     p7H_GA := p7H_GA nominal; p7H_TC := p7H_TC nominal; p7H_NC := p7H_NC nominal;
     p7_DEFAULT := p7_DEFAULT nominal |}.

(** An alignment with the gathering cut-offs set and a lone trusted one. *)
Definition annotated_msa (nseq : Z) : ESL_MSA :=
  {| msa_name := Some "globins"; msa_acc := Some "PF00042"; msa_desc := None;
     msa_nseq := nseq; msa_wgt := repeat (3 / 10)%R (Z.to_nat nseq);
     msa_rf := None;
     msa_cutset := fun c => match c with GA1 | GA2 | TC1 => true | _ => false end;
     msa_cutoff := fun c => match c with GA1 => 25%R | GA2 => 20%R | _ => 7%R end |}.

(** * Properties *)

(** ** Running the embedding *)

(** The alignment pipeline on four sequences, all collaborators
    succeeding: the model and the profile reach the caller, and the
    unrequested trace array is not built ([NULL] is destroyed). *)
Example p7_Builder_runs :
  let run := p7_Builder nominal (config p7_WGT_GSC 1000 p7_EFFN_SET 2 6 42)
               (sample_msa 4) sample_bg (Some None) None (Some None) None None [] in
  run_status run = eslOK /\
  run_opt_gm run = Some (Some (profile_id 1)) /\
  (exists hmm, run_opt_hmm run = Some (Some hmm) /\ hmm_eff_nseq hmm = 2%R) /\
  run_log run =
    [Ev_msaweight_GSC; Ev_Fastmodelmaker (5 / 10)%R; Ev_hmm_Scale (2 / IZR 4)%R;
     Ev_ParameterEstimation; Ev_hmm_SetName; Ev_hmm_SetAccession; Ev_hmm_SetDescription;
     Ev_hmm_SetCtime; Ev_msa_Checksum; Ev_hmm_SetComposition; Ev_Calibrate true;
     Ev_trace_DestroyArray None 4].
Proof.
  cbn. repeat split. eexists. split; reflexivity.
Qed.

(** The default score system: BLOSUM62 is loaded, tested for symmetry,
    probabilified, and each row of [Q] divided by its [fa]. *)
Example SetScoreSystem_runs :
  p7_builder_SetScoreSystem nominal (config p7_WGT_GSC 1000 p7_EFFN_ENTROPY (-1) 6 0)
    None None (2 / 100)%R (4 / 10)%R [] =
  (eslOK,
   set_gap_probs
     (set_score_system (config p7_WGT_GSC 1000 p7_EFFN_ENTROPY (-1) 6 0)
        (Some [[4; -1]; [-1; 5]])
        (Some [[(1 / 2)%R; (1 / 2)%R]; [(1 / 2)%R; (1 / 2)%R]]))
     (2 / 100)%R (4 / 10)%R,
   [Ev_scorematrix_Create; Ev_scorematrix_SetBLOSUM62;
    Ev_scorematrix_IsSymmetric [[4; -1]; [-1; 5]]; Ev_sco_Probify [[4; -1]; [-1; 5]]]).
Proof.
  reflexivity.
Qed.

(** ** Relative weighting: the position-based override *)

Lemma esl_vec_DSet_all (vec : list R) (v : R) :
  esl_vec_DSet vec (List.length vec) v = repeat v (List.length vec).
Proof.
  induction vec as [|x rest IH]; simpl; [reflexivity|].
  now rewrite IH.
Qed.

Section RelativeWeights.

Variable X : Collaborators.
Variables (bld : P7_BUILDER) (msa : ESL_MSA) (log : Log).

(** The status a weighting routine returned is the status of the stage,
    and a failure leaves the stage's message in the buffer. *)
Lemma relative_weights_after (s : status) (m : ESL_MSA) (l : Log) :
  (if negb (s =? eslOK)
   then (s, xfail bld "failed to set relative weights in alignment" [], m, l)
   else (eslOK, bld, m, l)) =
  (s, if s =? eslOK then bld
      else xfail bld "failed to set relative weights in alignment" [], m, l).
Proof.
  destruct (Z.eqb_spec s eslOK) as [->|]; reflexivity.
Qed.

Lemma relative_weights_PB_branch :
  wgt_strategy bld <> p7_WGT_NONE ->
  wgt_strategy bld <> p7_WGT_GIVEN ->
  (negb (pbswitch bld =? -1) && (msa_nseq msa >=? pbswitch bld) = true
   \/ wgt_strategy bld = p7_WGT_PB) ->
  res_status (relative_weights X bld msa log) = fst (esl_msaweight_PB X msa) /\
  res_obj (relative_weights X bld msa log) = snd (esl_msaweight_PB X msa) /\
  res_log (relative_weights X bld msa log) = log ++ [Ev_msaweight_PB].
Proof.
  intros Hnone Hgiven Hwhy.
  unfold relative_weights.
  destruct (wgt_strategy bld) eqn:Hw; try congruence;
    destruct (negb (pbswitch bld =? -1) && (msa_nseq msa >=? pbswitch bld)) eqn:Hf;
    try (destruct Hwhy; congruence);
    destruct (esl_msaweight_PB X msa) as [s m];
    rewrite relative_weights_after; repeat split.
Qed.

End RelativeWeights.

(** C3, as amended.  "none" sets the weights to 1 and "given" leaves the
    alignment untouched, whatever the sequence count; for every other
    strategy, an alignment with at least [pbswitch] sequences is
    weighted by the position-based routine, provided [pbswitch] is not
    the value -1 that switches the override off. *)
Theorem relative_weights_override (X : Collaborators) (bld : P7_BUILDER)
    (msa : ESL_MSA) (log : Log) :
  (wgt_strategy bld = p7_WGT_NONE ->
     res_status (relative_weights X bld msa log) = eslOK /\
     res_log (relative_weights X bld msa log) = log ++ [Ev_vec_DSet (msa_nseq msa) 1%R] /\
     res_obj (relative_weights X bld msa log) =
       set_msa_wgt msa (esl_vec_DSet (msa_wgt msa) (Z.to_nat (msa_nseq msa)) 1%R) /\
     (List.length (msa_wgt msa) = Z.to_nat (msa_nseq msa) ->
      msa_wgt (res_obj (relative_weights X bld msa log)) = repeat 1%R (Z.to_nat (msa_nseq msa))))
  /\
  (wgt_strategy bld = p7_WGT_GIVEN ->
     relative_weights X bld msa log = (eslOK, bld, msa, log))
  /\
  (pbswitch bld <> -1 -> pbswitch bld <= msa_nseq msa ->
   wgt_strategy bld <> p7_WGT_NONE -> wgt_strategy bld <> p7_WGT_GIVEN ->
     res_status (relative_weights X bld msa log) = fst (esl_msaweight_PB X msa) /\
     res_obj (relative_weights X bld msa log) = snd (esl_msaweight_PB X msa) /\
     res_log (relative_weights X bld msa log) = log ++ [Ev_msaweight_PB]).
Proof.
  split; [|split].
  - intros Hw. unfold relative_weights. rewrite Hw. cbn.
    repeat split. intros Hlen. rewrite <- Hlen. apply esl_vec_DSet_all.
  - intros Hw. unfold relative_weights. now rewrite Hw.
  - intros Hpb Hn Hnone Hgiven.
    apply relative_weights_PB_branch; auto.
    left. apply andb_true_iff. split.
    + apply negb_true_iff. now apply Z.eqb_neq.
    + apply Z.geb_le. exact Hn.
Qed.

Lemma relative_weights_override_witness :
  res_log (relative_weights nominal (config p7_WGT_GSC 1000 p7_EFFN_ENTROPY (-1) 6 0)
             (sample_msa 1000) []) = [Ev_msaweight_PB]
  /\ msa_wgt (res_obj (relative_weights nominal (config p7_WGT_NONE 1000 p7_EFFN_ENTROPY (-1) 6 0)
                (sample_msa 3) [])) = [1%R; 1%R; 1%R]
  /\ relative_weights nominal (config p7_WGT_GIVEN 1000 p7_EFFN_ENTROPY (-1) 6 0)
       (sample_msa 3) [] =
     (eslOK, config p7_WGT_GIVEN 1000 p7_EFFN_ENTROPY (-1) 6 0, sample_msa 3, []).
Proof.
  pose proof (relative_weights_override nominal
                (config p7_WGT_GSC 1000 p7_EFFN_ENTROPY (-1) 6 0) (sample_msa 1000) [])
    as (_ & _ & Hpb).
  pose proof (relative_weights_override nominal
                (config p7_WGT_NONE 1000 p7_EFFN_ENTROPY (-1) 6 0) (sample_msa 3) [])
    as (Hnone & _ & _).
  pose proof (relative_weights_override nominal
                (config p7_WGT_GIVEN 1000 p7_EFFN_ENTROPY (-1) 6 0) (sample_msa 3) [])
    as (_ & Hgiven & _).
  split; [|split].
  - apply Hpb; cbn; (lia || discriminate).
  - destruct (Hnone eq_refl) as (_ & _ & _ & Hw). apply Hw. reflexivity.
  - apply Hgiven. reflexivity.
Defined.

(** C3 as stated fails: with [pbswitch = -1] an alignment of 5
    sequences has at least [pbswitch] sequences, the strategy is
    neither "none" nor "given", and the routine invoked is GSC, not the
    position-based one. *)
Lemma relative_weights_override_counterexample :
  let bld := config p7_WGT_GSC (-1) p7_EFFN_ENTROPY (-1) 6 0 in
  let msa := sample_msa 5 in
  pbswitch bld <= msa_nseq msa /\
  wgt_strategy bld <> p7_WGT_NONE /\ wgt_strategy bld <> p7_WGT_GIVEN /\
  res_log (relative_weights nominal bld msa []) = [Ev_msaweight_GSC] /\
  res_log (relative_weights nominal bld msa []) <> [Ev_msaweight_PB].
Proof.
  cbn. repeat split; try lia; discriminate.
Qed.

(** C10.  With [pbswitch = -1] the override is off: whatever the
    sequence count, the position-based, GSC and BLOSUM strategies each
    invoke their own routine, and the stage returns what it returned. *)
Theorem relative_weights_pbswitch_disabled (X : Collaborators) (bld : P7_BUILDER)
    (msa : ESL_MSA) (log : Log) :
  pbswitch bld = -1 ->
  (wgt_strategy bld = p7_WGT_PB ->
     res_status (relative_weights X bld msa log) = fst (esl_msaweight_PB X msa) /\
     res_obj (relative_weights X bld msa log) = snd (esl_msaweight_PB X msa) /\
     res_log (relative_weights X bld msa log) = log ++ [Ev_msaweight_PB])
  /\
  (wgt_strategy bld = p7_WGT_GSC ->
     res_status (relative_weights X bld msa log) = fst (esl_msaweight_GSC X msa) /\
     res_obj (relative_weights X bld msa log) = snd (esl_msaweight_GSC X msa) /\
     res_log (relative_weights X bld msa log) = log ++ [Ev_msaweight_GSC])
  /\
  (wgt_strategy bld = p7_WGT_BLOSUM ->
     res_status (relative_weights X bld msa log) = fst (esl_msaweight_BLOSUM X msa (wid bld)) /\
     res_obj (relative_weights X bld msa log) = snd (esl_msaweight_BLOSUM X msa (wid bld)) /\
     res_log (relative_weights X bld msa log) = log ++ [Ev_msaweight_BLOSUM (wid bld)]).
Proof.
  intros Hpb. unfold relative_weights. rewrite Hpb. cbn [Z.eqb negb andb].
  repeat split; rewrite H; cbn;
    match goal with
    | |- context [esl_msaweight_PB X msa] => destruct (esl_msaweight_PB X msa) as [s m]
    | |- context [esl_msaweight_GSC X msa] => destruct (esl_msaweight_GSC X msa) as [s m]
    | |- context [esl_msaweight_BLOSUM X msa ?w] =>
        destruct (esl_msaweight_BLOSUM X msa w) as [s m]
    end;
    rewrite relative_weights_after; reflexivity.
Qed.

Lemma relative_weights_pbswitch_disabled_witness :
  res_log (relative_weights nominal (config p7_WGT_GSC (-1) p7_EFFN_ENTROPY (-1) 6 0)
             (sample_msa 5000) []) = [Ev_msaweight_GSC]
  /\ res_log (relative_weights nominal (config p7_WGT_BLOSUM (-1) p7_EFFN_ENTROPY (-1) 6 0)
             (sample_msa 5000) []) = [Ev_msaweight_BLOSUM (62 / 100)%R]
  /\ res_log (relative_weights nominal (config p7_WGT_PB (-1) p7_EFFN_ENTROPY (-1) 6 0)
             (sample_msa 5000) []) = [Ev_msaweight_PB].
Proof.
  split; [|split].
  - apply (relative_weights_pbswitch_disabled nominal
             (config p7_WGT_GSC (-1) p7_EFFN_ENTROPY (-1) 6 0) (sample_msa 5000) []);
      reflexivity.
  - apply (relative_weights_pbswitch_disabled nominal
             (config p7_WGT_BLOSUM (-1) p7_EFFN_ENTROPY (-1) 6 0) (sample_msa 5000) []);
      reflexivity.
  - apply (relative_weights_pbswitch_disabled nominal
             (config p7_WGT_PB (-1) p7_EFFN_ENTROPY (-1) 6 0) (sample_msa 5000) []);
      reflexivity.
Defined.

(** ** Effective sequence number *)

Section EffectiveNumber.

Variable X : Collaborators.
Variables (bld : P7_BUILDER) (msa : ESL_MSA) (hmm : P7_HMM) (bg : P7_BG) (log : Log).

Lemma scale_to_effective_scaled (b : P7_BUILDER) (eff : R) (l : Log) :
  scaled_to hmm eff (scale_to_effective b (set_eff_nseq hmm eff) l).
Proof.
  unfold scaled_to, scale_to_effective. cbn. repeat split. now exists l.
Qed.

Lemma scale_to_effective_ok (b : P7_BUILDER) (h : P7_HMM) (l : Log) :
  res_status (scale_to_effective b h l) = eslOK.
Proof. reflexivity. Qed.

Lemma effective_seqnumber_ok_scaled :
  res_status (effective_seqnumber X bld msa hmm bg log) = eslOK ->
  exists eff, scaled_to hmm eff (effective_seqnumber X bld msa hmm bg log).
Proof.
  unfold effective_seqnumber.
  destruct (effn_strategy bld).
  - intros _. eexists. apply scale_to_effective_scaled.
  - intros _. eexists. apply scale_to_effective_scaled.
  - destruct (esl_msacluster_SingleLinkage X msa (eid bld)) as [s nclust].
    destruct (Z.eqb_spec s eslEMEM) as [->|_]; [discriminate|].
    destruct (Z.eqb_spec s eslOK) as [->|Hs]; cbn [negb].
    + intros _. eexists. apply scale_to_effective_scaled.
    + intros H. now cbn in H.
  - destruct (p7_EntropyWeight X hmm bg (prior bld) _) as [s eff].
    destruct (Z.eqb_spec s eslEMEM) as [->|_]; [discriminate|].
    destruct (Z.eqb_spec s eslOK) as [->|Hs]; cbn [negb].
    + intros _. eexists. apply scale_to_effective_scaled.
    + intros H. now cbn in H.
Qed.

Lemma scale_by_one (cs : list R) (n : Z) :
  n <> 0 -> map (fun c => (c * (IZR n / IZR n))%R) cs = cs.
Proof.
  intros Hn.
  assert (Hz : IZR n <> 0%R) by (now apply not_0_IZR).
  rewrite <- (map_id cs) at 2.
  apply map_ext. intros c. field. exact Hz.
Qed.

End EffectiveNumber.

(** C4.  Whenever [effective_seqnumber] succeeds, the model it returns
    has every count multiplied by [eff_nseq / nseq], the call of
    [p7_hmm_Scale] closing the log.  Under "none" it always succeeds
    with the effective count equal to the alignment's sequence count,
    and when that is the model's (nonzero) nominal count the counts are
    unchanged; under "set" it always succeeds with the effective count
    equal to [eset]. *)
Theorem effective_seqnumber_scales (X : Collaborators) (bld : P7_BUILDER)
    (msa : ESL_MSA) (hmm : P7_HMM) (bg : P7_BG) (log : Log) :
  (res_status (effective_seqnumber X bld msa hmm bg log) = eslOK ->
   exists eff, scaled_to hmm eff (effective_seqnumber X bld msa hmm bg log))
  /\
  (effn_strategy bld = p7_EFFN_NONE ->
   res_status (effective_seqnumber X bld msa hmm bg log) = eslOK /\
   scaled_to hmm (IZR (msa_nseq msa)) (effective_seqnumber X bld msa hmm bg log) /\
   (hmm_nseq hmm = msa_nseq msa -> msa_nseq msa <> 0 ->
    hmm_counts (res_obj (effective_seqnumber X bld msa hmm bg log)) = hmm_counts hmm))
  /\
  (effn_strategy bld = p7_EFFN_SET ->
   res_status (effective_seqnumber X bld msa hmm bg log) = eslOK /\
   scaled_to hmm (eset bld) (effective_seqnumber X bld msa hmm bg log)).
Proof.
  split; [|split].
  - apply effective_seqnumber_ok_scaled.
  - intros Hs. unfold effective_seqnumber. rewrite Hs.
    split; [reflexivity|]. split; [apply scale_to_effective_scaled|].
    intros Hn Hnz. cbn. rewrite Hn. now apply scale_by_one.
  - intros Hs. unfold effective_seqnumber. rewrite Hs.
    split; [reflexivity|]. apply scale_to_effective_scaled.
Qed.

Lemma effective_seqnumber_scales_witness :
  hmm_counts (res_obj (effective_seqnumber nominal
     (config p7_WGT_GSC 1000 p7_EFFN_NONE (-1) 6 0) (sample_msa 4) (sample_hmm 3 4)
     sample_bg [])) = [2%R; 4%R]
  /\ hmm_eff_nseq (res_obj (effective_seqnumber nominal
     (config p7_WGT_GSC 1000 p7_EFFN_SET 2 6 0) (sample_msa 4) (sample_hmm 3 4)
     sample_bg [])) = 2%R
  /\ exists eff, scaled_to (sample_hmm 3 4) eff (effective_seqnumber nominal
     (config p7_WGT_GSC 1000 p7_EFFN_CLUST (-1) 6 0) (sample_msa 4) (sample_hmm 3 4)
     sample_bg []).
Proof.
  split; [|split].
  - apply (effective_seqnumber_scales nominal (config p7_WGT_GSC 1000 p7_EFFN_NONE (-1) 6 0)
             (sample_msa 4) (sample_hmm 3 4) sample_bg []);
      [reflexivity | reflexivity | cbn; lia].
  - apply (effective_seqnumber_scales nominal (config p7_WGT_GSC 1000 p7_EFFN_SET 2 6 0)
             (sample_msa 4) (sample_hmm 3 4) sample_bg []).
    reflexivity.
  - apply (effective_seqnumber_scales nominal (config p7_WGT_GSC 1000 p7_EFFN_CLUST (-1) 6 0)
             (sample_msa 4) (sample_hmm 3 4) sample_bg []).
    reflexivity.
Defined.

(** ** Default target relative entropy *)

Lemma int_wrap_small (z : Z) :
  -2147483648 <= z < 2147483648 -> int_wrap z = z.
Proof.
  intros Hz. unfold int_wrap. rewrite Z.mod_small; lia.
Qed.

Lemma floor_is_Rmax (x lo : R) :
  (if Rlt_dec x lo then lo else x) = Rmax x lo.
Proof.
  unfold Rmax. destruct (Rlt_dec x lo), (Rle_dec x lo); lra.
Qed.

Lemma triangular_even (M : Z) : 2 * (M * (M + 1) / 2) = M * (M + 1).
Proof.
  destruct (Z.Even_or_Odd M) as [[k ->]|[k ->]].
  - replace (2 * k * (2 * k + 1)) with (k * (2 * k + 1) * 2) by ring.
    rewrite Z.div_mul by lia. ring.
  - replace ((2 * k + 1) * (2 * k + 1 + 1)) with ((2 * k + 1) * (k + 1) * 2) by ring.
    rewrite Z.div_mul by lia. ring.
Qed.

Lemma triangular_IZR (M : Z) :
  IZR (M * (M + 1) / 2) = (IZR M * (IZR M + 1) / 2)%R.
Proof.
  pose proof (triangular_even M) as H.
  apply (f_equal IZR) in H. rewrite !mult_IZR, plus_IZR in H. lra.
Qed.

Section TargetInRange.

Variable X : Collaborators.
Variable bld : P7_BUILDER.

Lemma default_target_relent_in_range (M : Z) :
  1 <= M <= max_int_M ->
  default_target_relent X bld M =
    Finite (Rmax (target_formula (eX bld) M) (alphabet_floor X (abc_type (abc bld)))).
Proof.
  unfold max_int_M. intros HM. unfold default_target_relent.
  assert (H1 : int_wrap (M + 1) = M + 1) by (apply int_wrap_small; lia).
  assert (H2 : int_wrap (M * (M + 1)) = M * (M + 1)) by (apply int_wrap_small; nia).
  assert (H3 : int_wrap (2 * M) = 2 * M) by (apply int_wrap_small; lia).
  assert (H4 : int_wrap (2 * M + 4) = 2 * M + 4) by (apply int_wrap_small; lia).
  rewrite H1, H2, H3, H4.
  assert (Hq : Z.quot (M * (M + 1)) 2 = M * (M + 1) / 2)
    by (apply Z.quot_div_nonneg; nia).
  rewrite Hq.
  assert (Hpos : 0 < M * (M + 1) / 2).
  { pose proof (triangular_even M). nia. }
  unfold c_log_int.
  destruct (Z.ltb_spec 0 (M * (M + 1) / 2)) as [_|]; [|lia].
  cbn [c_lift c_div_int].
  destruct (Z.eqb_spec (2 * M + 4) 0) as [|_]; [lia|].
  fold (target_formula (eX bld) M).
  destruct (abc_type (abc bld)); cbn [alphabet_floor c_raise_to];
    f_equal; apply floor_is_Rmax.
Qed.

End TargetInRange.

(** *** The formula over the reals *)

Lemma ln_3_ge_1 : (1 <= ln 3)%R.
Proof.
  rewrite <- (ln_exp 1) at 1.
  destruct (Rle_lt_or_eq_dec _ _ exp_le_3) as [Hlt|Heq].
  - left. apply ln_increasing; [apply exp_pos | exact Hlt].
  - rewrite Heq. right. reflexivity.
Qed.

Lemma ln_2_pos : (0 < ln 2)%R.
Proof.
  rewrite <- ln_1. apply ln_increasing; lra.
Qed.

Lemma ln_le_mono (x y : R) : (0 < x)%R -> (x <= y)%R -> (ln x <= ln y)%R.
Proof.
  intros Hx [Hlt | ->]; [left; now apply ln_increasing | right; reflexivity].
Qed.

Lemma ln_1_plus_le (x : R) : (0 <= x)%R -> (ln (1 + x) <= x)%R.
Proof.
  intros Hx. rewrite <- (ln_exp x) at 2.
  apply ln_le_mono; [lra | apply exp_ineq1_le].
Qed.

(** Two fractions with numerators [6 u'] and [6 u] over [d + 2] and [d]. *)
Lemma fraction_step (u u' d : R) :
  (0 < d)%R -> (u' * d <= u * (d + 2))%R ->
  (6 * u' / (d + 2) <= 6 * u / d)%R.
Proof.
  intros Hd H.
  assert (Hgap : (0 <= 6 * u / d - 6 * u' / (d + 2))%R); [|lra].
  replace (6 * u / d - 6 * u' / (d + 2))%R
    with (6 * (u * (d + 2) - u' * d) * / (d * (d + 2)))%R by (field; lra).
  apply Rmult_le_pos; [lra|].
  left. apply Rinv_0_lt_compat. nra.
Qed.

(** The logarithm of the next triangular number. *)
Lemma ln_triangular_succ (m : R) :
  (1 <= m)%R ->
  ln ((m + 1) * (m + 1 + 1) / 2) = (ln (m * (m + 1) / 2) + ln (1 + 2 / m))%R.
Proof.
  intros Hm.
  rewrite <- ln_mult.
  - f_equal. field. lra.
  - assert (0 < m * (m + 1))%R by nra. lra.
  - assert (0 < 2 / m)%R by (apply Rdiv_lt_0_compat; lra). lra.
Qed.

(** The core inequality, in natural logarithms:
    [(m + 2) ln (1 + 2/m) <= x ln 2 + ln (m (m+1) / 2)] once
    [x ln 2 >= 3 ln 3]; [m] ranges over the integers from 1. *)
Lemma relent_core (x m : R) :
  (3 * ln 3 <= x * ln 2)%R ->
  (m = 1 \/ 2 <= m)%R ->
  (ln (1 + 2 / m) * (m + 2) <= x * ln 2 + ln (m * (m + 1) / 2))%R.
Proof.
  intros Hx [-> | Hm].
  - replace (1 + 2 / 1)%R with 3%R by field.
    replace (1 * (1 + 1) / 2)%R with 1%R by field.
    rewrite ln_1. lra.
  - assert (Hq : (0 <= 2 / m)%R) by (left; apply Rdiv_lt_0_compat; lra).
    pose proof (ln_1_plus_le (2 / m) Hq) as Hd.
    assert (Hq1 : (2 / m <= 1)%R).
    { apply Rmult_le_reg_r with m; [lra|].
      replace (2 / m * m)%R with 2%R by (field; lra). lra. }
    assert (Hqm : (2 / m * m = 2)%R) by (field; lra).
    assert (Hd0 : (0 <= ln (1 + 2 / m))%R).
    { rewrite <- ln_1. apply ln_le_mono; lra. }
    assert (Ha : (ln 3 <= ln (m * (m + 1) / 2))%R).
    { apply ln_le_mono; [lra | nra]. }
    pose proof ln_3_ge_1 as H3.
    assert (Hdm : (ln (1 + 2 / m) * m <= 2 / m * m)%R)
      by (apply Rmult_le_compat_r; lra).
    lra.
Qed.

Lemma target_formula_step (x : R) (M : Z) :
  1 <= M -> (3 * ln 3 / ln 2 <= x)%R ->
  (target_formula x (M + 1) <= target_formula x M)%R.
Proof.
  intros HM Hx. unfold target_formula.
  pose proof ln_2_pos as Hl2.
  assert (Hm1 : (1 <= IZR M)%R) by (now apply IZR_le).
  assert (Hcases : (IZR M = 1 \/ 2 <= IZR M)%R).
  { destruct (Z.eq_dec M 1) as [->|]; [now left|].
    right. apply IZR_le. lia. }
  assert (Hx' : (3 * ln 3 <= x * ln 2)%R).
  { apply Rmult_le_reg_r with (/ ln 2)%R; [now apply Rinv_0_lt_compat|].
    replace (x * ln 2 * / ln 2)%R with x by (field; lra).
    exact Hx. }
  pose proof (relent_core x (IZR M) Hx' Hcases) as Hcore.
  rewrite !triangular_IZR.
  replace (IZR (2 * (M + 1) + 4)) with (IZR (2 * M + 4) + 2)%R
    by (rewrite !plus_IZR, !mult_IZR, !plus_IZR; lra).
  assert (Hd : IZR (2 * M + 4) = (2 * IZR M + 4)%R)
    by (rewrite plus_IZR, mult_IZR; lra).
  rewrite plus_IZR. change (IZR 1) with 1%R.
  rewrite ln_triangular_succ by exact Hm1.
  set (a := ln (IZR M * (IZR M + 1) / 2)) in *.
  set (dl := ln (1 + 2 / IZR M)) in *.
  rewrite !Rmult_assoc || idtac.
  apply fraction_step; [lra|].
  rewrite Hd.
  assert (He : ((a + dl) / ln 2 = a / ln 2 + dl / ln 2)%R) by (field; lra).
  rewrite He.
  assert (Hk : (dl / ln 2 * (IZR M + 2) <= x + a / ln 2)%R).
  { apply Rmult_le_reg_r with (ln 2); [exact Hl2|].
    replace (dl / ln 2 * (IZR M + 2) * ln 2)%R with (dl * (IZR M + 2))%R by (field; lra).
    replace ((x + a / ln 2) * ln 2)%R with (x * ln 2 + a)%R by (field; lra).
    exact Hcore. }
  lra.
Qed.

Lemma target_formula_antitone (x : R) (M1 M2 : Z) :
  1 <= M1 <= M2 -> (3 * ln 3 / ln 2 <= x)%R ->
  (target_formula x M2 <= target_formula x M1)%R.
Proof.
  intros [H1 H12] Hx.
  replace M2 with (M1 + Z.of_nat (Z.to_nat (M2 - M1))) by lia.
  induction (Z.to_nat (M2 - M1)) as [|k IH].
  - rewrite Z.add_0_r. right. reflexivity.
  - apply Rle_trans with (target_formula x (M1 + Z.of_nat k)); [|exact IH].
    replace (M1 + Z.of_nat (Datatypes.S k)) with (M1 + Z.of_nat k + 1) by lia.
    apply target_formula_step; [lia | exact Hx].
Qed.

(** The default offset 6 is above the threshold [3 log2 3]. *)
Lemma default_offset_above_threshold : (3 * ln 3 / ln 2 <= 6)%R.
Proof.
  pose proof ln_2_pos as Hl2.
  assert (H4 : (ln 3 <= ln 2 + ln 2)%R).
  { rewrite <- ln_mult by lra. apply ln_le_mono; lra. }
  apply Rmult_le_reg_r with (ln 2); [exact Hl2|].
  replace (3 * ln 3 / ln 2 * ln 2)%R with (3 * ln 3)%R by (field; lra).
  lra.
Qed.

(** C5, as amended.  For a model length [M] from 1 up to the largest
    one whose [M * (M+1)] fits an [int], [default_target_relent] returns
    the formula [6 (eX + log2 (M (M+1) / 2)) / (2M + 4)] raised to the
    floor of the alphabet, hence never less than that floor; and it is
    non-increasing in [M] when the offset [eX] is at least [3 log2 3]
    (about 4.755, below the default 6). *)
Theorem default_target_relent_floor_antitone (X : Collaborators) (bld : P7_BUILDER) :
  (forall M, 1 <= M <= max_int_M ->
     exists t, default_target_relent X bld M = Finite t /\
       t = Rmax (target_formula (eX bld) M) (alphabet_floor X (abc_type (abc bld))) /\
       (alphabet_floor X (abc_type (abc bld)) <= t)%R)
  /\
  (forall M1 M2 t1 t2,
     1 <= M1 <= M2 -> M2 <= max_int_M ->
     (3 * ln 3 / ln 2 <= eX bld)%R ->
     default_target_relent X bld M1 = Finite t1 ->
     default_target_relent X bld M2 = Finite t2 ->
     (t2 <= t1)%R).
Proof.
  split.
  - intros M HM. eexists. split; [now apply default_target_relent_in_range|].
    split; [reflexivity | apply Rmax_r].
  - intros M1 M2 t1 t2 H12 Hmax Hx E1 E2.
    rewrite default_target_relent_in_range in E1 by lia.
    rewrite default_target_relent_in_range in E2 by lia.
    injection E1 as <-. injection E2 as <-.
    apply Rle_max_compat_r.
    now apply target_formula_antitone.
Qed.

Lemma default_target_relent_floor_antitone_witness :
  exists t1 t2,
    default_target_relent nominal (config p7_WGT_GSC 1000 p7_EFFN_ENTROPY (-1) 6 0) 1 = Finite t1 /\
    default_target_relent nominal (config p7_WGT_GSC 1000 p7_EFFN_ENTROPY (-1) 6 0) 2 = Finite t2 /\
    (59 / 100 <= t2)%R /\ (t2 <= t1)%R.
Proof.
  pose proof (default_target_relent_floor_antitone nominal
                (config p7_WGT_GSC 1000 p7_EFFN_ENTROPY (-1) 6 0)) as [Hfloor Hmono].
  destruct (Hfloor 1) as (t1 & E1 & _ & _); [unfold max_int_M; lia|].
  destruct (Hfloor 2) as (t2 & E2 & _ & Hlo); [unfold max_int_M; lia|].
  exists t1, t2. split; [exact E1|]. split; [exact E2|]. split; [exact Hlo|].
  apply (Hmono 1 2 t1 t2); [lia | unfold max_int_M; lia | | exact E1 | exact E2].
  exact default_offset_above_threshold.
Defined.

(** C5 as stated fails on two counts.  With offset [eX = 1] and the
    amino floor 0.59 the target is 1 at [M = 1] and more than 1 at
    [M = 2], so it is not non-increasing for every fixed offset.  At
    [M = 46341] the [int] product [M * (M+1)] wraps to a negative
    number, [log] of it is NaN, and NaN is what is returned. *)
Lemma default_target_relent_counterexample :
  let bld := config p7_WGT_GSC 1000 p7_EFFN_ENTROPY (-1) 1 0 in
  default_target_relent nominal bld 1 = Finite 1%R /\
  (exists t2, default_target_relent nominal bld 2 = Finite t2 /\ (1 < t2)%R) /\
  Z.quot (int_wrap (46341 * int_wrap (46341 + 1))) 2 = -1073716337 /\
  default_target_relent nominal bld 46341 = NaN.
Proof.
  cbv zeta. split; [|split; [|split]].
  - rewrite default_target_relent_in_range by (unfold max_int_M; lia).
    f_equal. unfold target_formula. cbn.
    replace (IZR (1 * (1 + 1) / 2)) with 1%R by reflexivity.
    rewrite ln_1. unfold Rmax. destruct (Rle_dec _ _); lra.
  - eexists. split.
    + apply default_target_relent_in_range. unfold max_int_M. lia.
    + unfold target_formula. cbn.
      replace (IZR (2 * (2 + 1) / 2)) with 3%R by reflexivity.
      pose proof ln_2_pos as Hl2.
      assert (H32 : (ln 2 < ln 3)%R) by (apply ln_increasing; lra).
      assert (Hr : (1 < ln 3 / ln 2)%R).
      { apply Rmult_lt_reg_r with (ln 2); [exact Hl2|].
        replace (ln 3 / ln 2 * ln 2)%R with (ln 3) by (field; lra). lra. }
      apply Rlt_le_trans with (6 * (1 + ln 3 / ln 2) / 8)%R; [lra | apply Rmax_l].
  - reflexivity.
  - reflexivity.
Qed.

(** ** The configuration: [eset] and the reseeding flag *)

Section Create.

Variable X : Collaborators.
Variables (fresh : option P7_BUILDER) (arbitrary : Z) (go : option ESL_GETOPTS)
          (abc0 : ESL_ALPHABET) (bld : P7_BUILDER).
Hypothesis created : p7_builder_Create X fresh arbitrary go abc0 = Some bld.

Lemma created_effn :
  exists raw, fresh = Some raw /\
    effn_strategy bld = fst (choose_effn raw go) /\
    eset bld = snd (choose_effn raw go).
Proof.
  unfold p7_builder_Create in created.
  destruct fresh as [raw|]; [|discriminate].
  destruct (choose_prior X abc0); [|discriminate].
  injection created as <-. exists raw. repeat split.
Qed.

Lemma created_rng :
  bld_r bld = esl_randomness_Create arbitrary (choose_seed go) /\
  do_reseeding bld = negb (choose_seed go =? 0).
Proof.
  unfold p7_builder_Create in created.
  destruct fresh as [raw|]; [|discriminate].
  destruct (choose_prior X abc0); [|discriminate].
  injection created as <-. cbn. split; [reflexivity|].
  now destruct (choose_seed go =? 0).
Qed.

Lemma created_calibration_sizes :
  EvL bld = int_option go "--EvL" 100 /\ EvN bld = int_option go "--EvN" 200 /\
  EfL bld = int_option go "--EfL" 100 /\ EfN bld = int_option go "--EfN" 200 /\
  Eft bld = real_option go "--Eft" (4 / 100)%R.
Proof.
  unfold p7_builder_Create in created.
  destruct fresh as [raw|]; [|discriminate].
  destruct (choose_prior X abc0); [|discriminate].
  injection created as <-. repeat split.
Qed.

End Create.

(** C8, as amended.  A configuration made by [p7_builder_Create]
    without an option set has the entropy strategy and [eset] at its
    unset marker [-1.0]; made from an option set that selects one of
    the four effective-number options, it has the set-value strategy
    only with [eset] equal to the value of [--eset], unchecked, so
    [eset >= 0] holds exactly when that value is not negative, and any
    other strategy leaves [eset] at [-1.0].  [effective_seqnumber]
    under the set-value strategy assigns [eff_nseq = eset] whatever its
    sign. *)
Theorem created_eset_is_option_value (X : Collaborators) (fresh : option P7_BUILDER)
    (arbitrary : Z) (go : option ESL_GETOPTS) (abc0 : ESL_ALPHABET) (bld : P7_BUILDER) :
  p7_builder_Create X fresh arbitrary go abc0 = Some bld ->
  (go = None -> effn_strategy bld = p7_EFFN_ENTROPY /\ eset bld = (-1)%R)
  /\
  (forall g, go = Some g ->
     esl_opt_GetBoolean g "--eent" || esl_opt_GetBoolean g "--eclust"
       || esl_opt_GetBoolean g "--enone" || esl_opt_IsOn g "--eset" = true ->
     (effn_strategy bld = p7_EFFN_SET ->
      eset bld = esl_opt_GetReal g "--eset" /\
      ((0 <= eset bld)%R <-> (0 <= esl_opt_GetReal g "--eset")%R)) /\
     (effn_strategy bld <> p7_EFFN_SET -> eset bld = (-1)%R))
  /\
  (effn_strategy bld = p7_EFFN_SET ->
   forall msa hmm bg log,
     res_status (effective_seqnumber X bld msa hmm bg log) = eslOK /\
     hmm_eff_nseq (res_obj (effective_seqnumber X bld msa hmm bg log)) = eset bld).
Proof.
  intros Hc.
  destruct (created_effn X fresh arbitrary go abc0 bld Hc) as (raw & _ & Hs & He).
  split; [|split].
  - intros ->. split; [exact Hs | exact He].
  - intros g -> Hon. rewrite Hs, He. clear Hs He Hc. split.
    + intros Hset.
      assert (E : snd (choose_effn raw (Some g)) = esl_opt_GetReal g "--eset").
      { cbn in *.
        destruct (esl_opt_GetBoolean g "--eent"); [discriminate|].
        destruct (esl_opt_GetBoolean g "--eclust"); [discriminate|].
        destruct (esl_opt_GetBoolean g "--enone"); [discriminate|].
        destruct (esl_opt_IsOn g "--eset"); [reflexivity | discriminate]. }
      rewrite E. split; [reflexivity | tauto].
    + intros Hother. cbn in *.
      destruct (esl_opt_GetBoolean g "--eent"); [reflexivity|].
      destruct (esl_opt_GetBoolean g "--eclust"); [reflexivity|].
      destruct (esl_opt_GetBoolean g "--enone"); [reflexivity|].
      destruct (esl_opt_IsOn g "--eset"); [now elim Hother | discriminate].
  - intros Hset msa hmm bg log.
    unfold effective_seqnumber. rewrite Hset. split; reflexivity.
Qed.

Lemma created_eset_is_option_value_witness :
  (exists bld,
     p7_builder_Create nominal (Some (config p7_WGT_GSC 0 p7_EFFN_NONE 0 0 0)) 12345
       (Some (sample_options ["--fast"; "--wgsc"; "--eset"] 2 42)) amino = Some bld /\
     effn_strategy bld = p7_EFFN_SET /\
     eset bld = 2%R /\
     hmm_eff_nseq (res_obj (effective_seqnumber nominal bld (sample_msa 4) (sample_hmm 3 4)
                              sample_bg [])) = eset bld)
  /\
  (exists bld,
     p7_builder_Create nominal (Some (config p7_WGT_GSC 0 p7_EFFN_SET 5 0 0)) 12345
       None amino = Some bld /\
     effn_strategy bld = p7_EFFN_ENTROPY /\ eset bld = (-1)%R).
Proof.
  split.
  2: { destruct (p7_builder_Create nominal (Some (config p7_WGT_GSC 0 p7_EFFN_SET 5 0 0)) 12345
                   None amino) as [bld|] eqn:Hc; [|cbn in Hc; discriminate].
       pose proof (created_eset_is_option_value nominal _ _ _ _ _ Hc) as (Hnone & _).
       exists bld. split; [reflexivity|]. apply Hnone. reflexivity. }
  destruct (p7_builder_Create nominal (Some (config p7_WGT_GSC 0 p7_EFFN_NONE 0 0 0)) 12345
              (Some (sample_options ["--fast"; "--wgsc"; "--eset"] 2 42)) amino)
    as [bld|] eqn:Hc; [|cbn in Hc; discriminate].
  assert (Hset : effn_strategy bld = p7_EFFN_SET)
    by (cbn in Hc; injection Hc as <-; reflexivity).
  pose proof (created_eset_is_option_value nominal _ _ _ _ _ Hc) as (_ & Hopt & Heff).
  exists bld. split; [reflexivity|]. split; [exact Hset|]. split.
  - apply (proj1 (Hopt _ eq_refl eq_refl)). exact Hset.
  - apply (Heff Hset).
Defined.

(** C8 as stated fails: an option set with [--eset -3] yields a
    configuration with the set-value strategy and [eset = -3 < 0], and
    [effective_seqnumber] then assigns [eff_nseq = -3]. *)
Lemma created_eset_counterexample :
  exists bld,
    p7_builder_Create nominal (Some (config p7_WGT_GSC 0 p7_EFFN_NONE 0 0 0)) 12345
      (Some (sample_options ["--fast"; "--wgsc"; "--eset"] (-3) 42)) amino = Some bld /\
    effn_strategy bld = p7_EFFN_SET /\
    eset bld = (-3)%R /\ ~ (0 <= eset bld)%R /\
    hmm_eff_nseq (res_obj (effective_seqnumber nominal bld (sample_msa 4) (sample_hmm 3 4)
                             sample_bg [])) = (-3)%R.
Proof.
  eexists. split; [reflexivity|].
  cbn. repeat split. lra.
Qed.

(** ** Calibration and the random source *)

Lemma store_store {A} (c : cell A) (v w : option A) : store (store c v) w = store c w.
Proof. now destruct c. Qed.

Section Calibrate.

Variable X : Collaborators.
Variables (bld : P7_BUILDER) (hmm : P7_HMM) (bg : P7_BG).
Variables (opt_gm : cell P7_PROFILE) (opt_om : cell P7_OPROFILE) (log : Log).

(** [calibrate] runs the simulations on the generator reset to the
    start of its seed's stream when [do_reseeding] is set, and on the
    generator as it stands otherwise. *)
Lemma calibrate_simulated :
  calibrated (calibrate X bld hmm bg opt_gm opt_om log) =
  simulated X bld
    (if do_reseeding bld
     then {| rng_seed := rng_seed (bld_r bld); rng_used := 0%N |}
     else bld_r bld)
    hmm bg opt_gm opt_om.
Proof.
  unfold calibrate, p7_Calibrate, simulated, esl_randomness_Init, esl_randomness_GetSeed.
  destruct (calibration_simulations X hmm _ _ bg _ _) as [[[[[s h] g] gm] om] msg].
  rewrite !store_store.
  destruct (Z.eqb_spec s eslOK) as [->|]; reflexivity.
Qed.

Lemma calibrate_status_log :
  exists s b h gm om,
    calibrate X bld hmm bg opt_gm opt_om log =
      (s, b, h, gm, om, log ++ [Ev_Calibrate (do_reseeding bld)]) /\
    requested gm = requested opt_gm /\ requested om = requested opt_om /\
    (s = eslOK -> errbuf b = errbuf bld).
Proof.
  unfold calibrate, p7_Calibrate.
  destruct (calibration_simulations X hmm _ _ bg _ _) as [[[[[s h] g] gm] om] msg].
  destruct (Z.eqb_spec s eslOK) as [->|Hs]; cbn [negb];
    do 5 eexists; (split; [reflexivity|]);
    (split; [now destruct opt_gm|]); (split; [now destruct opt_om|]).
  - intros _. now destruct msg.
  - intros H. now elim Hs.
Qed.

End Calibrate.

Lemma simulated_same_sizes (X : Collaborators) (b1 b2 : P7_BUILDER) g hmm bg opt_gm opt_om :
  EvL b1 = EvL b2 -> EvN b1 = EvN b2 -> EfL b1 = EfL b2 -> EfN b1 = EfN b2 ->
  Eft b1 = Eft b2 ->
  simulated X b1 g hmm bg opt_gm opt_om = simulated X b2 g hmm bg opt_gm opt_om.
Proof.
  intros H1 H2 H3 H4 H5. unfold simulated. now rewrite H1, H2, H3, H4, H5.
Qed.

(** C2, as amended.  Two configurations created from the same option
    set with a nonzero seed have [do_reseeding] set, and calibrations
    run with them on identical inputs deliver identical status,
    parameters and profiles, whatever block of memory each was built
    in, whatever the arbitrary seed on offer, and however much of the
    random stream each generator has consumed.  A configuration created
    with seed 0 has [do_reseeding] off and its generator seeded with
    the arbitrary choice; its calibration runs on the generator as it
    stands, so the result is that of the simulations at the current
    point of that stream. *)
Theorem calibration_reproducible_iff_seeded (X : Collaborators)
    (go : option ESL_GETOPTS) (abc0 : ESL_ALPHABET)
    (fresh1 fresh2 : option P7_BUILDER) (arbitrary1 arbitrary2 : Z)
    (bld1 bld2 : P7_BUILDER) :
  p7_builder_Create X fresh1 arbitrary1 go abc0 = Some bld1 ->
  p7_builder_Create X fresh2 arbitrary2 go abc0 = Some bld2 ->
  (choose_seed go <> 0 ->
     do_reseeding bld1 = true /\ do_reseeding bld2 = true /\
     forall used1 used2 hmm bg opt_gm opt_om log1 log2,
       calibrated (calibrate X
           (set_rng bld1 {| rng_seed := rng_seed (bld_r bld1); rng_used := used1 |})
           hmm bg opt_gm opt_om log1) =
       calibrated (calibrate X
           (set_rng bld2 {| rng_seed := rng_seed (bld_r bld2); rng_used := used2 |})
           hmm bg opt_gm opt_om log2))
  /\
  (choose_seed go = 0 ->
     do_reseeding bld1 = false /\
     bld_r bld1 = {| rng_seed := arbitrary1; rng_used := 0%N |} /\
     forall g hmm bg opt_gm opt_om log,
       calibrated (calibrate X (set_rng bld1 g) hmm bg opt_gm opt_om log) =
       simulated X bld1 g hmm bg opt_gm opt_om).
Proof.
  intros Hc1 Hc2.
  destruct (created_rng X _ _ _ _ _ Hc1) as [Hr1 Hd1].
  destruct (created_rng X _ _ _ _ _ Hc2) as [Hr2 Hd2].
  destruct (created_calibration_sizes X _ _ _ _ _ Hc1) as (A1 & A2 & A3 & A4 & A5).
  destruct (created_calibration_sizes X _ _ _ _ _ Hc2) as (B1 & B2 & B3 & B4 & B5).
  split.
  - intros Hseed.
    apply Z.eqb_neq in Hseed. rewrite Hseed in Hd1, Hd2. cbn in Hd1, Hd2.
    split; [exact Hd1|]. split; [exact Hd2|].
    intros used1 used2 hmm bg opt_gm opt_om log1 log2.
    rewrite !calibrate_simulated. cbn [do_reseeding bld_r set_rng rng_seed].
    rewrite Hd1, Hd2, Hr1, Hr2.
    unfold esl_randomness_Create. rewrite Hseed. cbn [rng_seed].
    apply simulated_same_sizes; cbn; congruence.
  - intros Hseed. rewrite Hseed in Hd1, Hr1. cbn in Hd1.
    split; [exact Hd1|]. split; [exact Hr1|].
    intros g hmm bg opt_gm opt_om log.
    rewrite calibrate_simulated. cbn [do_reseeding bld_r set_rng]. rewrite Hd1.
    apply simulated_same_sizes; reflexivity.
Qed.

Lemma calibration_reproducible_iff_seeded_witness :
  (exists bld1 bld2,
     p7_builder_Create stream_sensitive (Some (config p7_WGT_GSC 0 p7_EFFN_NONE 0 0 0)) 111
       (Some (sample_options ["--fast"; "--wgsc"; "--eent"] 0 42)) amino = Some bld1 /\
     p7_builder_Create stream_sensitive (Some (config p7_WGT_PB 9 p7_EFFN_SET 7 7 7)) 222
       (Some (sample_options ["--fast"; "--wgsc"; "--eent"] 0 42)) amino = Some bld2 /\
     do_reseeding bld1 = true /\
     calibrated (calibrate stream_sensitive
         (set_rng bld1 {| rng_seed := rng_seed (bld_r bld1); rng_used := 0%N |})
         (sample_hmm 3 4) sample_bg (Some None) None []) =
     calibrated (calibrate stream_sensitive
         (set_rng bld2 {| rng_seed := rng_seed (bld_r bld2); rng_used := 6%N |})
         (sample_hmm 3 4) sample_bg (Some None) None [Ev_Calibrate true]))
  /\
  (exists bld,
     p7_builder_Create stream_sensitive (Some (config p7_WGT_GSC 0 p7_EFFN_NONE 0 0 0)) 111
       None amino = Some bld /\
     do_reseeding bld = false /\
     bld_r bld = {| rng_seed := 111; rng_used := 0%N |} /\
     calibrated (calibrate stream_sensitive
         (set_rng bld {| rng_seed := 111; rng_used := 2%N |})
         (sample_hmm 3 4) sample_bg (Some None) None []) =
     simulated stream_sensitive bld {| rng_seed := 111; rng_used := 2%N |}
       (sample_hmm 3 4) sample_bg (Some None) None).
Proof.
  split.
  - destruct (p7_builder_Create stream_sensitive (Some (config p7_WGT_GSC 0 p7_EFFN_NONE 0 0 0))
                111 (Some (sample_options ["--fast"; "--wgsc"; "--eent"] 0 42)) amino)
      as [bld1|] eqn:Hc1; [|cbn in Hc1; discriminate].
    destruct (p7_builder_Create stream_sensitive (Some (config p7_WGT_PB 9 p7_EFFN_SET 7 7 7))
                222 (Some (sample_options ["--fast"; "--wgsc"; "--eent"] 0 42)) amino)
      as [bld2|] eqn:Hc2; [|cbn in Hc2; discriminate].
    destruct (calibration_reproducible_iff_seeded stream_sensitive _ _ _ _ _ _ _ _ Hc1 Hc2)
      as [Hseeded _].
    destruct Hseeded as (Hd1 & _ & Hsame); [cbn; lia|].
    exists bld1, bld2. repeat split; [exact Hd1 | apply Hsame].
  - destruct (p7_builder_Create stream_sensitive (Some (config p7_WGT_GSC 0 p7_EFFN_NONE 0 0 0))
                111 None amino) as [bld|] eqn:Hc; [|cbn in Hc; discriminate].
    destruct (calibration_reproducible_iff_seeded stream_sensitive _ _ _ _ _ _ _ _ Hc Hc)
      as [_ Hzero].
    destruct Hzero as (Hd & Hr & Hsim); [reflexivity|].
    exists bld. repeat split; [exact Hd | exact Hr | apply Hsim].
Defined.

(** C2 as stated fails in its last part: two configurations created
    with seed 0, in different blocks of memory, for which the random
    source happens to pick the same arbitrary seed, have reseeding off
    and yet calibrate to identical parameters. *)
Lemma calibration_seed_zero_counterexample :
  exists bld1 bld2,
    p7_builder_Create stream_sensitive (Some (config p7_WGT_GSC 0 p7_EFFN_NONE 0 0 0)) 777
      (Some (sample_options ["--fast"; "--wgsc"; "--eent"] 0 0)) amino = Some bld1 /\
    p7_builder_Create stream_sensitive (Some (config p7_WGT_PB 9 p7_EFFN_SET 7 7 7)) 777
      (Some (sample_options ["--fast"; "--wgsc"; "--eent"] 0 0)) amino = Some bld2 /\
    do_reseeding bld1 = false /\ do_reseeding bld2 = false /\
    calibrated (calibrate stream_sensitive bld1 (sample_hmm 3 4) sample_bg (Some None) None []) =
    calibrated (calibrate stream_sensitive bld2 (sample_hmm 3 4) sample_bg (Some None) None []) /\
    hmm_evparam (snd (fst (fst (calibrated
      (calibrate stream_sensitive bld1 (sample_hmm 3 4) sample_bg (Some None) None [])))))
      = [777%R; 0%R].
Proof.
  eexists. eexists.
  split; [reflexivity|]. split; [reflexivity|].
  cbn. repeat split.
Qed.

(** ** The score system: symmetry before probabilification *)

Lemma loading_no_probify (evs : Log) :
  forallb loading_event evs = true -> existsb is_probify evs = false.
Proof.
  induction evs as [|e evs IH]; [reflexivity|].
  cbn. intros H. apply andb_true_iff in H as [He Hevs].
  rewrite (IH Hevs). now destruct e.
Qed.

Section ScoreSystem.

Variable X : Collaborators.
Variables (bld : P7_BUILDER) (mxfile env : option string) (log : Log).

Lemma release_score_system_loading (b : P7_BUILDER) :
  forallb loading_event (release_score_system b) = true.
Proof.
  unfold release_score_system. now destruct (bld_S b), (bld_Q b).
Qed.

(** Loading adds loading events only, whether it succeeds or fails. *)
Lemma get_scoring_matrix_log :
  exists evs, forallb loading_event evs = true /\
    match get_scoring_matrix X bld mxfile env log with
    | inl (_, _, l) => l = log ++ evs
    | inr (_, _, l) => l = log ++ evs
    end.
Proof.
  unfold get_scoring_matrix.
  destruct (esl_scorematrix_Create X (abc bld)) as [S0|].
  2: { exists [Ev_scorematrix_Create]. now split. }
  destruct mxfile as [file|].
  - destruct (esl_fileparser_Open X file env) as [efp|c [efp|]].
    + cbn [abc set_score_system].
      destruct (esl_sco_Read X efp (abc bld) S0) as [[S1|c S1] efp'].
      * exists [Ev_scorematrix_Create; Ev_fileparser_Open file; Ev_sco_Read; Ev_fileparser_Close].
        split; [reflexivity|]. now rewrite <- !app_assoc.
      * exists [Ev_scorematrix_Create; Ev_fileparser_Open file; Ev_sco_Read; Ev_fileparser_Close].
        split; [reflexivity|]. now rewrite <- !app_assoc.
    + exists [Ev_scorematrix_Create; Ev_fileparser_Open file; Ev_fileparser_Close].
      split; [reflexivity|]. now rewrite <- !app_assoc.
    + exists [Ev_scorematrix_Create; Ev_fileparser_Open file].
      split; [reflexivity|]. now rewrite <- !app_assoc.
  - destruct (esl_scorematrix_SetBLOSUM62 X S0) as [s S1].
    exists [Ev_scorematrix_Create; Ev_scorematrix_SetBLOSUM62].
    split; [reflexivity|].
    destruct (Z.eqb_spec s eslOK); cbn [negb]; now rewrite <- !app_assoc.
Qed.

End ScoreSystem.

(** C6.  Whenever the matrix that was loaded is not symmetric,
    [p7_builder_SetScoreSystem] returns [eslEINVAL] with the message
    "Matrix isn't symmetric" in [errbuf], the symmetry test being the
    last thing it did; and in every run, whatever [esl_sco_Probify] was
    called on had passed the symmetry test, which immediately precedes
    the call, and an unsymmetric matrix tested means no call of
    [esl_sco_Probify] at all. *)
Theorem SetScoreSystem_symmetry_before_probify (X : Collaborators) (bld : P7_BUILDER)
    (mxfile env : option string) (popen pextend : R) (log : Log) :
  (forall S1 b l,
     get_scoring_matrix X (set_errbuf bld empty_message) mxfile env
       (log ++ release_score_system bld) = inl (S1, b, l) ->
     esl_scorematrix_IsSymmetric X S1 = false ->
     p7_builder_SetScoreSystem X bld mxfile env popen pextend log =
       (eslEINVAL, set_errbuf b (Msg "Matrix isn't symmetric" []),
        l ++ [Ev_scorematrix_IsSymmetric S1]))
  /\
  (exists evs,
     snd (p7_builder_SetScoreSystem X bld mxfile env popen pextend log) = log ++ evs /\
     (forall S1, In (Ev_sco_Probify S1) evs ->
        esl_scorematrix_IsSymmetric X S1 = true /\
        exists before, evs = before ++ [Ev_scorematrix_IsSymmetric S1; Ev_sco_Probify S1]) /\
     (forall S1, In (Ev_scorematrix_IsSymmetric S1) evs ->
        esl_scorematrix_IsSymmetric X S1 = false ->
        fst (fst (p7_builder_SetScoreSystem X bld mxfile env popen pextend log)) = eslEINVAL /\
        errbuf (snd (fst (p7_builder_SetScoreSystem X bld mxfile env popen pextend log)))
          = Msg "Matrix isn't symmetric" [] /\
        existsb is_probify evs = false)).
Proof.
  split.
  - intros S1 b l Hload Hsym.
    unfold p7_builder_SetScoreSystem. cbn [bld_S bld_Q set_errbuf].
    change (match bld_S bld with Some _ => [Ev_scorematrix_Destroy] | None => [] end
            ++ match bld_Q bld with Some _ => [Ev_dmatrix_Destroy] | None => [] end)
      with (release_score_system bld).
    unfold release_score_system in *. cbn [bld_S bld_Q set_errbuf] in *.
    rewrite Hload, Hsym. reflexivity.
  - unfold p7_builder_SetScoreSystem.
    assert (Hrel : release_score_system (set_errbuf bld empty_message)
                   = release_score_system bld) by reflexivity.
    rewrite Hrel.
    pose proof (release_score_system_loading bld) as Hr.
    destruct (get_scoring_matrix_log X (set_errbuf bld empty_message) mxfile env
                (log ++ release_score_system bld)) as (evs & Hevs & Hlog).
    assert (Hall : forallb loading_event (release_score_system bld ++ evs) = true).
    { rewrite forallb_app, Hr, Hevs. reflexivity. }
    pose proof (loading_no_probify _ Hall) as Hnp.
    assert (Hnotin : forall S1 (P : Prop), In (Ev_sco_Probify S1) (release_score_system bld ++ evs) -> P).
    { intros S1 P Hin. exfalso.
      assert (existsb is_probify (release_score_system bld ++ evs) = true)
        by (apply existsb_exists; exists (Ev_sco_Probify S1); now split).
      congruence. }
    assert (Hnosym : forall S1 (P : Prop),
              In (Ev_scorematrix_IsSymmetric S1) (release_score_system bld ++ evs) -> P).
    { intros S1 P Hin. exfalso.
      rewrite forallb_forall in Hall. now specialize (Hall _ Hin). }
    destruct (get_scoring_matrix X (set_errbuf bld empty_message) mxfile env
                (log ++ release_score_system bld)) as [[[S1 b] l]|[[s b] l]].
    + subst l.
      destruct (esl_scorematrix_IsSymmetric X S1) eqn:Hsym; cbn [negb].
      * destruct (esl_sco_Probify X S1) as [[[[Q1 fa] fb] sl]|c [[Q1 fa] fb]];
          cbn [snd fst];
          exists ((release_score_system bld ++ evs)
                  ++ [Ev_scorematrix_IsSymmetric S1; Ev_sco_Probify S1]);
          (split; [now rewrite <- !app_assoc|]);
          (split; [intros S2 Hin; apply in_app_or in Hin as [Hin|Hin];
                   [now apply (Hnotin S2)|];
                   destruct Hin as [Hin|[Hin|[]]]; [discriminate|];
                   injection Hin as <-; split; [exact Hsym | eexists; reflexivity]
                  |intros S2 Hin Hns; apply in_app_or in Hin as [Hin|Hin];
                   [now apply (Hnosym S2)|];
                   destruct Hin as [Hin|[Hin|[]]]; [|discriminate];
                   injection Hin as <-; congruence]).
      * cbn [snd fst].
        exists ((release_score_system bld ++ evs) ++ [Ev_scorematrix_IsSymmetric S1]).
        split; [now rewrite <- !app_assoc|].
        split.
        -- intros S2 Hin. apply in_app_or in Hin as [Hin|Hin];
             [now apply (Hnotin S2)|].
           destruct Hin as [Hin|[]]. discriminate.
        -- intros S2 _ _. split; [reflexivity|]. split; [reflexivity|].
           rewrite existsb_app, Hnp. reflexivity.
    + subst l. cbn [snd fst].
      exists (release_score_system bld ++ evs).
      split; [now rewrite <- !app_assoc|].
      split.
      * intros S2 Hin. now apply (Hnotin S2).
      * intros S2 Hin. now apply (Hnosym S2).
Qed.

Lemma SetScoreSystem_symmetry_before_probify_witness :
  p7_builder_SetScoreSystem nominal (config p7_WGT_GSC 1000 p7_EFFN_ENTROPY (-1) 6 0)
    (Some "skewed.mat") None (2 / 100)%R (4 / 10)%R [] =
    (eslEINVAL,
     set_errbuf (set_score_system (config p7_WGT_GSC 1000 p7_EFFN_ENTROPY (-1) 6 0)
                   (Some [[1; 2]; [3; 4]]) None)
       (Msg "Matrix isn't symmetric" []),
     [Ev_scorematrix_Create; Ev_fileparser_Open "skewed.mat"; Ev_sco_Read;
      Ev_fileparser_Close] ++ [Ev_scorematrix_IsSymmetric [[1; 2]; [3; 4]]])
  /\
  esl_scorematrix_IsSymmetric nominal [[4; -1]; [-1; 5]] = true.
Proof.
  split.
  - destruct (SetScoreSystem_symmetry_before_probify nominal
                (config p7_WGT_GSC 1000 p7_EFFN_ENTROPY (-1) 6 0)
                (Some "skewed.mat") None (2 / 100)%R (4 / 10)%R []) as [Hreject _].
    apply Hreject; reflexivity.
  - destruct (SetScoreSystem_symmetry_before_probify nominal
                (config p7_WGT_GSC 1000 p7_EFFN_ENTROPY (-1) 6 0)
                None None (2 / 100)%R (4 / 10)%R []) as [_ (evs & Hlog & Hprob & _)].
    cbn in Hlog. subst evs.
    apply Hprob. cbn. auto.
Defined.

(** ** The single-sequence path *)

Lemma match_states_succ (k : Z) (n : nat) :
  match_states k (Datatypes.S n) = (p7T_M, k, k) :: match_states (k + 1) n.
Proof.
  unfold match_states. cbn [seq map]. rewrite Z.add_0_r. f_equal.
  rewrite <- seq_shift, map_map. apply map_ext. intros i.
  replace (k + Z.of_nat (Datatypes.S i)) with (k + 1 + Z.of_nat i) by lia.
  reflexivity.
Qed.

Lemma linear_trace_shape (n : Z) :
  0 <= n ->
  List.length (tr_steps (linear_trace n)) = Z.to_nat (n + 2) /\
  nth_error (tr_steps (linear_trace n)) 0 = Some (p7T_B, 0, 0) /\
  (forall k, 1 <= k <= n ->
     nth_error (tr_steps (linear_trace n)) (Z.to_nat k) = Some (p7T_M, k, k)) /\
  nth_error (tr_steps (linear_trace n)) (Z.to_nat (n + 1)) = Some (p7T_E, 0, 0).
Proof.
  intros Hn. unfold linear_trace. cbn [tr_steps].
  assert (Hlen : List.length (match_states 1 (Z.to_nat n)) = Z.to_nat n)
    by (unfold match_states; now rewrite length_map, length_seq).
  repeat split.
  - cbn [List.length]. rewrite length_app, Hlen. cbn. lia.
  - intros k Hk.
    replace (Z.to_nat k) with (Datatypes.S (Z.to_nat (k - 1))) by lia.
    cbn [nth_error]. rewrite nth_error_app1 by lia.
    unfold match_states. rewrite nth_error_map, nth_error_seq.
    destruct (Nat.ltb_spec (Z.to_nat (k - 1)) (Z.to_nat n)); [|lia].
    cbn [option_map Nat.add].
    replace (1 + Z.of_nat (Z.to_nat (k - 1))) with k by lia. reflexivity.
  - replace (Z.to_nat (n + 1)) with (Datatypes.S (Z.to_nat n)) by lia.
    cbn [nth_error]. rewrite nth_error_app2 by lia.
    rewrite Hlen, Nat.sub_diag. reflexivity.
Qed.

Section SingleBuilder.

Variable X : Collaborators.

Lemma p7_trace_Append_ok (tr : P7_TRACE) (st : p7t_statetype) (k i : Z) :
  fst (p7_trace_Append X tr st k i) = eslOK ->
  snd (p7_trace_Append X tr st k i) =
    {| tr_steps := tr_steps tr ++ [(st, k, i)]; tr_M := tr_M tr; tr_L := tr_L tr |}.
Proof.
  unfold p7_trace_Append.
  destruct (Z.eqb_spec (trace_Append_status X tr) eslOK); cbn; [reflexivity | congruence].
Qed.

Lemma p7_trace_Append_always (tr : P7_TRACE) (st : p7t_statetype) (k i : Z) :
  (forall t, trace_Append_status X t = eslOK) ->
  p7_trace_Append X tr st k i =
    (eslOK, {| tr_steps := tr_steps tr ++ [(st, k, i)]; tr_M := tr_M tr; tr_L := tr_L tr |}).
Proof.
  intros H. unfold p7_trace_Append. now rewrite H.
Qed.

Lemma append_match_states_ok (todo : nat) :
  forall k tr log,
    fst (fst (append_match_states X todo k tr log)) = eslOK ->
    snd (fst (append_match_states X todo k tr log)) =
      {| tr_steps := tr_steps tr ++ match_states k todo; tr_M := tr_M tr; tr_L := tr_L tr |}.
Proof.
  induction todo as [|todo IH]; intros k tr log Hok.
  - cbn. rewrite app_nil_r. now destruct tr.
  - cbn [append_match_states] in *.
    pose proof (p7_trace_Append_ok tr p7T_M k k) as Hone.
    destruct (p7_trace_Append X tr p7T_M k k) as [s tr1].
    cbn [fst snd] in Hone.
    destruct (Z.eqb_spec s eslOK) as [->|Hs]; cbn [negb] in *.
    + rewrite (IH _ _ _ Hok), (Hone eq_refl). cbn [tr_steps tr_M tr_L].
      rewrite match_states_succ, <- app_assoc. reflexivity.
    + cbn in Hok. congruence.
Qed.

Lemma append_match_states_always (todo : nat) :
  (forall t, trace_Append_status X t = eslOK) ->
  forall k tr log, fst (fst (append_match_states X todo k tr log)) = eslOK.
Proof.
  intros H. induction todo as [|todo IH]; intros k tr log; [reflexivity|].
  cbn [append_match_states]. rewrite p7_trace_Append_always by exact H.
  cbn [Z.eqb negb eslOK]. apply IH.
Qed.

End SingleBuilder.

(** C7.  A configuration fresh from [p7_builder_Create] has no
    conditional-probability matrix, and [p7_SingleBuilder] on a
    configuration without one returns [eslEINVAL] after raising the
    exception "score system not initialized": [p7_Seqmodel] is not
    called, no model exists (the destructor gets [NULL]), and the
    caller's model and trace variables are left as they were. *)
Theorem SingleBuilder_needs_score_system (X : Collaborators) (bld : P7_BUILDER)
    (sq : ESL_SQ) (bg : P7_BG) (opt_hmm : cell P7_HMM) (opt_tr : cell P7_TRACE)
    (opt_gm : cell P7_PROFILE) (opt_om : cell P7_OPROFILE) (log : Log) :
  (forall fresh arbitrary go abc0,
     p7_builder_Create X fresh arbitrary go abc0 = Some bld -> bld_Q bld = None)
  /\
  (bld_Q bld = None ->
   let out := p7_SingleBuilder X bld sq bg opt_hmm opt_tr opt_gm opt_om log in
   srun_status out = eslEINVAL /\
   srun_opt_hmm out = opt_hmm /\
   srun_opt_tr out = opt_tr /\
   srun_log out =
     log ++ [Ev_exception eslEINVAL "score system not initialized"]
         ++ [Ev_hmm_Destroy None]
         ++ match opt_gm with Some gm => [Ev_profile_Destroy gm] | None => [] end
         ++ match opt_om with Some om => [Ev_oprofile_Destroy om] | None => [] end /\
   exists evs, srun_log out = log ++ evs /\ ~ In Ev_Seqmodel evs).
Proof.
  split.
  - intros fresh arbitrary go abc0 Hc. unfold p7_builder_Create in Hc.
    destruct fresh; [|discriminate].
    destruct (choose_prior X abc0); [|discriminate].
    now injection Hc as <-.
  - intros HQ out. subst out. unfold p7_SingleBuilder.
    cbn [bld_Q set_errbuf]. rewrite HQ. cbn [single_ERROR srun_status srun_opt_hmm
      srun_opt_tr srun_log].
    repeat split.
    + now rewrite <- app_assoc.
    + eexists. split; [rewrite <- app_assoc; reflexivity|].
      cbn. destruct opt_gm, opt_om; cbn; intuition discriminate.
Qed.

Lemma SingleBuilder_needs_score_system_witness :
  exists bld,
    p7_builder_Create nominal (Some (config p7_WGT_GSC 0 p7_EFFN_NONE 0 0 0)) 12345
      None amino = Some bld /\
    bld_Q bld = None /\
    srun_status (p7_SingleBuilder nominal bld
        {| sq_name := "query"; sq_dsq := [1; 2; 3]; sq_n := 3 |} sample_bg
        (Some None) None (Some None) None []) = eslEINVAL /\
    srun_opt_hmm (p7_SingleBuilder nominal bld
        {| sq_name := "query"; sq_dsq := [1; 2; 3]; sq_n := 3 |} sample_bg
        (Some None) None (Some None) None []) = Some None.
Proof.
  destruct (p7_builder_Create nominal (Some (config p7_WGT_GSC 0 p7_EFFN_NONE 0 0 0)) 12345
              None amino) as [bld|] eqn:Hc; [|cbn in Hc; discriminate].
  destruct (SingleBuilder_needs_score_system nominal bld
              {| sq_name := "query"; sq_dsq := [1; 2; 3]; sq_n := 3 |} sample_bg
              (Some None) None (Some None) None []) as [HQ Hfail].
  specialize (HQ _ _ _ _ Hc).
  destruct (Hfail HQ) as (Hs & Hh & _).
  exists bld. repeat split; assumption.
Defined.

(** C9.  [p7_SingleBuilder] asked for a trace delivers the linear one
    only when the trace can be allocated.  A run that returns [eslOK]
    with the trace allocated leaves exactly [linear_trace (sq->n)] in
    the caller's trace variable: Begin, the match states [M_1 .. M_n]
    at node [k] and position [k], End, with [M] and [L] both [n]; and
    it does return [eslOK] once the score system is set and the model,
    the calibration and the trace allocations succeed.  But when
    [p7_trace_Create] returns [NULL], the function goes to [ERROR:]
    with [status] still [eslOK] from the calibration: it returns
    [eslOK] although a trace was requested, and the caller's trace
    variable still holds what it held before the call. *)
Theorem SingleBuilder_linear_trace (X : Collaborators) (bld : P7_BUILDER)
    (sq : ESL_SQ) (bg : P7_BG) (opt_hmm : cell P7_HMM) (old : option P7_TRACE)
    (opt_gm : cell P7_PROFILE) (opt_om : cell P7_OPROFILE) (log : Log) :
  let out := p7_SingleBuilder X bld sq bg opt_hmm (Some old) opt_gm opt_om log in
  (srun_status out = eslOK ->
   (trace_Create_ok X = true ->
    srun_opt_tr out = Some (Some (linear_trace (sq_n sq)))) /\
   (trace_Create_ok X = false -> srun_opt_tr out = Some old))
  /\
  (forall Q hmm,
     bld_Q bld = Some Q ->
     p7_Seqmodel X (abc bld) (sq_dsq sq) (sq_n sq) (sq_name sq) Q (bg_f bg)
       (popen bld) (pextend bld) = Done hmm ->
     fst (fst (fst (fst (fst (calibration_simulations X hmm
       {| cp_EvL := EvL bld; cp_EvN := EvN bld; cp_EfL := EfL bld;
          cp_EfN := EfN bld; cp_Eft := Eft bld |}
       (if do_reseeding bld
        then {| rng_seed := rng_seed (bld_r bld); rng_used := 0%N |}
        else bld_r bld) bg (store opt_gm None) (store opt_om None)))))) = eslOK ->
     (trace_Create_ok X = true ->
      (forall t, trace_Append_status X t = eslOK) ->
      srun_status out = eslOK) /\
     (trace_Create_ok X = false -> srun_status out = eslOK)).
Proof.
  intros out. subst out. unfold p7_SingleBuilder. cbn [bld_Q set_errbuf abc popen pextend].
  destruct (bld_Q bld) as [Q|].
  2: { split; [discriminate | intros; discriminate]. }
  destruct (p7_Seqmodel X (abc bld) (sq_dsq sq) (sq_n sq) (sq_name sq) Q (bg_f bg)
              (popen bld) (pextend bld)) as [hmm|c left] eqn:Eseq.
  2: { split; [intros H; cbn in H; discriminate|].
       intros Q' hmm' HQ' Hd. injection HQ' as <-. congruence. }
  unfold calibrate, p7_Calibrate, esl_randomness_Init, esl_randomness_GetSeed.
  cbn [do_reseeding bld_r set_errbuf EvL EvN EfL EfN Eft].
  destruct (calibration_simulations X hmm _ _ bg _ _) as [[[[[s h] g] gm] om] msg] eqn:Esim.
  cbv beta iota zeta.
  destruct (Z.eqb_spec s eslOK) as [->|Hs]; cbn [negb]; cbv beta iota zeta;
    cbn [negb Z.eqb eslOK].
  2: { rewrite (proj2 (Z.eqb_neq _ _) Hs). cbn [negb].
       split; [intros H; elim (Hs H)|].
       intros Q' hmm' HQ' Hd Hsim. injection HQ' as <-.
       rewrite Eseq in Hd. injection Hd as <-.
       rewrite Esim in Hsim. elim (Hs Hsim). }
  unfold p7_trace_Create.
  split.
  - intros Hok. split; intros Hcreate; rewrite Hcreate in *; [|reflexivity].
    pose proof (p7_trace_Append_ok X {| tr_steps := []; tr_M := 0; tr_L := 0 |} p7T_B 0 0) as HB.
    destruct (p7_trace_Append X _ p7T_B 0 0) as [sB trB]. cbn [fst snd] in HB.
    destruct (Z.eqb_spec sB eslOK) as [->|HsB]; cbn [negb] in *;
      [|elim (HsB Hok)].
    specialize (HB eq_refl). subst trB. cbn [tr_steps tr_M tr_L app] in *.
    pose proof (append_match_states_ok X (Z.to_nat (sq_n sq)) 1
                  {| tr_steps := [(p7T_B, 0, 0)]; tr_M := 0; tr_L := 0 |}
                  ((((log ++ [Ev_Seqmodel]) ++ [Ev_Calibrate (do_reseeding bld)])
                     ++ [Ev_trace_Create]) ++ [Ev_trace_Append p7T_B 0 0])) as HM.
    destruct (append_match_states X _ 1 _ _) as [[sM trM] logM]. cbn [fst snd] in HM.
    destruct (Z.eqb_spec sM eslOK) as [->|HsM]; cbn [negb] in *;
      [|elim (HsM Hok)].
    specialize (HM eq_refl). subst trM. cbn [tr_steps tr_M tr_L app] in *.
    pose proof (p7_trace_Append_ok X
                  {| tr_steps := (p7T_B, 0, 0) :: match_states 1 (Z.to_nat (sq_n sq));
                     tr_M := 0; tr_L := 0 |} p7T_E 0 0) as HE.
    destruct (p7_trace_Append X _ p7T_E 0 0) as [sE trE]. cbn [fst snd] in HE.
    destruct (Z.eqb_spec sE eslOK) as [->|HsE]; cbn [negb] in *;
      [|elim (HsE Hok)].
    specialize (HE eq_refl). subst trE. reflexivity.
  - intros Q' hmm' _ _ _. split.
    + intros Hcreate Happ. rewrite Hcreate.
      rewrite p7_trace_Append_always by exact Happ. cbn [negb Z.eqb eslOK].
      pose proof (append_match_states_always X (Z.to_nat (sq_n sq)) Happ 1
                    {| tr_steps := [] ++ [(p7T_B, 0, 0)]; tr_M := 0; tr_L := 0 |}
                    ((((log ++ [Ev_Seqmodel]) ++ [Ev_Calibrate (do_reseeding bld)])
                       ++ [Ev_trace_Create]) ++ [Ev_trace_Append p7T_B 0 0])) as HM.
      cbn [tr_steps tr_M tr_L] in *.
      destruct (append_match_states X _ 1 _ _) as [[sM trM] logM]. cbn [fst snd] in HM.
      subst sM. cbn [negb Z.eqb eslOK].
      rewrite p7_trace_Append_always by exact Happ. reflexivity.
    + intros Hcreate. rewrite Hcreate. reflexivity.
Qed.

Lemma SingleBuilder_linear_trace_witness :
  let bld := set_score_system (config p7_WGT_GSC 1000 p7_EFFN_ENTROPY (-1) 6 42)
               None (Some [[1%R; 1%R]; [1%R; 1%R]]) in
  let sq := {| sq_name := "query"; sq_dsq := [1; 2; 1]; sq_n := 3 |} in
  (srun_status (p7_SingleBuilder nominal bld sq sample_bg (Some None) (Some None) None None [])
     = eslOK /\
   srun_opt_tr (p7_SingleBuilder nominal bld sq sample_bg (Some None) (Some None) None None [])
     = Some (Some {| tr_steps := [(p7T_B, 0, 0); (p7T_M, 1, 1); (p7T_M, 2, 2);
                                  (p7T_M, 3, 3); (p7T_E, 0, 0)];
                     tr_M := 3; tr_L := 3 |}))
  /\
  (let failing := world eslOK eslOK None eslOK None None false None in
   srun_status (p7_SingleBuilder failing bld sq sample_bg (Some None)
                  (Some (Some sample_trace)) None None []) = eslOK /\
   srun_opt_tr (p7_SingleBuilder failing bld sq sample_bg (Some None)
                  (Some (Some sample_trace)) None None []) = Some (Some sample_trace)).
Proof.
  intros bld sq. split.
  - destruct (SingleBuilder_linear_trace nominal bld sq sample_bg (Some None) None None None [])
      as [Htrace Hreturns].
    assert (Hok : srun_status (p7_SingleBuilder nominal bld sq sample_bg (Some None)
                                 (Some None) None None []) = eslOK).
    { destruct (Hreturns [[1%R; 1%R]; [1%R; 1%R]] (sample_hmm 3 1)) as [Hyes _];
        [reflexivity | reflexivity | reflexivity |].
      apply Hyes; reflexivity. }
    split; [exact Hok|].
    apply (proj1 (Htrace Hok)). reflexivity.
  - intros failing.
    destruct (SingleBuilder_linear_trace failing bld sq sample_bg (Some None)
                (Some sample_trace) None None []) as [Htrace Hreturns].
    assert (Hok : srun_status (p7_SingleBuilder failing bld sq sample_bg (Some None)
                                 (Some (Some sample_trace)) None None []) = eslOK).
    { destruct (Hreturns [[1%R; 1%R]; [1%R; 1%R]] (sample_hmm 3 1)) as [_ Hno];
        [reflexivity | reflexivity | reflexivity |].
      apply Hno. reflexivity. }
    split; [exact Hok|].
    apply (proj2 (Htrace Hok)). reflexivity.
Defined.

(** ** The alignment pipeline: failing fast *)

Section FailFast.

Variable X : Collaborators.
Variables (bld : P7_BUILDER) (msa : ESL_MSA) (bg : P7_BG).
Variables (opt_hmm : cell P7_HMM) (opt_trarr : cell (list P7_TRACE)).
Variables (opt_gm : cell P7_PROFILE) (opt_om : cell P7_OPROFILE).
Variables (opt_postmsa : cell ESL_MSA) (log : Log).

Lemma make_post_msa_failure (b : P7_BUILDER) (m : ESL_MSA) (h : P7_HMM)
    (t : option (list P7_TRACE)) (l0 : Log) s pm l :
  make_post_msa X b m h t opt_postmsa l0 = (s, pm, l) -> s <> eslOK -> pm = opt_postmsa.
Proof.
  unfold make_post_msa. destruct opt_postmsa as [old|].
  - destruct (p7_tracealign_MSA X m t (hmm_M h) (p7_DEFAULT X)) as [post|c left];
      intros E Hs; injection E as <- <- <-; [now elim Hs | reflexivity].
  - intros E Hs. injection E as <- <- <-. now elim Hs.
Qed.

Ltac open_prefix :=
  unfold after_calibrate, after_annotate, after_parameterize, after_effective,
    after_build, after_weights in *;
  repeat match goal with
         | H : exists _, _ |- _ => destruct H
         | H : _ /\ _ |- _ => destruct H
         end.

Ltac replay :=
  unfold p7_Builder;
  repeat match goal with
         | H : relative_weights _ _ _ _ = _ |- _ => rewrite H; clear H
         | H : build_model _ _ _ _ _ = _ |- _ => rewrite H; clear H
         | H : effective_seqnumber _ _ _ _ _ _ = _ |- _ => rewrite H; clear H
         | H : parameterize _ _ _ _ = _ |- _ => rewrite H; clear H
         | H : annotate _ _ _ _ _ = _ |- _ => rewrite H; clear H
         | H : calibrate _ _ _ _ _ _ _ = _ |- _ => rewrite H; clear H
         | H : make_post_msa _ _ _ _ _ _ _ = _ |- _ => rewrite H; clear H
         | H : ?s <> eslOK |- _ => rewrite (proj2 (Z.eqb_neq s eslOK) H); clear H
         | |- _ => progress cbn [negb Z.eqb eslOK]
         end.

(** A failing stage sends the pipeline straight to its [ERROR:] block. *)
Lemma fails_at_ERROR stage s b m h t gm om l :
  fails_at X bld msa bg opt_trarr opt_gm opt_om opt_postmsa log stage s b m h t gm om l ->
  p7_Builder X bld msa bg opt_hmm opt_trarr opt_gm opt_om opt_postmsa log =
    builder_ERROR s b m h t opt_hmm opt_trarr gm om opt_postmsa l.
Proof.
  intros F. destruct F.
  - replay. reflexivity.
  - open_prefix. replay. reflexivity.
  - open_prefix. replay. reflexivity.
  - open_prefix. replay. reflexivity.
  - open_prefix. replay. reflexivity.
  - open_prefix. replay. reflexivity.
  - open_prefix.
    assert (pm = opt_postmsa) by (eapply make_post_msa_failure; eassumption).
    subst pm. replay. reflexivity.
Qed.

Lemma fails_at_status stage s b m h t gm om l :
  fails_at X bld msa bg opt_trarr opt_gm opt_om opt_postmsa log stage s b m h t gm om l -> s <> eslOK.
Proof.
  intros F. destruct F; try assumption. discriminate.
Qed.

(** Every run that does not return [eslOK] failed at some stage. *)
Lemma failure_is_at_a_stage :
  run_status (p7_Builder X bld msa bg opt_hmm opt_trarr opt_gm opt_om opt_postmsa log)
    <> eslOK ->
  exists stage s b m h t gm om l,
    fails_at X bld msa bg opt_trarr opt_gm opt_om opt_postmsa log stage s b m h t gm om l.
Proof.
  unfold p7_Builder.
  destruct (relative_weights X bld msa log) as [[[s1 b1] m1] l1] eqn:E1.
  destruct (Z.eqb_spec s1 eslOK) as [->|H1]; cbn [negb].
  2: { intros _. do 9 eexists. eapply fail_relative_weights; eassumption. }
  destruct (build_model X b1 m1 _ l1) as [[[[[h2 t2]|c [h2 t2]] b2] m2] l2] eqn:E2.
  2: { intros _. do 9 eexists. eapply fail_build_model; [exact E1 | exact E2]. }
  assert (A2 : after_build X bld msa opt_trarr opt_postmsa log b2 m2 h2 t2 l2) by (do 3 eexists; split; [exact E1 | exact E2]).
  destruct (effective_seqnumber X b2 m2 h2 bg l2) as [[[s3 b3] h3] l3] eqn:E3.
  destruct (Z.eqb_spec s3 eslOK) as [->|H3]; cbn [negb].
  2: { intros _. do 9 eexists. eapply fail_effective_seqnumber; eassumption. }
  assert (A3 : after_effective X bld msa bg opt_trarr opt_postmsa log b3 m2 h3 t2 l3) by (do 3 eexists; split; [exact A2 | exact E3]).
  destruct (parameterize X b3 h3 l3) as [[[s4 b4] h4] l4] eqn:E4.
  destruct (Z.eqb_spec s4 eslOK) as [->|H4]; cbn [negb].
  2: { intros _. do 9 eexists. eapply fail_parameterize; eassumption. }
  assert (A4 : after_parameterize X bld msa bg opt_trarr opt_postmsa log b4 m2 h4 t2 l4)
    by (do 3 eexists; split; [exact A3 | exact E4]).
  destruct (annotate X b4 m2 h4 l4) as [[[s5 b5] h5] l5] eqn:E5.
  destruct (Z.eqb_spec s5 eslOK) as [->|H5]; cbn [negb].
  2: { intros _. do 9 eexists. eapply fail_annotate; eassumption. }
  assert (A5 : after_annotate X bld msa bg opt_trarr opt_postmsa log b5 m2 h5 t2 l5) by (do 3 eexists; split; [exact A4 | exact E5]).
  destruct (calibrate X b5 h5 bg opt_gm opt_om l5) as [[[[[s6 b6] h6] gm6] om6] l6] eqn:E6.
  destruct (Z.eqb_spec s6 eslOK) as [->|H6]; cbn [negb].
  2: { intros _. do 9 eexists. eapply fail_calibrate; eassumption. }
  assert (A6 : after_calibrate X bld msa bg opt_trarr opt_gm opt_om opt_postmsa log
                 b6 m2 h6 t2 gm6 om6 l6)
    by (do 3 eexists; split; [exact A5 | exact E6]).
  destruct (make_post_msa X b6 m2 h6 t2 opt_postmsa l6) as [[s7 pm7] l7] eqn:E7.
  destruct (Z.eqb_spec s7 eslOK) as [->|H7]; cbn [negb].
  2: { intros _. do 9 eexists. eapply fail_make_post_msa; eassumption. }
  cbn. intros H. now elim H.
Qed.

End FailFast.

Lemma fails_at_requested X bld msa bg opt_trarr opt_gm opt_om opt_postmsa log
    stage s b m h t gm om l :
  fails_at X bld msa bg opt_trarr opt_gm opt_om opt_postmsa log stage s b m h t gm om l ->
  requested gm = requested opt_gm /\ requested om = requested opt_om.
Proof.
  intros F. destruct F; try (split; reflexivity).
  - match goal with
    | E : calibrate X ?b0 ?h0 bg opt_gm opt_om ?l0 = _ |- _ =>
        destruct (calibrate_status_log X b0 h0 bg opt_gm opt_om l0)
          as (s' & b' & h' & gm' & om' & E' & Hg & Ho & _);
        rewrite E in E'; injection E' as -> -> -> -> ->
    end.
    now split.
  - match goal with
    | A : after_calibrate _ _ _ _ _ _ _ _ _ _ _ _ _ _ _ _ |- _ =>
        destruct A as (b0 & h0 & l1 & _ & E)
    end.
    destruct (calibrate_status_log X b0 h0 bg opt_gm opt_om l1)
      as (s' & b' & h' & gm' & om' & E' & Hg & Ho & _).
    rewrite E in E'. injection E' as _ _ _ <- <- _.
    now split.
Qed.

(** C1.  When a stage of [p7_Builder] fails, after every earlier stage
    returned [eslOK], the run returns that stage's status and nothing
    further happens but the four destructor calls of the error block:
    the model, the trace array, and the profile and optimized profile
    of the caller's variables when these were passed.  The caller's
    model, trace-array and alignment variables are left as they were.
    Every run that does not return [eslOK] is such a failure.  The
    profile variables, however, are not reset: whatever one of them
    holds after a failed run has been handed to its destructor, so
    when [make_post_msa] fails the caller is left with the profiles of
    the calibration, destroyed. *)
Theorem p7_Builder_fails_fast (X : Collaborators) (bld : P7_BUILDER) (msa : ESL_MSA)
    (bg : P7_BG) (opt_hmm : cell P7_HMM) (opt_trarr : cell (list P7_TRACE))
    (opt_gm : cell P7_PROFILE) (opt_om : cell P7_OPROFILE)
    (opt_postmsa : cell ESL_MSA) (log : Log) :
  let run := p7_Builder X bld msa bg opt_hmm opt_trarr opt_gm opt_om opt_postmsa log in
  (forall stage s b m h t gm om l,
     fails_at X bld msa bg opt_trarr opt_gm opt_om opt_postmsa log stage s b m h t gm om l ->
     run_status run = s /\ s <> eslOK /\
     run_bld run = b /\ run_msa run = m /\
     run_log run =
       l ++ [Ev_hmm_Destroy h; Ev_trace_DestroyArray t (msa_nseq m)]
         ++ match gm with Some p => [Ev_profile_Destroy p] | None => [] end
         ++ match om with Some p => [Ev_oprofile_Destroy p] | None => [] end /\
     run_opt_hmm run = opt_hmm /\
     run_opt_trarr run = opt_trarr /\
     run_opt_postmsa run = opt_postmsa /\
     run_opt_gm run = gm /\ requested gm = requested opt_gm /\
     run_opt_om run = om /\ requested om = requested opt_om)
  /\
  (run_status run <> eslOK ->
   exists stage s b m h t gm om l,
     fails_at X bld msa bg opt_trarr opt_gm opt_om opt_postmsa log stage s b m h t gm om l)
  /\
  (run_status run <> eslOK ->
   (forall p, run_opt_gm run = Some p -> In (Ev_profile_Destroy p) (run_log run)) /\
   (forall p, run_opt_om run = Some p -> In (Ev_oprofile_Destroy p) (run_log run))).
Proof.
  intros run.
  assert (Hfail : forall stage s b m h t gm om l,
     fails_at X bld msa bg opt_trarr opt_gm opt_om opt_postmsa log stage s b m h t gm om l ->
     run_status run = s /\ s <> eslOK /\
     run_bld run = b /\ run_msa run = m /\
     run_log run =
       l ++ [Ev_hmm_Destroy h; Ev_trace_DestroyArray t (msa_nseq m)]
         ++ match gm with Some p => [Ev_profile_Destroy p] | None => [] end
         ++ match om with Some p => [Ev_oprofile_Destroy p] | None => [] end /\
     run_opt_hmm run = opt_hmm /\
     run_opt_trarr run = opt_trarr /\
     run_opt_postmsa run = opt_postmsa /\
     run_opt_gm run = gm /\ requested gm = requested opt_gm /\
     run_opt_om run = om /\ requested om = requested opt_om).
  { intros stage s b m h t gm om l F.
    destruct (fails_at_requested _ _ _ _ _ _ _ _ _ _ _ _ _ _ _ _ _ _ F) as [Hg Ho].
    pose proof (fails_at_status _ _ _ _ _ _ _ _ _ _ _ _ _ _ _ _ _ _ F) as Hs.
    subst run. rewrite (fails_at_ERROR _ _ _ _ opt_hmm _ _ _ _ _ _ _ _ _ _ _ _ _ _ F).
    cbn. repeat split; assumption. }
  split; [exact Hfail|]. split.
  - apply failure_is_at_a_stage.
  - intros Hrun.
    destruct (failure_is_at_a_stage X bld msa bg opt_hmm opt_trarr opt_gm opt_om
                opt_postmsa log Hrun) as (stage & s & b & m & h & t & gm & om & l & F).
    destruct (Hfail _ _ _ _ _ _ _ _ _ F)
      as (_ & _ & _ & _ & Hl & _ & _ & _ & Hgm & _ & Hom & _).
    rewrite Hl, Hgm, Hom. split; intros p ->.
    + apply in_or_app. right. apply in_or_app. right.
      apply in_or_app. left. now left.
    + apply in_or_app. right. apply in_or_app. right.
      apply in_or_app. right. now left.
Qed.

Lemma p7_Builder_fails_fast_witness :
  let failing := world eslOK eslOK None eslOK (Some 5%positive) None true None in
  let bld := config p7_WGT_GSC 1000 p7_EFFN_SET 2 6 42 in
  let run := p7_Builder failing bld (sample_msa 4) sample_bg
               (Some None) None (Some None) None (Some None) [] in
  run_status run = eslEMEM /\
  run_opt_hmm run = Some None /\
  run_opt_postmsa run = Some None /\
  run_opt_gm run = Some (Some (profile_id 1)) /\
  In (Ev_profile_Destroy (Some (profile_id 1))) (run_log run).
Proof.
  intros failing bld run.
  destruct (p7_Builder_fails_fast failing bld (sample_msa 4) sample_bg
              (Some None) None (Some None) None (Some None) []) as (Hfail & Hstage & Hleft).
  fold run in Hfail, Hstage, Hleft.
  assert (Hs : run_status run = eslEMEM) by reflexivity.
  assert (Hrun : run_status run <> eslOK) by (rewrite Hs; discriminate).
  assert (Hgm : run_opt_gm run = Some (Some (profile_id 1))) by reflexivity.
  destruct (Hstage Hrun) as (stage & s & b & m & h & t & gm & om & l & F).
  destruct (Hfail _ _ _ _ _ _ _ _ _ F) as (_ & _ & _ & _ & _ & Hh & _ & Hp & _).
  split; [exact Hs|]. split; [exact Hh|]. split; [exact Hp|]. split; [exact Hgm|].
  apply (proj1 (Hleft Hrun)). exact Hgm.
Defined.

(** * Further properties *)

(** ** How the stages report *)

Lemma reported_ok (bld : P7_BUILDER) : reported bld bld eslOK.
Proof.
  split; [reflexivity | intros H; now elim H].
Qed.

Lemma reported_xfail (bld : P7_BUILDER) (s : status) (f : string) (a : list fmt_arg) :
  s <> eslOK -> f <> "" -> reported bld (xfail bld f a) s.
Proof.
  intros Hs Hf. split; [intros E; now elim Hs | intros _; now exists f, a].
Qed.

Lemma reported_by_status (bld : P7_BUILDER) (s : status) (f : string) (a : list fmt_arg) :
  f <> "" -> reported bld (if s =? eslOK then bld else xfail bld f a) s.
Proof.
  intros Hf. destruct (Z.eqb_spec s eslOK) as [->|Hs];
    [apply reported_ok | now apply reported_xfail].
Qed.

Section StageReports.

Variable X : Collaborators.
Variables (bld : P7_BUILDER) (msa : ESL_MSA) (hmm : P7_HMM) (bg : P7_BG) (log : Log).

Lemma relative_weights_reported :
  reported bld (res_bld (relative_weights X bld msa log))
    (res_status (relative_weights X bld msa log)).
Proof.
  assert (Hafter : forall (r : status * ESL_MSA) (e : Event),
             reported bld
               (res_bld (let '(status, msa, log) :=
                           let '(s, m) := r in (s, m, log ++ [e]) in
                         if negb (status =? eslOK)
                         then (status, xfail bld "failed to set relative weights in alignment" [],
                               msa, log)
                         else (eslOK, bld, msa, log)))
               (res_status (let '(status, msa, log) :=
                              let '(s, m) := r in (s, m, log ++ [e]) in
                            if negb (status =? eslOK)
                            then (status, xfail bld "failed to set relative weights in alignment" [],
                                  msa, log)
                            else (eslOK, bld, msa, log)))).
  { intros [s m] e. rewrite relative_weights_after. cbn.
    now apply reported_by_status. }
  unfold relative_weights.
  destruct (wgt_strategy bld);
    try destruct (negb (pbswitch bld =? -1) && (msa_nseq msa >=? pbswitch bld));
    try apply Hafter; apply reported_ok.
Qed.

Lemma build_model_reported (want_tr : bool) :
  reported bld (snd (fst (fst (build_model X bld msa want_tr log))))
    (status_of (fst (fst (fst (build_model X bld msa want_tr log))))).
Proof.
  unfold build_model.
  destruct (arch_strategy bld).
  - destruct (p7_Fastmodelmaker X msa (symfrac bld) want_tr) as [[[h t]|c [h t]] m];
      cbn [fst snd status_of]; [apply reported_ok|].
    change (Z.pos c =? eslOK) with false. cbn [negb].
    destruct (Z.pos c =? eslENORESULT); [now apply reported_xfail|].
    destruct (Z.pos c =? eslEMEM); now apply reported_xfail.
  - destruct (p7_Handmodelmaker X msa want_tr) as [[[h t]|c [h t]] m];
      cbn [fst snd status_of]; [apply reported_ok|].
    change (Z.pos c =? eslOK) with false. cbn [negb].
    destruct (Z.pos c =? eslENORESULT); [now apply reported_xfail|].
    destruct (Z.pos c =? eslEFORMAT); [now apply reported_xfail|].
    destruct (Z.pos c =? eslEMEM); now apply reported_xfail.
Qed.

Lemma effective_seqnumber_reported :
  reported bld (res_bld (effective_seqnumber X bld msa hmm bg log))
    (res_status (effective_seqnumber X bld msa hmm bg log)).
Proof.
  unfold effective_seqnumber.
  destruct (effn_strategy bld); try apply reported_ok.
  - destruct (esl_msacluster_SingleLinkage X msa (eid bld)) as [s n].
    destruct (Z.eqb_spec s eslEMEM) as [->|_]; [now apply reported_xfail|].
    destruct (Z.eqb_spec s eslOK) as [->|Hs]; cbn [negb];
      [apply reported_ok | now apply reported_xfail].
  - destruct (p7_EntropyWeight X hmm bg (prior bld) _) as [s e].
    destruct (Z.eqb_spec s eslEMEM) as [->|_]; [now apply reported_xfail|].
    destruct (Z.eqb_spec s eslOK) as [->|Hs]; cbn [negb];
      [apply reported_ok | now apply reported_xfail].
Qed.

Lemma parameterize_reported :
  reported bld (res_bld (parameterize X bld hmm log))
    (res_status (parameterize X bld hmm log)).
Proof.
  unfold parameterize.
  destruct (p7_ParameterEstimation X hmm (prior bld)) as [s h].
  destruct (Z.eqb_spec s eslOK) as [->|Hs]; cbn [negb];
    [apply reported_ok | now apply reported_xfail].
Qed.

Lemma annotate_reported :
  reported bld (res_bld (annotate X bld msa hmm log))
    (res_status (annotate X bld msa hmm log)).
Proof.
  unfold annotate.
  destruct (msa_name msa) as [name|]; [|now apply reported_xfail].
  destruct (p7_hmm_SetName X hmm name) as [s0 h0].
  destruct (p7_hmm_SetAccession X h0 (msa_acc msa)) as [s1 h1].
  destruct (Z.eqb_spec s1 eslOK) as [->|H1]; cbn [negb]; [|now apply reported_xfail].
  destruct (p7_hmm_SetDescription X h1 (msa_desc msa)) as [s2 h2].
  destruct (Z.eqb_spec s2 eslOK) as [->|H2]; cbn [negb]; [|now apply reported_xfail].
  destruct (p7_hmm_SetCtime X h2) as [s3 h3].
  destruct (Z.eqb_spec s3 eslOK) as [->|H3]; cbn [negb]; [|now apply reported_xfail].
  destruct (esl_msa_Checksum X msa) as [s4 c4].
  destruct (Z.eqb_spec s4 eslOK) as [->|H4]; cbn [negb]; [|now apply reported_xfail].
  destruct (p7_hmm_SetComposition X _) as [s5 h5].
  destruct (Z.eqb_spec s5 eslOK) as [->|H5]; cbn [negb]; [|now apply reported_xfail].
  apply reported_ok.
Qed.

End StageReports.

(** X1.  Each of the five stages that has a message to give --
    [relative_weights], [build_model], [effective_seqnumber],
    [parameterize], [annotate] -- leaves the configuration exactly as it
    found it when it returns [eslOK], and when it fails changes nothing
    in it but [errbuf], which then holds a message that is not empty. *)
Theorem stages_report_in_errbuf (X : Collaborators) (bld : P7_BUILDER) (msa : ESL_MSA)
    (hmm : P7_HMM) (bg : P7_BG) (want_tr : bool) (log : Log) :
  reported bld (res_bld (relative_weights X bld msa log))
    (res_status (relative_weights X bld msa log)) /\
  reported bld (snd (fst (fst (build_model X bld msa want_tr log))))
    (status_of (fst (fst (fst (build_model X bld msa want_tr log))))) /\
  reported bld (res_bld (effective_seqnumber X bld msa hmm bg log))
    (res_status (effective_seqnumber X bld msa hmm bg log)) /\
  reported bld (res_bld (parameterize X bld hmm log))
    (res_status (parameterize X bld hmm log)) /\
  reported bld (res_bld (annotate X bld msa hmm log))
    (res_status (annotate X bld msa hmm log)).
Proof.
  split; [apply relative_weights_reported|].
  split; [apply build_model_reported|].
  split; [apply effective_seqnumber_reported|].
  split; [apply parameterize_reported | apply annotate_reported].
Qed.

Lemma stages_report_in_errbuf_witness :
  res_bld (annotate nominal (config p7_WGT_GSC 1000 p7_EFFN_SET 2 6 42)
             (sample_msa 4) (sample_hmm 3 4) []) = config p7_WGT_GSC 1000 p7_EFFN_SET 2 6 42
  /\
  exists f a, f <> "" /\
    res_bld (effective_seqnumber (world 0 5 None 0 None None true None)
               (config p7_WGT_GSC 1000 p7_EFFN_CLUST (-1) 6 42)
               (sample_msa 4) (sample_hmm 3 4) sample_bg []) =
    xfail (config p7_WGT_GSC 1000 p7_EFFN_CLUST (-1) 6 42) f a.
Proof.
  split.
  - apply (stages_report_in_errbuf nominal (config p7_WGT_GSC 1000 p7_EFFN_SET 2 6 42)
             (sample_msa 4) (sample_hmm 3 4) sample_bg false []).
    reflexivity.
  - apply (stages_report_in_errbuf (world 0 5 None 0 None None true None)
             (config p7_WGT_GSC 1000 p7_EFFN_CLUST (-1) 6 42)
             (sample_msa 4) (sample_hmm 3 4) sample_bg false []).
    discriminate.
Defined.

(** ** Architecture: the translation of failures *)

(** X2.  [build_model] returns the status of the model maker of the
    configured architecture, and hands on traces only when asked to.
    A maker that finds no consensus columns gets the message of its
    architecture; a missing reference line ([eslEFORMAT]) has a message
    of its own under "hand" only -- under "fast" the same code is
    reported as an internal error. *)
Theorem build_model_translates (X : Collaborators) (bld : P7_BUILDER) (msa : ESL_MSA)
    (want_tr : bool) (log : Log) :
  let out := build_model X bld msa want_tr log in
  (arch_strategy bld = p7_ARCH_FAST ->
     built_status out = status_of (fst (p7_Fastmodelmaker X msa (symfrac bld) want_tr)) /\
     (built_status out = eslENORESULT ->
        exists name,
          built_errbuf out =
            Msg "Alignment %s has no consensus columns w/ > %d%% residues - can't build a model.\n"
                [ArgStr name; ArgInt (int_of_double (100 * symfrac bld))]) /\
     (built_status out = eslEFORMAT ->
        built_errbuf out = Msg "internal error in model construction.\n" []))
  /\
  (arch_strategy bld = p7_ARCH_HAND ->
     built_status out = status_of (fst (p7_Handmodelmaker X msa want_tr)) /\
     (built_status out = eslENORESULT ->
        exists name,
          built_errbuf out =
            Msg "Alignment %s has no annotated consensus columns - can't build a model.\n"
                [ArgStr name]) /\
     (built_status out = eslEFORMAT ->
        exists name,
          built_errbuf out =
            Msg "Alignment %s has no reference annotation line\n" [ArgStr name]))
  /\
  (want_tr = false -> built_traces out = None).
Proof.
  intros out. subst out. unfold build_model, built_status, built_errbuf, built_traces.
  split; [|split].
  - intros ->.
    destruct (p7_Fastmodelmaker X msa (symfrac bld) want_tr) as [[[h t]|c [h t]] m];
      cbn [fst snd status_of].
    + split; [reflexivity|]. split; discriminate.
    + split; [reflexivity|]. split; intros E; rewrite E; cbn; [eexists|]; reflexivity.
  - intros ->.
    destruct (p7_Handmodelmaker X msa want_tr) as [[[h t]|c [h t]] m];
      cbn [fst snd status_of].
    + split; [reflexivity|]. split; discriminate.
    + split; [reflexivity|]. split; intros E; rewrite E; cbn; eexists; reflexivity.
  - intros ->.
    destruct (arch_strategy bld).
    + now destruct (p7_Fastmodelmaker X msa (symfrac bld) false) as [[[h t]|c [h t]] m].
    + now destruct (p7_Handmodelmaker X msa false) as [[[h t]|c [h t]] m].
Qed.

Lemma build_model_translates_witness :
  built_status (build_model (world 0 0 (Some 7%positive) 0 None None true None)
                  (config p7_WGT_GSC 1000 p7_EFFN_ENTROPY (-1) 6 0) (sample_msa 4) false [])
    = eslEFORMAT /\
  built_errbuf (build_model (world 0 0 (Some 7%positive) 0 None None true None)
                  (config p7_WGT_GSC 1000 p7_EFFN_ENTROPY (-1) 6 0) (sample_msa 4) false [])
    = Msg "internal error in model construction.\n" [] /\
  built_traces (build_model nominal
                  (config p7_WGT_GSC 1000 p7_EFFN_ENTROPY (-1) 6 0) (sample_msa 4) false [])
    = None.
Proof.
  destruct (build_model_translates (world 0 0 (Some 7%positive) 0 None None true None)
              (config p7_WGT_GSC 1000 p7_EFFN_ENTROPY (-1) 6 0) (sample_msa 4) false [])
    as (Hfast & _ & _).
  destruct (Hfast eq_refl) as (Hs & _ & Hfmt).
  split; [exact Hs|]. split; [apply Hfmt; exact Hs|].
  apply (build_model_translates nominal
           (config p7_WGT_GSC 1000 p7_EFFN_ENTROPY (-1) 6 0) (sample_msa 4) false []).
  reflexivity.
Defined.

(** ** Effective sequence number: failures and the entropy target *)

(** X3.  When [effective_seqnumber] fails, it returns the status of
    the clustering or entropy-weighting routine and the model exactly
    as it came in: [eff_nseq] is not assigned and [p7_hmm_Scale] is
    not called.  Under the entropy strategy a target [re_target >= 0]
    is handed to the routine as it is, and the model length is
    consulted only for a negative one. *)
Theorem effective_seqnumber_failure (X : Collaborators) (bld : P7_BUILDER)
    (msa : ESL_MSA) (hmm : P7_HMM) (bg : P7_BG) (log : Log) :
  let out := effective_seqnumber X bld msa hmm bg log in
  (res_status out <> eslOK ->
     res_obj out = hmm /\
     ((effn_strategy bld = p7_EFFN_CLUST /\
       res_status out = fst (esl_msacluster_SingleLinkage X msa (eid bld)) /\
       res_log out = log ++ [Ev_msacluster_SingleLinkage (eid bld)])
      \/
      (effn_strategy bld = p7_EFFN_ENTROPY /\
       exists etarget,
         res_status out = fst (p7_EntropyWeight X hmm bg (prior bld) etarget) /\
         res_log out = log ++ [Ev_EntropyWeight etarget])))
  /\
  (effn_strategy bld = p7_EFFN_ENTROPY ->
     ((0 <= re_target bld)%R ->
        exists rest, res_log out = log ++ Ev_EntropyWeight (Finite (re_target bld)) :: rest) /\
     ((re_target bld < 0)%R ->
        exists rest,
          res_log out =
            log ++ Ev_EntropyWeight (default_target_relent X bld (hmm_M hmm)) :: rest)).
Proof.
  intros out. subst out. unfold effective_seqnumber. split.
  - destruct (effn_strategy bld).
    + intros H. now elim H.
    + intros H. now elim H.
    + destruct (esl_msacluster_SingleLinkage X msa (eid bld)) as [s n].
      destruct (Z.eqb_spec s eslEMEM) as [->|_].
      * intros _. split; [reflexivity|]. left. repeat split.
      * destruct (Z.eqb_spec s eslOK) as [->|Hs]; cbn [negb].
        -- intros H. now elim H.
        -- intros _. split; [reflexivity|]. left. repeat split.
    + set (etarget := if Rlt_dec (re_target bld) 0 then _ else _).
      destruct (p7_EntropyWeight X hmm bg (prior bld) etarget) as [s e] eqn:E.
      destruct (Z.eqb_spec s eslEMEM) as [->|_].
      * intros _. split; [reflexivity|]. right. split; [reflexivity|].
        exists etarget. rewrite E. split; reflexivity.
      * destruct (Z.eqb_spec s eslOK) as [->|Hs]; cbn [negb].
        -- intros H. now elim H.
        -- intros _. split; [reflexivity|]. right. split; [reflexivity|].
           exists etarget. rewrite E. split; reflexivity.
  - intros ->. split; intros Hre.
    + destruct (Rlt_dec (re_target bld) 0) as [Hlt|_]; [lra|].
      destruct (p7_EntropyWeight X hmm bg (prior bld) _) as [s e].
      destruct (s =? eslEMEM); [now exists []|].
      destruct (s =? eslOK); cbn [negb]; [|now exists []].
      unfold scale_to_effective, res_log. cbn [snd].
      rewrite <- app_assoc. eexists. reflexivity.
    + destruct (Rlt_dec (re_target bld) 0) as [_|Hge]; [|lra].
      destruct (p7_EntropyWeight X hmm bg (prior bld) _) as [s e].
      destruct (s =? eslEMEM); [now exists []|].
      destruct (s =? eslOK); cbn [negb]; [|now exists []].
      unfold scale_to_effective, res_log. cbn [snd].
      rewrite <- app_assoc. eexists. reflexivity.
Qed.

Lemma effective_seqnumber_failure_witness :
  res_obj (effective_seqnumber (world 0 5 None 0 None None true None)
             (config p7_WGT_GSC 1000 p7_EFFN_CLUST (-1) 6 42)
             (sample_msa 4) (sample_hmm 3 4) sample_bg []) = sample_hmm 3 4
  /\
  exists rest,
    res_log (effective_seqnumber nominal
               (config p7_WGT_GSC 1000 p7_EFFN_ENTROPY (-1) 6 42)
               (sample_msa 4) (sample_hmm 3 4) sample_bg []) =
    [] ++ Ev_EntropyWeight
            (default_target_relent nominal (config p7_WGT_GSC 1000 p7_EFFN_ENTROPY (-1) 6 42) 3)
          :: rest.
Proof.
  split.
  - apply (effective_seqnumber_failure (world 0 5 None 0 None None true None)
             (config p7_WGT_GSC 1000 p7_EFFN_CLUST (-1) 6 42)
             (sample_msa 4) (sample_hmm 3 4) sample_bg []).
    discriminate.
  - apply (effective_seqnumber_failure nominal
             (config p7_WGT_GSC 1000 p7_EFFN_ENTROPY (-1) 6 42)
             (sample_msa 4) (sample_hmm 3 4) sample_bg []);
      [reflexivity | cbn; lra].
Defined.

(** ** Annotation: flags and score cut-offs *)

Lemma has_flags_lor_r (flags f : Z) : has_flags (Z.lor flags f) f.
Proof.
  unfold has_flags. apply Z.bits_inj'. intros n _.
  rewrite Z.land_spec, Z.lor_spec.
  now destruct (Z.testbit flags n), (Z.testbit f n).
Qed.

Lemma has_flags_lor_l (flags f g : Z) : has_flags flags f -> has_flags (Z.lor flags g) f.
Proof.
  unfold has_flags. intros H. apply Z.bits_inj'. intros n _.
  apply (f_equal (fun z => Z.testbit z n)) in H.
  rewrite Z.land_spec in H. rewrite Z.land_spec, Z.lor_spec.
  destruct (Z.testbit flags n), (Z.testbit f n), (Z.testbit g n); cbn in *; congruence.
Qed.

Ltac flags_set :=
  repeat first [ apply has_flags_lor_r | apply has_flags_lor_l ].

(** X4.  When [annotate] returns [eslOK] the alignment had a name, the
    model carries the checksum and composition flags, and for each of
    the three families of score cut-offs (GA, TC, NC) of which the
    alignment has both values set, the model has both values copied
    and the family's flag set. *)
Theorem annotate_flags_and_cutoffs (X : Collaborators) (bld : P7_BUILDER) (msa : ESL_MSA)
    (hmm : P7_HMM) (log : Log) :
  let out := annotate X bld msa hmm log in
  res_status out = eslOK ->
  msa_name msa <> None /\
  has_flags (hmm_flags (res_obj out)) (p7H_CHKSUM X) /\
  has_flags (hmm_flags (res_obj out)) (p7H_COMPO X) /\
  forall c1 c2 f, In (c1, c2, f) (cutoff_pairs X) ->
    msa_cutset msa c1 && msa_cutset msa c2 = true ->
    hmm_cutoff (res_obj out) c1 = msa_cutoff msa c1 /\
    hmm_cutoff (res_obj out) c2 = msa_cutoff msa c2 /\
    has_flags (hmm_flags (res_obj out)) f.
Proof.
  intros out. subst out. unfold annotate.
  destruct (msa_name msa) as [name|]; [|discriminate].
  destruct (p7_hmm_SetName X hmm name) as [s0 h0].
  destruct (p7_hmm_SetAccession X h0 (msa_acc msa)) as [s1 h1].
  destruct (Z.eqb_spec s1 eslOK) as [->|H1]; cbn [negb]; [|intros E; elim (H1 E)].
  destruct (p7_hmm_SetDescription X h1 (msa_desc msa)) as [s2 h2].
  destruct (Z.eqb_spec s2 eslOK) as [->|H2]; cbn [negb]; [|intros E; elim (H2 E)].
  destruct (p7_hmm_SetCtime X h2) as [s3 h3].
  destruct (Z.eqb_spec s3 eslOK) as [->|H3]; cbn [negb]; [|intros E; elim (H3 E)].
  destruct (esl_msa_Checksum X msa) as [s4 c4].
  destruct (Z.eqb_spec s4 eslOK) as [->|H4]; cbn [negb]; [|intros E; elim (H4 E)].
  destruct (p7_hmm_SetComposition X _) as [s5 h5].
  destruct (Z.eqb_spec s5 eslOK) as [->|H5]; cbn [negb]; [|intros E; elim (H5 E)].
  intros _. unfold res_obj. cbn [fst snd].
  split; [discriminate|].
  unfold copy_cutoffs.
  destruct (msa_cutset msa GA1) eqn:G1, (msa_cutset msa GA2) eqn:G2,
           (msa_cutset msa TC1) eqn:T1, (msa_cutset msa TC2) eqn:T2,
           (msa_cutset msa NC1) eqn:N1, (msa_cutset msa NC2) eqn:N2;
    cbn [andb or_flags set_cutoff hmm_flags hmm_cutoff cutoff_slot_eqb];
    (split; [flags_set|]); (split; [flags_set|]);
    intros c1 c2 f [E|[E|[E|[]]]] Hset; injection E as <- <- <-;
    rewrite ?G1, ?G2, ?T1, ?T2, ?N1, ?N2 in Hset; try discriminate Hset;
    cbn [cutoff_slot_eqb]; (split; [reflexivity|]); (split; [reflexivity|]); flags_set.
Qed.

Lemma annotate_flags_and_cutoffs_witness :
  let out := annotate nominal (config p7_WGT_GSC 1000 p7_EFFN_SET 2 6 42)
               (annotated_msa 4) (sample_hmm 3 4) [] in
  hmm_cutoff (res_obj out) GA1 = 25%R /\
  hmm_cutoff (res_obj out) GA2 = 20%R /\
  has_flags (hmm_flags (res_obj out)) 1024 /\
  has_flags (hmm_flags (res_obj out)) 32768.
Proof.
  intros out.
  destruct (annotate_flags_and_cutoffs nominal (config p7_WGT_GSC 1000 p7_EFFN_SET 2 6 42)
              (annotated_msa 4) (sample_hmm 3 4) [] eq_refl) as (_ & Hck & _ & Hpairs).
  destruct (Hpairs GA1 GA2 1024) as (H1 & H2 & Hf); [left; reflexivity | reflexivity |].
  repeat split; assumption.
Defined.

(** The lone trusted cut-off of [annotated_msa] is not copied, and its
    flag stays clear. *)
Example lone_cutoff_is_ignored :
  let out := annotate nominal (config p7_WGT_GSC 1000 p7_EFFN_SET 2 6 42)
               (annotated_msa 4) (sample_hmm 3 4) [] in
  hmm_cutoff (res_obj out) TC1 = 0%R /\ hmm_flags (res_obj out) = 32768 + 16384 + 1024.
Proof.
  split; reflexivity.
Qed.

(** ** Calibration: what it touches *)

Lemma set_errbuf_same (bld : P7_BUILDER) : set_errbuf bld (errbuf bld) = bld.
Proof. now destruct bld. Qed.

Lemma calibrate_touches (X : Collaborators) (bld : P7_BUILDER) (hmm : P7_HMM) (bg : P7_BG)
    (opt_gm : cell P7_PROFILE) (opt_om : cell P7_OPROFILE) (log : Log) :
  let out := calibrate X bld hmm bg opt_gm opt_om log in
  (exists g m, calibrate_bld out = set_rng (set_errbuf bld m) g /\
     (calibrate_status out = eslOK -> m = errbuf bld)) /\
  snd out = log ++ [Ev_Calibrate (do_reseeding bld)] /\
  requested (snd (fst (fst out))) = requested opt_gm /\
  requested (snd (fst out)) = requested opt_om.
Proof.
  intros out. subst out. unfold calibrate, p7_Calibrate.
  destruct (calibration_simulations X hmm _ _ bg _ _) as [[[[[s h] g] gm] om] msg].
  cbv beta iota zeta.
  destruct (Z.eqb_spec s eslOK) as [->|Hs]; cbn [negb calibrate_bld calibrate_status fst snd].
  - split; [|split; [reflexivity | split; [now destruct opt_gm | now destruct opt_om]]].
    exists g, (errbuf bld). split; [|reflexivity].
    rewrite set_errbuf_same. now destruct msg.
  - split; [|split; [reflexivity | split; [now destruct opt_gm | now destruct opt_om]]].
    destruct msg as [m|].
    + exists g, m. split; [reflexivity | intros H; now elim Hs].
    + exists g, (errbuf bld). rewrite set_errbuf_same.
      split; [reflexivity | reflexivity].
Qed.

Lemma calibrate_clears (X : Collaborators) (bld : P7_BUILDER) (hmm : P7_HMM) (bg : P7_BG)
    (opt_gm gm : cell P7_PROFILE) (opt_om om : cell P7_OPROFILE) (log : Log) :
  requested gm = requested opt_gm -> requested om = requested opt_om ->
  calibrate X bld hmm bg gm om log = calibrate X bld hmm bg opt_gm opt_om log.
Proof.
  intros Hg Ho. unfold calibrate.
  assert (Eg : store gm None = store opt_gm None)
    by (destruct gm, opt_gm; (reflexivity || discriminate)).
  assert (Eo : store om None = store opt_om None)
    by (destruct om, opt_om; (reflexivity || discriminate)).
  now rewrite Eg, Eo.
Qed.

(** X5.  [calibrate] sets the caller's profile variables to [NULL]
    before it calibrates, so what they held on entry has no influence
    on anything it returns: a run on variables with any other contents
    is the same run.  A variable that was not passed stays absent and
    one that was passed stays passed, and exactly one calibration is
    made, reseeding as the configuration says. *)
Theorem calibrate_frame (X : Collaborators) (bld : P7_BUILDER) (hmm : P7_HMM) (bg : P7_BG)
    (opt_gm : cell P7_PROFILE) (opt_om : cell P7_OPROFILE) (log : Log) :
  let out := calibrate X bld hmm bg opt_gm opt_om log in
  (forall gm om,
     requested gm = requested opt_gm -> requested om = requested opt_om ->
     calibrate X bld hmm bg gm om log = out) /\
  requested (snd (fst (fst out))) = requested opt_gm /\
  requested (snd (fst out)) = requested opt_om /\
  snd out = log ++ [Ev_Calibrate (do_reseeding bld)].
Proof.
  intros out.
  destruct (calibrate_touches X bld hmm bg opt_gm opt_om log) as (_ & Hl & Hg & Ho).
  split; [|repeat split; assumption].
  intros gm om Hgm Hom. now apply calibrate_clears.
Qed.

Lemma calibrate_frame_witness :
  calibrate nominal (config p7_WGT_GSC 1000 p7_EFFN_SET 2 6 42) (sample_hmm 3 4) sample_bg
    (Some (Some (profile_id 9))) None [] =
  calibrate nominal (config p7_WGT_GSC 1000 p7_EFFN_SET 2 6 42) (sample_hmm 3 4) sample_bg
    (Some None) None []
  /\
  snd (fst (fst (calibrate nominal (config p7_WGT_GSC 1000 p7_EFFN_SET 2 6 42) (sample_hmm 3 4)
                   sample_bg (Some None) None []))) = Some (Some (profile_id 1))
  /\
  requested (snd (fst (calibrate nominal (config p7_WGT_GSC 1000 p7_EFFN_SET 2 6 42)
                         (sample_hmm 3 4) sample_bg (Some None) None []))) = false.
Proof.
  destruct (calibrate_frame nominal (config p7_WGT_GSC 1000 p7_EFFN_SET 2 6 42)
              (sample_hmm 3 4) sample_bg (Some None) None []) as (Hclear & _ & Hom & _).
  split; [|split].
  - apply (Hclear (Some (Some (profile_id 9))) None); reflexivity.
  - reflexivity.
  - exact Hom.
Defined.

(** ** The alignment pipeline: the configuration and the outputs *)

Lemma set_rng_same (bld : P7_BUILDER) : set_rng bld (bld_r bld) = bld.
Proof. now destruct bld. Qed.

Lemma set_rng_twice (bld : P7_BUILDER) (g g' : ESL_RANDOMNESS) :
  set_rng (set_rng bld g) g' = set_rng bld g'.
Proof. reflexivity. Qed.

Section PipelineStates.

Variable X : Collaborators.
Variables (bld : P7_BUILDER) (msa : ESL_MSA) (bg : P7_BG).
Variables (opt_hmm : cell P7_HMM) (opt_trarr : cell (list P7_TRACE)).
Variables (opt_gm : cell P7_PROFILE) (opt_om : cell P7_OPROFILE).
Variables (opt_postmsa : cell ESL_MSA) (log : Log).

Lemma after_weights_bld b m l :
  after_weights X bld msa log b m l -> b = bld.
Proof.
  unfold after_weights. intros E.
  destruct (relative_weights_reported X bld msa log) as [Hok _].
  rewrite E in Hok. now apply Hok.
Qed.

Lemma after_build_bld b m h t l :
  after_build X bld msa opt_trarr opt_postmsa log b m h t l -> b = bld.
Proof.
  intros (b0 & m0 & l0 & A & E).
  apply after_weights_bld in A. subst b0.
  destruct (build_model_reported X bld m0 l0 (requested opt_trarr || requested opt_postmsa))
    as [Hok _].
  rewrite E in Hok. now apply Hok.
Qed.

Lemma after_build_traces b m h t l :
  after_build X bld msa opt_trarr opt_postmsa log b m h t l ->
  (t = None <-> requested opt_trarr || requested opt_postmsa = false).
Proof.
  intros (b0 & m0 & l0 & _ & E). unfold build_model in E.
  destruct (requested opt_trarr || requested opt_postmsa);
    destruct (arch_strategy b0);
    [ destruct (p7_Fastmodelmaker X m0 (symfrac b0) true) as [[[h' t']|c [h' t']] m']
    | destruct (p7_Handmodelmaker X m0 true) as [[[h' t']|c [h' t']] m']
    | destruct (p7_Fastmodelmaker X m0 (symfrac b0) false) as [[[h' t']|c [h' t']] m']
    | destruct (p7_Handmodelmaker X m0 false) as [[[h' t']|c [h' t']] m'] ];
    try discriminate E; injection E as _ <- _ _ _; split; congruence.
Qed.

Lemma after_effective_bld b m h t l :
  after_effective X bld msa bg opt_trarr opt_postmsa log b m h t l ->
  b = bld /\ (t = None <-> requested opt_trarr || requested opt_postmsa = false).
Proof.
  intros (b0 & h0 & l0 & A & E).
  pose proof (after_build_traces _ _ _ _ _ A) as Ht.
  apply after_build_bld in A. subst b0.
  destruct (effective_seqnumber_reported X bld m h0 bg l0) as [Hok _].
  rewrite E in Hok. split; [now apply Hok | exact Ht].
Qed.

Lemma after_parameterize_bld b m h t l :
  after_parameterize X bld msa bg opt_trarr opt_postmsa log b m h t l ->
  b = bld /\ (t = None <-> requested opt_trarr || requested opt_postmsa = false).
Proof.
  intros (b0 & h0 & l0 & A & E).
  apply after_effective_bld in A as [-> Ht].
  destruct (parameterize_reported X bld h0 l0) as [Hok _].
  rewrite E in Hok. split; [now apply Hok | exact Ht].
Qed.

Lemma after_annotate_bld b m h t l :
  after_annotate X bld msa bg opt_trarr opt_postmsa log b m h t l ->
  b = bld /\ (t = None <-> requested opt_trarr || requested opt_postmsa = false).
Proof.
  intros (b0 & h0 & l0 & A & E).
  apply after_parameterize_bld in A as [-> Ht].
  destruct (annotate_reported X bld m h0 l0) as [Hok _].
  rewrite E in Hok. split; [now apply Hok | exact Ht].
Qed.

Lemma after_calibrate_bld b m h t gm om l :
  after_calibrate X bld msa bg opt_trarr opt_gm opt_om opt_postmsa log b m h t gm om l ->
  (exists g, b = set_rng bld g) /\
  (t = None <-> requested opt_trarr || requested opt_postmsa = false) /\
  requested gm = requested opt_gm /\ requested om = requested opt_om.
Proof.
  intros (b0 & h0 & l0 & A & E).
  apply after_annotate_bld in A as [-> Ht].
  pose proof (calibrate_touches X bld h0 bg opt_gm opt_om l0)
    as ((g & msg & Hb & Hmsg) & _ & Hg & Ho).
  rewrite E in Hb, Hmsg, Hg, Ho. cbn in Hb, Hmsg, Hg, Ho.
  rewrite (Hmsg eq_refl), set_errbuf_same in Hb.
  split; [now exists g|]. split; [exact Ht|]. now split.
Qed.

(** The shape of a run that returns [eslOK]. *)
Lemma success_shape :
  run_status (p7_Builder X bld msa bg opt_hmm opt_trarr opt_gm opt_om opt_postmsa log)
    = eslOK ->
  exists b m h t gm om l0 pm l,
    after_calibrate X bld msa bg opt_trarr opt_gm opt_om opt_postmsa log b m h t gm om l0 /\
    make_post_msa X b m h t opt_postmsa l0 = (eslOK, pm, l) /\
    p7_Builder X bld msa bg opt_hmm opt_trarr opt_gm opt_om opt_postmsa log =
      {| run_status := eslOK; run_bld := b; run_msa := m;
         run_opt_hmm := store opt_hmm (Some h);
         run_opt_trarr := store opt_trarr t;
         run_opt_gm := gm; run_opt_om := om; run_opt_postmsa := pm;
         run_log := l
           ++ (if requested opt_hmm then [] else [Ev_hmm_Destroy (Some h)])
           ++ (if requested opt_trarr then [] else [Ev_trace_DestroyArray t (msa_nseq m)]) |}.
Proof.
  unfold p7_Builder.
  destruct (relative_weights X bld msa log) as [[[s1 b1] m1] l1] eqn:E1.
  destruct (Z.eqb_spec s1 eslOK) as [->|H1]; cbn [negb]; [|intros E; elim (H1 E)].
  destruct (build_model X b1 m1 _ l1) as [[[[[h2 t2]|c [h2 t2]] b2] m2] l2] eqn:E2;
    [|discriminate].
  assert (A2 : after_build X bld msa opt_trarr opt_postmsa log b2 m2 h2 t2 l2)
    by (do 3 eexists; split; [exact E1 | exact E2]).
  destruct (effective_seqnumber X b2 m2 h2 bg l2) as [[[s3 b3] h3] l3] eqn:E3.
  destruct (Z.eqb_spec s3 eslOK) as [->|H3]; cbn [negb]; [|intros E; elim (H3 E)].
  assert (A3 : after_effective X bld msa bg opt_trarr opt_postmsa log b3 m2 h3 t2 l3)
    by (do 3 eexists; split; [exact A2 | exact E3]).
  destruct (parameterize X b3 h3 l3) as [[[s4 b4] h4] l4] eqn:E4.
  destruct (Z.eqb_spec s4 eslOK) as [->|H4]; cbn [negb]; [|intros E; elim (H4 E)].
  assert (A4 : after_parameterize X bld msa bg opt_trarr opt_postmsa log b4 m2 h4 t2 l4)
    by (do 3 eexists; split; [exact A3 | exact E4]).
  destruct (annotate X b4 m2 h4 l4) as [[[s5 b5] h5] l5] eqn:E5.
  destruct (Z.eqb_spec s5 eslOK) as [->|H5]; cbn [negb]; [|intros E; elim (H5 E)].
  assert (A5 : after_annotate X bld msa bg opt_trarr opt_postmsa log b5 m2 h5 t2 l5)
    by (do 3 eexists; split; [exact A4 | exact E5]).
  destruct (calibrate X b5 h5 bg opt_gm opt_om l5) as [[[[[s6 b6] h6] gm6] om6] l6] eqn:E6.
  destruct (Z.eqb_spec s6 eslOK) as [->|H6]; cbn [negb]; [|intros E; elim (H6 E)].
  assert (A6 : after_calibrate X bld msa bg opt_trarr opt_gm opt_om opt_postmsa log
                 b6 m2 h6 t2 gm6 om6 l6)
    by (do 3 eexists; split; [exact A5 | exact E6]).
  destruct (make_post_msa X b6 m2 h6 t2 opt_postmsa l6) as [[s7 pm7] l7] eqn:E7.
  destruct (Z.eqb_spec s7 eslOK) as [->|H7]; cbn [negb]; [|intros E; elim (H7 E)].
  intros _. exists b6, m2, h6, t2, gm6, om6, l6, pm7, l7.
  split; [exact A6|]. split; [exact E7 | reflexivity].
Qed.

Lemma make_post_msa_success b m h t l0 pm l :
  make_post_msa X b m h t opt_postmsa l0 = (eslOK, pm, l) ->
  (opt_postmsa = None -> pm = None /\ l = l0) /\
  (requested opt_postmsa = true ->
     exists post, pm = Some (Some post) /\ l = l0 ++ [Ev_tracealign_MSA]).
Proof.
  unfold make_post_msa. destruct opt_postmsa as [old|].
  - destruct (p7_tracealign_MSA X m t (hmm_M h) (p7_DEFAULT X)) as [post|c left];
      intros E; [|discriminate].
    injection E as <- <-. split; [discriminate|]. intros _. now exists post.
  - intros E. injection E as <- <-. split; [now split | discriminate].
Qed.

End PipelineStates.

Lemma continues_refl (log : Log) : continues log log.
Proof. exists []. now rewrite app_nil_r. Qed.

Lemma continues_step (log : Log) (evs : Log) :
  forallb stage_event evs = true -> continues log (log ++ evs).
Proof. intros H. now exists evs. Qed.

Lemma continues_trans (l0 l1 l2 : Log) :
  continues l0 l1 -> continues l1 l2 -> continues l0 l2.
Proof.
  intros (e1 & -> & H1) (e2 & -> & H2). exists (e1 ++ e2).
  split; [now rewrite app_assoc | rewrite forallb_app, H1, H2; reflexivity].
Qed.

Section StageLogs.

Variable X : Collaborators.
Variables (bld : P7_BUILDER) (msa : ESL_MSA) (hmm : P7_HMM) (bg : P7_BG) (log : Log).

Lemma relative_weights_continues :
  continues log (res_log (relative_weights X bld msa log)).
Proof.
  unfold relative_weights.
  destruct (wgt_strategy bld);
    try destruct (negb (pbswitch bld =? -1) && (msa_nseq msa >=? pbswitch bld));
    try match goal with
        | |- context [esl_msaweight_PB X msa] => destruct (esl_msaweight_PB X msa) as [s m]
        | |- context [esl_msaweight_GSC X msa] => destruct (esl_msaweight_GSC X msa) as [s m]
        | |- context [esl_msaweight_BLOSUM X msa ?w] =>
            destruct (esl_msaweight_BLOSUM X msa w) as [s m]
        end;
    rewrite ?relative_weights_after; cbn;
    first [ apply continues_refl | now apply continues_step ].
Qed.

Lemma build_model_continues (want_tr : bool) :
  continues log (snd (build_model X bld msa want_tr log)).
Proof.
  unfold build_model. destruct (arch_strategy bld).
  - destruct (p7_Fastmodelmaker X msa (symfrac bld) want_tr) as [[[h t]|c [h t]] m];
      now apply continues_step.
  - destruct (p7_Handmodelmaker X msa want_tr) as [[[h t]|c [h t]] m];
      now apply continues_step.
Qed.

Lemma effective_seqnumber_continues :
  continues log (res_log (effective_seqnumber X bld msa hmm bg log)).
Proof.
  unfold effective_seqnumber, scale_to_effective, res_log.
  destruct (effn_strategy bld); cbn [snd]; try now apply continues_step.
  - destruct (esl_msacluster_SingleLinkage X msa (eid bld)) as [s n].
    destruct (s =? eslEMEM); [now apply continues_step|].
    destruct (s =? eslOK); cbn [negb snd]; [|now apply continues_step].
    rewrite <- app_assoc. now apply continues_step.
  - destruct (p7_EntropyWeight X hmm bg (prior bld) _) as [s e].
    destruct (s =? eslEMEM); [now apply continues_step|].
    destruct (s =? eslOK); cbn [negb snd]; [|now apply continues_step].
    rewrite <- app_assoc. now apply continues_step.
Qed.

Lemma parameterize_continues :
  continues log (res_log (parameterize X bld hmm log)).
Proof.
  unfold parameterize, res_log.
  destruct (p7_ParameterEstimation X hmm (prior bld)) as [s h].
  destruct (negb (s =? eslOK)); now apply continues_step.
Qed.

Lemma annotate_continues :
  continues log (res_log (annotate X bld msa hmm log)).
Proof.
  unfold annotate, res_log.
  destruct (msa_name msa) as [name|]; [|apply continues_refl].
  destruct (p7_hmm_SetName X hmm name) as [s0 h0].
  destruct (p7_hmm_SetAccession X h0 (msa_acc msa)) as [s1 h1].
  destruct (negb (s1 =? eslOK)); cbn [snd];
    [rewrite <- !app_assoc; now apply continues_step|].
  destruct (p7_hmm_SetDescription X h1 (msa_desc msa)) as [s2 h2].
  destruct (negb (s2 =? eslOK)); cbn [snd];
    [rewrite <- !app_assoc; now apply continues_step|].
  destruct (p7_hmm_SetCtime X h2) as [s3 h3].
  destruct (negb (s3 =? eslOK)); cbn [snd];
    [rewrite <- !app_assoc; now apply continues_step|].
  destruct (esl_msa_Checksum X msa) as [s4 c4].
  destruct (negb (s4 =? eslOK)); cbn [snd];
    [rewrite <- !app_assoc; now apply continues_step|].
  destruct (p7_hmm_SetComposition X _) as [s5 h5].
  destruct (negb (s5 =? eslOK)); cbn [snd];
    rewrite <- !app_assoc; now apply continues_step.
Qed.

End StageLogs.

Section PipelineLogs.

Variable X : Collaborators.
Variables (bld : P7_BUILDER) (msa : ESL_MSA) (bg : P7_BG).
Variables (opt_trarr : cell (list P7_TRACE)).
Variables (opt_gm : cell P7_PROFILE) (opt_om : cell P7_OPROFILE).
Variables (opt_postmsa : cell ESL_MSA) (log : Log).

Lemma after_weights_log b m l :
  after_weights X bld msa log b m l -> continues log l.
Proof.
  unfold after_weights. intros E.
  pose proof (relative_weights_continues X bld msa log) as H. now rewrite E in H.
Qed.

Lemma after_build_log b m h t l :
  after_build X bld msa opt_trarr opt_postmsa log b m h t l -> continues log l.
Proof.
  intros (b0 & m0 & l0 & A & E). apply after_weights_log in A.
  pose proof (build_model_continues X b0 m0 l0
                (requested opt_trarr || requested opt_postmsa)) as H.
  rewrite E in H. exact (continues_trans _ _ _ A H).
Qed.

Lemma after_effective_log b m h t l :
  after_effective X bld msa bg opt_trarr opt_postmsa log b m h t l -> continues log l.
Proof.
  intros (b0 & h0 & l0 & A & E). apply after_build_log in A.
  pose proof (effective_seqnumber_continues X b0 m h0 bg l0) as H.
  rewrite E in H. exact (continues_trans _ _ _ A H).
Qed.

Lemma after_parameterize_log b m h t l :
  after_parameterize X bld msa bg opt_trarr opt_postmsa log b m h t l -> continues log l.
Proof.
  intros (b0 & h0 & l0 & A & E). apply after_effective_log in A.
  pose proof (parameterize_continues X b0 h0 l0) as H.
  rewrite E in H. exact (continues_trans _ _ _ A H).
Qed.

Lemma after_annotate_log b m h t l :
  after_annotate X bld msa bg opt_trarr opt_postmsa log b m h t l -> continues log l.
Proof.
  intros (b0 & h0 & l0 & A & E). apply after_parameterize_log in A.
  pose proof (annotate_continues X b0 m h0 l0) as H.
  rewrite E in H. exact (continues_trans _ _ _ A H).
Qed.

Lemma after_calibrate_log b m h t gm om l :
  after_calibrate X bld msa bg opt_trarr opt_gm opt_om opt_postmsa log b m h t gm om l ->
  continues log l.
Proof.
  intros (b0 & h0 & l0 & A & E). apply after_annotate_log in A.
  destruct (calibrate_status_log X b0 h0 bg opt_gm opt_om l0)
    as (s' & b' & h' & gm' & om' & E' & _).
  rewrite E in E'. injection E' as _ _ _ _ _ ->.
  apply (continues_trans _ _ _ A). now apply continues_step.
Qed.

End PipelineLogs.

(** X6.  A run of [p7_Builder] that returns [eslOK] made stage calls
    only, followed by a destructor call for the model exactly when the
    caller did not ask for it and for the trace array exactly when the
    caller did not ask for it; the model and the traces are in the
    caller's variables otherwise.  Traces exist exactly when the trace
    array or the reconstructed alignment was asked for, the
    reconstructed alignment is delivered exactly when asked for, and
    the configuration is as on entry except for its generator:
    [errbuf] is not cleared. *)
Theorem p7_Builder_success (X : Collaborators) (bld : P7_BUILDER) (msa : ESL_MSA)
    (bg : P7_BG) (opt_hmm : cell P7_HMM) (opt_trarr : cell (list P7_TRACE))
    (opt_gm : cell P7_PROFILE) (opt_om : cell P7_OPROFILE)
    (opt_postmsa : cell ESL_MSA) (log : Log) :
  let run := p7_Builder X bld msa bg opt_hmm opt_trarr opt_gm opt_om opt_postmsa log in
  run_status run = eslOK ->
  exists h t evs,
    forallb stage_event evs = true /\
    run_log run =
      log ++ evs
          ++ (if requested opt_hmm then [] else [Ev_hmm_Destroy (Some h)])
          ++ (if requested opt_trarr then []
              else [Ev_trace_DestroyArray t (msa_nseq (run_msa run))]) /\
    run_opt_hmm run = store opt_hmm (Some h) /\
    run_opt_trarr run = store opt_trarr t /\
    (t = None <-> requested opt_trarr || requested opt_postmsa = false) /\
    (opt_postmsa = None -> run_opt_postmsa run = None) /\
    (requested opt_postmsa = true -> exists post, run_opt_postmsa run = Some (Some post)) /\
    requested (run_opt_gm run) = requested opt_gm /\
    requested (run_opt_om run) = requested opt_om /\
    (exists g, run_bld run = set_rng bld g) /\
    errbuf (run_bld run) = errbuf bld.
Proof.
  intros run Hok. subst run.
  destruct (success_shape X bld msa bg opt_hmm opt_trarr opt_gm opt_om opt_postmsa log Hok)
    as (b & m & h & t & gm & om & l0 & pm & l & A & Epost & ->).
  cbn [run_log run_msa run_opt_hmm run_opt_trarr run_opt_postmsa run_opt_gm run_opt_om
       run_bld].
  destruct (after_calibrate_bld _ _ _ _ _ _ _ _ _ _ _ _ _ _ _ _ A)
    as ((g & ->) & Ht & Hgm & Hom).
  destruct (after_calibrate_log _ _ _ _ _ _ _ _ _ _ _ _ _ _ _ _ A) as (evs0 & -> & Hev0).
  destruct (make_post_msa_success X opt_postmsa _ _ _ _ _ _ _ Epost) as [Hnone Hsome].
  assert (Hl : exists evs, l = log ++ evs /\ forallb stage_event evs = true).
  { destruct opt_postmsa as [old|].
    - destruct (Hsome eq_refl) as (post & _ & ->).
      exists (evs0 ++ [Ev_tracealign_MSA]). split; [now rewrite app_assoc|].
      rewrite forallb_app, Hev0. reflexivity.
    - destruct (Hnone eq_refl) as [_ ->]. now exists evs0. }
  destruct Hl as (evs & -> & Hevs).
  exists h, t, evs.
  split; [exact Hevs|]. split; [now rewrite <- !app_assoc|].
  split; [reflexivity|]. split; [reflexivity|]. split; [exact Ht|].
  split; [intros E; now apply Hnone|].
  split; [intros E; destruct (Hsome E) as (post & -> & _); now exists post|].
  split; [exact Hgm|]. split; [exact Hom|].
  split; [now exists g | reflexivity].
Qed.

Lemma p7_Builder_success_witness :
  let run := p7_Builder nominal (config p7_WGT_GSC 1000 p7_EFFN_SET 2 6 42)
               (sample_msa 4) sample_bg None None None None (Some None) [] in
  exists h t evs,
    forallb stage_event evs = true /\
    run_log run = [] ++ evs ++ [Ev_hmm_Destroy (Some h)] ++ [Ev_trace_DestroyArray t 4] /\
    t <> None /\
    exists post, run_opt_postmsa run = Some (Some post).
Proof.
  intros run.
  destruct (p7_Builder_success nominal (config p7_WGT_GSC 1000 p7_EFFN_SET 2 6 42)
              (sample_msa 4) sample_bg None None None None (Some None) [] eq_refl)
    as (h & t & evs & Hev & Hlog & _ & _ & Ht & _ & Hpost & _).
  exists h, t, evs. split; [exact Hev|]. split; [exact Hlog|].
  split.
  - intros E. apply Ht in E. discriminate E.
  - apply Hpost. reflexivity.
Defined.

(** X7.  When [p7_Builder] fails in one of its first five stages, the
    configuration it leaves differs from the one it was given in
    [errbuf] only, which holds a message that is not empty.  When it
    fails in [make_post_msa], after a calibration that succeeded, it
    differs in the generator only: no message is written for the
    failure, and [errbuf] is what it was on entry. *)
Theorem p7_Builder_failure_message (X : Collaborators) (bld : P7_BUILDER) (msa : ESL_MSA)
    (bg : P7_BG) (opt_hmm : cell P7_HMM) (opt_trarr : cell (list P7_TRACE))
    (opt_gm : cell P7_PROFILE) (opt_om : cell P7_OPROFILE)
    (opt_postmsa : cell ESL_MSA) (log : Log) stage s b m h t gm om l :
  let run := p7_Builder X bld msa bg opt_hmm opt_trarr opt_gm opt_om opt_postmsa log in
  fails_at X bld msa bg opt_trarr opt_gm opt_om opt_postmsa log stage s b m h t gm om l ->
  (reporting_stage stage = true ->
     exists f a, f <> "" /\ run_bld run = xfail bld f a) /\
  (stage = Stage_make_post_msa ->
     (exists g, run_bld run = set_rng bld g) /\ errbuf (run_bld run) = errbuf bld).
Proof.
  intros run F. subst run.
  rewrite (fails_at_ERROR _ _ _ _ opt_hmm _ _ _ _ _ _ _ _ _ _ _ _ _ _ F).
  cbn [run_bld builder_ERROR].
  destruct F as
    [ s b m l E Hs
    | b0 m0 l0 c h t b m l A E
    | b0 m h0 t l0 s b h l A E Hs
    | b0 m h0 t l0 s b h l A E Hs
    | b0 m h0 t l0 s b h l A E Hs
    | b0 m h0 t l0 s b h gm om l A E Hs
    | b m h t gm om l0 s pm l A E Hs ];
    cbn [reporting_stage]; (split; intros Hr; try discriminate Hr); clear Hr.
  - destruct (relative_weights_reported X bld msa log) as [_ Hf].
    rewrite E in Hf. now apply Hf.
  - apply after_weights_bld in A. subst b0.
    destruct (build_model_reported X bld m0 l0
                (requested opt_trarr || requested opt_postmsa)) as [_ Hf].
    rewrite E in Hf. now apply Hf.
  - apply after_build_bld in A. subst b0.
    destruct (effective_seqnumber_reported X bld m h0 bg l0) as [_ Hf].
    rewrite E in Hf. now apply Hf.
  - apply after_effective_bld in A as [-> _].
    destruct (parameterize_reported X bld h0 l0) as [_ Hf].
    rewrite E in Hf. now apply Hf.
  - apply after_parameterize_bld in A as [-> _].
    destruct (annotate_reported X bld m h0 l0) as [_ Hf].
    rewrite E in Hf. now apply Hf.
  - apply after_calibrate_bld in A as ((g & ->) & _). split; [now exists g | reflexivity].
Qed.

Lemma p7_Builder_failure_message_witness :
  let failing := world eslOK eslOK None eslOK (Some 5%positive) None true None in
  let bld := set_errbuf (config p7_WGT_GSC 1000 p7_EFFN_SET 2 6 42)
               (Msg "left by an earlier call" []) in
  let run := p7_Builder failing bld (sample_msa 4) sample_bg
               (Some None) None None None (Some None) [] in
  run_status run = eslEMEM /\ errbuf (run_bld run) = Msg "left by an earlier call" [].
Proof.
  intros failing bld run.
  eassert (F : fails_at failing bld (sample_msa 4) sample_bg
                 None None None (Some None) [] Stage_make_post_msa eslEMEM _ (sample_msa 4)
                 (Some _) _ None None _).
  { eapply fail_make_post_msa.
    - do 3 eexists. split.
      + do 3 eexists. split.
        * do 3 eexists. split.
          -- do 3 eexists. split.
             ++ do 3 eexists. split.
                ** reflexivity.
                ** reflexivity.
             ++ reflexivity.
          -- reflexivity.
        * reflexivity.
      + reflexivity.
    - reflexivity.
    - discriminate. }
  split; [reflexivity|].
  destruct (p7_Builder_failure_message failing bld
              (sample_msa 4) sample_bg (Some None) None None None (Some None) []
              _ _ _ _ _ _ _ _ _ F) as [_ Hquiet].
  destruct (Hquiet eq_refl) as [_ He]. exact He.
Defined.

(** ** The score system: outcome, translation of failures, release *)

Section ScoreSystemState.

Variable X : Collaborators.
Variables (bld : P7_BUILDER) (mxfile env : option string) (log : Log).

(** Loading touches the matrix and the message only. *)
Lemma get_scoring_matrix_frame :
  match get_scoring_matrix X bld mxfile env log with
  | inl (S1, b, _) =>
      bld_S b = Some S1 /\ bld_Q b = bld_Q bld /\ errbuf b = errbuf bld /\
      popen b = popen bld /\ pextend b = pextend bld /\ abc b = abc bld
  | inr (s, b, _) =>
      s <> eslOK /\ bld_Q b = bld_Q bld /\
      popen b = popen bld /\ pextend b = pextend bld
  end.
Proof.
  unfold get_scoring_matrix.
  destruct (esl_scorematrix_Create X (abc bld)) as [S0|]; [|now repeat split].
  destruct mxfile as [file|].
  - destruct (esl_fileparser_Open X file env) as [efp|c left]; [|now repeat split].
    cbn [abc set_score_system].
    destruct (esl_sco_Read X efp (abc bld) S0) as [[S1|c S1] efp']; now repeat split.
  - destruct (esl_scorematrix_SetBLOSUM62 X S0) as [s S1].
    destruct (Z.eqb_spec s eslOK) as [->|Hs]; cbn [negb]; now repeat split.
Qed.

End ScoreSystemState.

(** X8.  [p7_builder_SetScoreSystem] returns [eslOK] only with a matrix
    in [S] that passed the symmetry test, its conditional
    probabilities in [Q] (each row of what [esl_sco_Probify] returned
    divided by its [fa]), the gap probabilities set and [errbuf] empty.
    When it fails the gap probabilities are not written.  Whatever code
    [esl_sco_Probify] fails with, the status returned is [eslEINVAL]
    with the Yu/Altschul message. *)
Theorem SetScoreSystem_outcome (X : Collaborators) (bld : P7_BUILDER)
    (mxfile env : option string) (po pe : R) (log : Log) :
  let out := p7_builder_SetScoreSystem X bld mxfile env po pe log in
  (fst (fst out) = eslOK ->
     exists S1 Q1 fa fb sl,
       bld_S (snd (fst out)) = Some S1 /\
       esl_scorematrix_IsSymmetric X S1 = true /\
       esl_sco_Probify X S1 = Done (Q1, fa, fb, sl) /\
       bld_Q (snd (fst out)) =
         Some (divide_rows Q1 fa (Z.to_nat (abc_K (abc bld))) (Z.to_nat (abc_K (abc bld)))) /\
       popen (snd (fst out)) = po /\ pextend (snd (fst out)) = pe /\
       errbuf (snd (fst out)) = empty_message)
  /\
  (fst (fst out) <> eslOK ->
     popen (snd (fst out)) = popen bld /\ pextend (snd (fst out)) = pextend bld)
  /\
  (forall S1 b l c left,
     get_scoring_matrix X (set_errbuf bld empty_message) mxfile env
       (log ++ release_score_system bld) = inl (S1, b, l) ->
     esl_scorematrix_IsSymmetric X S1 = true ->
     esl_sco_Probify X S1 = Failed c left ->
     fst (fst out) = eslEINVAL /\
     errbuf (snd (fst out)) =
       Msg "Yu/Altschul method failed to backcalculate probabilistic basis of score matrix" []).
Proof.
  intros out. subst out. unfold p7_builder_SetScoreSystem.
  change (release_score_system (set_errbuf bld empty_message))
    with (release_score_system bld).
  pose proof (get_scoring_matrix_frame X (set_errbuf bld empty_message) mxfile env
                (log ++ release_score_system bld)) as Hframe.
  destruct (get_scoring_matrix X (set_errbuf bld empty_message) mxfile env
              (log ++ release_score_system bld)) as [[[S1 b] l]|[[s b] l]].
  - destruct Hframe as (HS & HQ & He & Hpo & Hpe & Habc).
    cbn [popen pextend set_errbuf] in Hpo, Hpe. cbn [errbuf set_errbuf] in He.
    cbn [abc set_errbuf] in Habc.
    destruct (esl_scorematrix_IsSymmetric X S1) eqn:Hsym; cbn [negb].
    + destruct (esl_sco_Probify X S1) as [[[[Q1 fa] fb] sl]|c [[Q1 fa] fb]] eqn:Hp;
        cbn [fst snd].
      * split; [|split].
        -- intros _. exists S1, Q1, fa, fb, sl. cbn. rewrite HS, Habc.
           repeat split; assumption.
        -- intros H. now elim H.
        -- intros S2 b2 l2 c left E. injection E as <- <- <-. congruence.
      * split; [discriminate|]. split; [intros _; cbn; now split|].
        intros S2 b2 l2 c2 left E _ _. now split.
    + cbn [fst snd]. split; [discriminate|]. split; [intros _; cbn; now split|].
      intros S2 b2 l2 c left E Hs2. injection E as <- <- <-. congruence.
  - destruct Hframe as (Hs & _ & Hpo & Hpe). cbn [fst snd].
    split; [intros E; elim (Hs E)|]. split; [intros _; now split | discriminate].
Qed.

Lemma SetScoreSystem_outcome_witness :
  (exists S1, bld_S (snd (fst (p7_builder_SetScoreSystem nominal
        (config p7_WGT_GSC 1000 p7_EFFN_ENTROPY (-1) 6 0) None None (2 / 100)%R (4 / 10)%R [])))
      = Some S1 /\ esl_scorematrix_IsSymmetric nominal S1 = true)
  /\
  pextend (snd (fst (p7_builder_SetScoreSystem nominal
        (config p7_WGT_GSC 1000 p7_EFFN_ENTROPY (-1) 6 0) (Some "skewed.mat") None
        (2 / 100)%R (9 / 10)%R []))) = (4 / 10)%R
  /\
  fst (fst (p7_builder_SetScoreSystem (world 0 0 None 0 None None true (Some 18%positive))
        (config p7_WGT_GSC 1000 p7_EFFN_ENTROPY (-1) 6 0) None None (2 / 100)%R (4 / 10)%R []))
    = eslEINVAL.
Proof.
  split; [|split].
  - destruct (SetScoreSystem_outcome nominal (config p7_WGT_GSC 1000 p7_EFFN_ENTROPY (-1) 6 0)
                None None (2 / 100)%R (4 / 10)%R []) as [Hok _].
    destruct (Hok eq_refl) as (S1 & Q1 & fa & fb & sl & HS & Hsym & _).
    now exists S1.
  - destruct (SetScoreSystem_outcome nominal (config p7_WGT_GSC 1000 p7_EFFN_ENTROPY (-1) 6 0)
                (Some "skewed.mat") None (2 / 100)%R (9 / 10)%R []) as (_ & Hfail & _).
    apply Hfail. discriminate.
  - destruct (SetScoreSystem_outcome (world 0 0 None 0 None None true (Some 18%positive))
                (config p7_WGT_GSC 1000 p7_EFFN_ENTROPY (-1) 6 0)
                None None (2 / 100)%R (4 / 10)%R []) as (_ & _ & Hprob).
    eapply (fun H1 H2 H3 => proj1 (Hprob [[4; -1]; [-1; 5]] _ _ 18%positive
                                     (None, None, None) H1 H2 H3)); reflexivity.
Defined.

(** X9.  A reconfiguration that fails before probabilification
    (the matrix cannot be obtained, or is not symmetric) has destroyed
    the conditional-probability matrix the configuration held and
    still leaves [Q] pointing at it.  [p7_SingleBuilder] then finds
    [Q] set, raises no exception and calls [p7_Seqmodel]. *)
Theorem SetScoreSystem_keeps_released_Q (X : Collaborators) (bld : P7_BUILDER)
    (mxfile env : option string) (po pe : R) (log : Log) (Qold : ESL_DMATRIX) :
  let out := p7_builder_SetScoreSystem X bld mxfile env po pe log in
  bld_Q bld = Some Qold ->
  ((exists failure,
      get_scoring_matrix X (set_errbuf bld empty_message) mxfile env
        (log ++ release_score_system bld) = inr failure)
   \/
   (exists S1 b l,
      get_scoring_matrix X (set_errbuf bld empty_message) mxfile env
        (log ++ release_score_system bld) = inl (S1, b, l) /\
      esl_scorematrix_IsSymmetric X S1 = false)) ->
  fst (fst out) <> eslOK /\
  (exists before after, snd out = log ++ before ++ Ev_dmatrix_Destroy :: after) /\
  bld_Q (snd (fst out)) = Some Qold /\
  forall sq bg opt_hmm opt_tr opt_gm opt_om log2,
    exists rest,
      srun_log (p7_SingleBuilder X (snd (fst out)) sq bg opt_hmm opt_tr opt_gm opt_om log2)
        = log2 ++ Ev_Seqmodel :: rest.
Proof.
  intros out HQ Hwhy. subst out.
  assert (Hrun : forall b, bld_Q b = Some Qold ->
            forall sq bg opt_hmm opt_tr opt_gm opt_om log2,
            exists rest,
              srun_log (p7_SingleBuilder X b sq bg opt_hmm opt_tr opt_gm opt_om log2)
                = log2 ++ Ev_Seqmodel :: rest).
  { intros b Hb sq bg opt_hmm opt_tr opt_gm opt_om log2.
    unfold p7_SingleBuilder. cbn [bld_Q set_errbuf abc popen pextend]. rewrite Hb.
    destruct (p7_Seqmodel X _ _ _ _ Qold _ _ _) as [h|c left].
    - destruct (calibrate_status_log X (set_errbuf b empty_message) h bg opt_gm opt_om
                  (log2 ++ [Ev_Seqmodel]))
        as (s' & b' & h' & gm' & om' & E' & _).
      rewrite E'.
      destruct (negb (s' =? eslOK)).
      + cbn [single_ERROR srun_log]. rewrite <- !app_assoc. eexists. reflexivity.
      + destruct opt_tr as [old|].
        * destruct (p7_trace_Create X).
          -- destruct (p7_trace_Append X p p7T_B 0 0) as [sB tB].
             destruct (negb (sB =? eslOK)).
             ++ cbn [single_ERROR srun_log]. rewrite <- !app_assoc. eexists. reflexivity.
             ++ destruct (append_match_states X _ 1 tB _) as [[sM tM] lM] eqn:EM.
                assert (HlM : exists more, lM =
                          ((((log2 ++ [Ev_Seqmodel]) ++ [Ev_Calibrate (do_reseeding
                               (set_errbuf b empty_message))]) ++ [Ev_trace_Create])
                             ++ [Ev_trace_Append p7T_B 0 0]) ++ more).
                { clear - EM. revert EM. generalize 1 at 1. generalize tB.
                  generalize ((((log2 ++ [Ev_Seqmodel]) ++ [Ev_Calibrate (do_reseeding
                               (set_errbuf b empty_message))]) ++ [Ev_trace_Create])
                             ++ [Ev_trace_Append p7T_B 0 0]).
                  induction (Z.to_nat (sq_n sq)) as [|n IH]; intros l0 t0 k EM.
                  - injection EM as _ _ <-. exists []. now rewrite app_nil_r.
                  - cbn [append_match_states] in EM.
                    destruct (p7_trace_Append X t0 p7T_M k k) as [s1 t1].
                    destruct (negb (s1 =? eslOK)).
                    + injection EM as _ _ <-. now eexists.
                    + apply IH in EM as (more & ->). rewrite <- app_assoc. now eexists. }
                destruct HlM as (more & ->).
                destruct (negb (sM =? eslOK)).
                ** cbn [single_ERROR srun_log]. rewrite <- !app_assoc. eexists. reflexivity.
                ** destruct (p7_trace_Append X tM p7T_E 0 0) as [sE tE].
                   destruct (negb (sE =? eslOK)); cbn [single_ERROR srun_log];
                     rewrite <- !app_assoc; eexists; reflexivity.
          -- cbn [single_ERROR srun_log]. rewrite <- !app_assoc. eexists. reflexivity.
        * cbn [srun_log]. rewrite <- !app_assoc. eexists. reflexivity.
    - cbn [single_ERROR srun_log]. rewrite <- !app_assoc. eexists. reflexivity. }
  unfold p7_builder_SetScoreSystem.
  change (release_score_system (set_errbuf bld empty_message))
    with (release_score_system bld).
  assert (Hrel : exists before, release_score_system bld = before ++ [Ev_dmatrix_Destroy]).
  { unfold release_score_system. rewrite HQ. eexists. reflexivity. }
  destruct Hrel as (before & Hrel).
  pose proof (get_scoring_matrix_frame X (set_errbuf bld empty_message) mxfile env
                (log ++ release_score_system bld)) as Hframe.
  destruct (get_scoring_matrix_log X (set_errbuf bld empty_message) mxfile env
              (log ++ release_score_system bld)) as (evs & _ & Hlog).
  destruct Hwhy as [(failure & E)|(S1 & b & l & E & Hsym)]; rewrite E in *.
  - destruct failure as [[s b] l]. destruct Hframe as (Hs & HQb & _). subst l.
    cbn [fst snd]. split; [exact Hs|].
    split; [exists before, evs; rewrite Hrel, <- !app_assoc; reflexivity|].
    assert (Hb : bld_Q b = Some Qold) by (rewrite HQb; exact HQ).
    split; [exact Hb | now apply Hrun].
  - destruct Hframe as (_ & HQb & _). subst l. rewrite Hsym. cbn [negb fst snd].
    split; [discriminate|].
    split; [exists before, (evs ++ [Ev_scorematrix_IsSymmetric S1]);
            rewrite Hrel, <- !app_assoc; reflexivity|].
    assert (Hb : bld_Q (xfail b "Matrix isn't symmetric" []) = Some Qold)
      by (cbn; rewrite HQb; exact HQ).
    split; [exact Hb | now apply Hrun].
Qed.

Lemma SetScoreSystem_keeps_released_Q_witness :
  let bld := set_score_system (config p7_WGT_GSC 1000 p7_EFFN_ENTROPY (-1) 6 0)
               (Some [[4; -1]; [-1; 5]]) (Some [[1%R; 0%R]; [0%R; 1%R]]) in
  let out := p7_builder_SetScoreSystem nominal bld (Some "skewed.mat") None
               (2 / 100)%R (4 / 10)%R [] in
  bld_Q (snd (fst out)) = Some [[1%R; 0%R]; [0%R; 1%R]] /\
  exists rest,
    srun_log (p7_SingleBuilder nominal (snd (fst out))
                {| sq_name := "query"; sq_dsq := [1; 2]; sq_n := 2 |} sample_bg
                (Some None) None None None []) = [] ++ Ev_Seqmodel :: rest.
Proof.
  intros bld out.
  destruct (SetScoreSystem_keeps_released_Q nominal bld (Some "skewed.mat") None
              (2 / 100)%R (4 / 10)%R [] [[1%R; 0%R]; [0%R; 1%R]] eq_refl)
    as (_ & _ & HQ & Hrun).
  { right. do 3 eexists. split; reflexivity. }
  split; [exact HQ | apply Hrun].
Defined.

(** ** The conditional probabilities: rows that sum to one *)

Lemma row_sum_divide_row (row : list R) (d : R) :
  forall cols, (List.length row <= cols)%nat ->
  row_sum (divide_row row cols d) = (row_sum row / d)%R.
Proof.
  induction row as [|x rest IH]; intros cols Hlen.
  - destruct cols; cbn; unfold Rdiv; now rewrite Rmult_0_l.
  - destruct cols as [|c]; [cbn in Hlen; lia|].
    cbn [divide_row row_sum fold_right]. fold (row_sum (divide_row rest c d)).
    fold (row_sum rest). rewrite IH by (cbn in Hlen; lia).
    unfold Rdiv. ring.
Qed.

(** X10.  The two loops [Q->mx[a][b] /= fa[a]] turn a matrix of at
    most [K] rows of at most [K] entries, in which row [a] sums to
    [fa[a]] and no [fa[a]] is zero, into one whose rows all sum to 1. *)
Theorem divide_rows_normalises (mx : list (list R)) (fa : list R) (K : nat) :
  (List.length mx <= K)%nat ->
  Forall2 (fun row d => (List.length row <= K)%nat /\ row_sum row = d /\ d <> 0%R) mx fa ->
  Forall (fun row => row_sum row = 1%R) (divide_rows mx fa K K).
Proof.
  intros Hrows Hall.
  assert (Hgen : forall rows, (List.length mx <= rows)%nat ->
            Forall (fun row => row_sum row = 1%R) (divide_rows mx fa rows K)).
  { clear Hrows. induction Hall as [|row d mx' fa' (Hlen & Hsum & Hd) Hrest IH];
      intros rows Hr.
    - destruct rows; constructor.
    - destruct rows as [|n]; [cbn in Hr; lia|].
      cbn [divide_rows hd tl]. constructor.
      + rewrite row_sum_divide_row by exact Hlen. rewrite Hsum. now field.
      + apply IH. cbn in Hr. lia. }
  now apply Hgen.
Qed.

Lemma divide_rows_normalises_witness :
  Forall (fun row => row_sum row = 1%R)
    (divide_rows [[1%R; 3%R]; [2%R; 6%R]] [4%R; 8%R] 2 2).
Proof.
  apply divide_rows_normalises; [cbn; lia|].
  repeat constructor; cbn; try lia; lra.
Defined.

(** ** The single-sequence path: failures *)

(** X11.  When the trace was asked for and cannot be allocated,
    [p7_SingleBuilder] goes to its error block with the status of the
    calibration that has just succeeded: it returns [eslOK], having
    destroyed the model and written neither the model nor the trace
    variable of the caller. *)
Theorem SingleBuilder_trace_allocation_failure (X : Collaborators) (bld : P7_BUILDER)
    (sq : ESL_SQ) (bg : P7_BG) (opt_hmm : cell P7_HMM) (old : option P7_TRACE)
    (opt_gm : cell P7_PROFILE) (opt_om : cell P7_OPROFILE) (log : Log) Q hmm :
  let out := p7_SingleBuilder X bld sq bg opt_hmm (Some old) opt_gm opt_om log in
  bld_Q bld = Some Q ->
  p7_Seqmodel X (abc bld) (sq_dsq sq) (sq_n sq) (sq_name sq) Q (bg_f bg)
    (popen bld) (pextend bld) = Done hmm ->
  fst (fst (fst (fst (fst
    (calibrate X (set_errbuf bld empty_message) hmm bg opt_gm opt_om
       (log ++ [Ev_Seqmodel])))))) = eslOK ->
  trace_Create_ok X = false ->
  srun_status out = eslOK /\
  srun_opt_hmm out = opt_hmm /\
  srun_opt_tr out = Some old /\
  exists calibrated_hmm before after,
    srun_log out = log ++ before ++ Ev_hmm_Destroy (Some calibrated_hmm) :: after.
Proof.
  intros out HQ Hseq Hcal Hcreate. subst out. unfold p7_SingleBuilder.
  cbn [bld_Q set_errbuf abc popen pextend]. rewrite HQ, Hseq.
  destruct (calibrate_status_log X (set_errbuf bld empty_message) hmm bg opt_gm opt_om
              (log ++ [Ev_Seqmodel])) as (s' & b' & h' & gm' & om' & E' & _).
  rewrite E' in *. cbn in Hcal. subst s'. cbn [negb Z.eqb eslOK].
  unfold p7_trace_Create. rewrite Hcreate.
  cbn [single_ERROR srun_status srun_opt_hmm srun_opt_tr srun_log].
  split; [reflexivity|]. split; [reflexivity|]. split; [reflexivity|].
  exists h', [Ev_Seqmodel; Ev_Calibrate (do_reseeding (set_errbuf bld empty_message));
              Ev_trace_Create].
  eexists. rewrite <- !app_assoc. cbn [app]. reflexivity.
Qed.

Lemma SingleBuilder_trace_allocation_failure_witness :
  let bld := set_score_system (config p7_WGT_GSC 1000 p7_EFFN_ENTROPY (-1) 6 42)
               None (Some [[1%R; 1%R]; [1%R; 1%R]]) in
  let out := p7_SingleBuilder (world 0 0 None 0 None None false None) bld
               {| sq_name := "query"; sq_dsq := [1; 2; 1]; sq_n := 3 |} sample_bg
               (Some None) (Some None) None None [] in
  srun_status out = eslOK /\ srun_opt_hmm out = Some None /\ srun_opt_tr out = Some None.
Proof.
  intros bld out.
  destruct (SingleBuilder_trace_allocation_failure (world 0 0 None 0 None None false None) bld
              {| sq_name := "query"; sq_dsq := [1; 2; 1]; sq_n := 3 |} sample_bg
              (Some None) None None None [] [[1%R; 1%R]; [1%R; 1%R]] (sample_hmm 3 1)
              eq_refl eq_refl eq_refl eq_refl) as (Hs & Hh & Ht & _).
  repeat split; assumption.
Defined.

(** X12.  [p7_SingleBuilder] clears [errbuf] on entry and writes no
    message for a failure that comes before the calibration: without a
    score system, and when [p7_Seqmodel] fails, the configuration it
    leaves is the one it was given with an empty [errbuf], whatever an
    earlier call had left there.  When [p7_Seqmodel] fails, its code is
    returned, the calibration is not run, no output variable is
    written, and the error block destroys the caller's own profile
    values, which [calibrate] never got to clear. *)
Theorem SingleBuilder_quiet_failure (X : Collaborators) (bld : P7_BUILDER)
    (sq : ESL_SQ) (bg : P7_BG) (opt_hmm : cell P7_HMM) (opt_tr : cell P7_TRACE)
    (opt_gm : cell P7_PROFILE) (opt_om : cell P7_OPROFILE) (log : Log) :
  let out := p7_SingleBuilder X bld sq bg opt_hmm opt_tr opt_gm opt_om log in
  (bld_Q bld = None -> srun_bld out = set_errbuf bld empty_message)
  /\
  forall Q c left,
    bld_Q bld = Some Q ->
    p7_Seqmodel X (abc bld) (sq_dsq sq) (sq_n sq) (sq_name sq) Q (bg_f bg)
      (popen bld) (pextend bld) = Failed c left ->
    srun_status out = Z.pos c /\
    srun_bld out = set_errbuf bld empty_message /\
    srun_opt_hmm out = opt_hmm /\ srun_opt_tr out = opt_tr /\
    srun_opt_gm out = opt_gm /\ srun_opt_om out = opt_om /\
    srun_log out =
      log ++ [Ev_Seqmodel; Ev_hmm_Destroy left]
          ++ match opt_gm with Some gm => [Ev_profile_Destroy gm] | None => [] end
          ++ match opt_om with Some om => [Ev_oprofile_Destroy om] | None => [] end.
Proof.
  intros out. subst out. split.
  - intros HQ. unfold p7_SingleBuilder. cbn [bld_Q set_errbuf]. rewrite HQ. reflexivity.
  - intros Q c left HQ Hseq. unfold p7_SingleBuilder.
    cbn [bld_Q set_errbuf abc popen pextend]. rewrite HQ, Hseq.
    cbn [single_ERROR srun_status srun_bld srun_opt_hmm srun_opt_tr srun_opt_gm
         srun_opt_om srun_log].
    repeat split. now rewrite <- !app_assoc.
Qed.

Lemma SingleBuilder_quiet_failure_witness :
  let bld := set_errbuf
               (set_score_system (config p7_WGT_GSC 1000 p7_EFFN_ENTROPY (-1) 6 42)
                  None (Some [[1%R; 1%R]; [1%R; 1%R]]))
               (Msg "left by an earlier call" []) in
  let out := p7_SingleBuilder (world 0 0 None 0 None (Some 5%positive) true None) bld
               {| sq_name := "query"; sq_dsq := [1; 2; 1]; sq_n := 3 |} sample_bg
               (Some None) None (Some (Some (profile_id 9))) None [] in
  srun_status out = eslEMEM /\
  errbuf (srun_bld out) = empty_message /\
  srun_log out =
    [] ++ [Ev_Seqmodel; Ev_hmm_Destroy None] ++ [Ev_profile_Destroy (Some (profile_id 9))] ++ [].
Proof.
  intros bld out.
  destruct (SingleBuilder_quiet_failure (world 0 0 None 0 None (Some 5%positive) true None) bld
              {| sq_name := "query"; sq_dsq := [1; 2; 1]; sq_n := 3 |} sample_bg
              (Some None) None (Some (Some (profile_id 9))) None []) as [_ Hfail].
  destruct (Hfail [[1%R; 1%R]; [1%R; 1%R]] 5%positive None eq_refl eq_refl)
    as (Hs & Hb & _ & _ & _ & _ & Hl).
  split; [exact Hs|]. split; [|exact Hl].
  fold out in Hb. rewrite Hb. reflexivity.
Defined.

(** ** The configuration: what [p7_builder_Create] assigns *)

(** X13.  [p7_builder_Create] returns [NULL] exactly when the block or
    the prior cannot be allocated.  Given an option set, the first
    option that is on in each group decides -- [--fast] before
    [--hand], [--eent] before the rest, with [eset] staying at -1 --
    and a group in which no option is on leaves its strategy as the
    fresh block happened to hold it.  The gap probabilities are never
    assigned, and the configuration starts without a score system and
    with an empty message. *)
Theorem p7_builder_Create_selection (X : Collaborators) (fresh : option P7_BUILDER)
    (arbitrary : Z) (go : option ESL_GETOPTS) (abc0 : ESL_ALPHABET) :
  (p7_builder_Create X fresh arbitrary go abc0 = None <->
     fresh = None \/ choose_prior X abc0 = None)
  /\
  forall raw bld,
    fresh = Some raw ->
    p7_builder_Create X fresh arbitrary go abc0 = Some bld ->
    bld_S bld = None /\ bld_Q bld = None /\ errbuf bld = empty_message /\
    popen bld = popen raw /\ pextend bld = pextend raw /\
    forall g, go = Some g ->
      (esl_opt_GetBoolean g "--fast" = true -> arch_strategy bld = p7_ARCH_FAST) /\
      (esl_opt_GetBoolean g "--fast" = false -> esl_opt_GetBoolean g "--hand" = false ->
         arch_strategy bld = arch_strategy raw) /\
      (esl_opt_GetBoolean g "--eent" = true ->
         effn_strategy bld = p7_EFFN_ENTROPY /\ eset bld = (-1)%R) /\
      (esl_opt_GetBoolean g "--eent" = false -> esl_opt_GetBoolean g "--eclust" = false ->
       esl_opt_GetBoolean g "--enone" = false -> esl_opt_IsOn g "--eset" = false ->
         effn_strategy bld = effn_strategy raw /\ eset bld = (-1)%R) /\
      (esl_opt_GetBoolean g "--wgsc" = false -> esl_opt_GetBoolean g "--wblosum" = false ->
       esl_opt_GetBoolean g "--wpb" = false -> esl_opt_GetBoolean g "--wnone" = false ->
       esl_opt_GetBoolean g "--wgiven" = false ->
         wgt_strategy bld = wgt_strategy raw).
Proof.
  split.
  - unfold p7_builder_Create.
    destruct fresh as [raw|]; [|split; [now left | reflexivity]].
    destruct (choose_prior X abc0) as [p|].
    + split; [discriminate | intros [H|H]; discriminate].
    + split; [now right | reflexivity].
  - intros raw bld -> Hc. unfold p7_builder_Create in Hc.
    destruct (choose_prior X abc0) as [p|]; [|discriminate].
    injection Hc as <-. cbn [bld_S bld_Q errbuf popen pextend arch_strategy effn_strategy
                             eset wgt_strategy].
    do 5 (split; [reflexivity|]).
    intros g ->. cbn [choose_arch choose_effn choose_wgt].
    split; [intros ->; reflexivity|].
    split; [intros -> ->; reflexivity|].
    split; [intros ->; now split|].
    split; [intros -> -> -> ->; now split|].
    intros -> -> -> -> ->. reflexivity.
Qed.

Lemma p7_builder_Create_selection_witness :
  exists bld,
    p7_builder_Create nominal (Some (config p7_WGT_BLOSUM 7 p7_EFFN_CLUST 3 6 0)) 12345
      (Some (sample_options ["--fast"; "--eent"; "--eset"] 5 42)) amino = Some bld /\
    effn_strategy bld = p7_EFFN_ENTROPY /\ eset bld = (-1)%R /\
    wgt_strategy bld = p7_WGT_BLOSUM.
Proof.
  destruct (p7_builder_Create nominal (Some (config p7_WGT_BLOSUM 7 p7_EFFN_CLUST 3 6 0)) 12345
              (Some (sample_options ["--fast"; "--eent"; "--eset"] 5 42)) amino)
    as [bld|] eqn:Hc; [|cbn in Hc; discriminate].
  destruct (p7_builder_Create_selection nominal
              (Some (config p7_WGT_BLOSUM 7 p7_EFFN_CLUST 3 6 0)) 12345
              (Some (sample_options ["--fast"; "--eent"; "--eset"] 5 42)) amino) as [_ Hsel].
  destruct (Hsel _ bld eq_refl Hc) as (_ & _ & _ & _ & _ & Hgo).
  destruct (Hgo _ eq_refl) as (_ & _ & Heent & _ & Hwgt).
  destruct (Heent eq_refl) as [He1 He2].
  exists bld. split; [reflexivity|]. split; [exact He1|]. split; [exact He2|].
  apply Hwgt; reflexivity.
Defined.

(** ** The default target at an empty model *)

(** X14.  For a model of length 0 (and for -1) the argument of the
    logarithm is 0: the raw target is minus infinity, and what
    [default_target_relent] returns is the floor of the alphabet. *)
Theorem default_target_relent_empty_model (X : Collaborators) (bld : P7_BUILDER) (M : Z) :
  M = 0 \/ M = -1 ->
  default_target_relent X bld M = Finite (alphabet_floor X (abc_type (abc bld))).
Proof.
  intros [-> | ->]; unfold default_target_relent;
    destruct (abc_type (abc bld)); reflexivity.
Qed.

Lemma default_target_relent_empty_model_witness :
  default_target_relent nominal (config p7_WGT_GSC 1000 p7_EFFN_ENTROPY (-1) 6 0) 0
    = Finite (59 / 100)%R.
Proof.
  apply (default_target_relent_empty_model nominal
           (config p7_WGT_GSC 1000 p7_EFFN_ENTROPY (-1) 6 0) 0).
  now left.
Defined.

(** ** The alignment pipeline: which profiles the error block destroys *)

(** X15.  When [p7_Builder] fails before [calibrate] has run, the
    profile and optimized profile its error block destroys are the
    values the caller's variables held on entry.  When it fails in
    [calibrate] or later, [calibrate] has set the variables to [NULL]
    first: what they held on entry has no influence, and the run is
    the same whatever the variables that were passed contained. *)
Theorem p7_Builder_destroys_profiles (X : Collaborators) (bld : P7_BUILDER) (msa : ESL_MSA)
    (bg : P7_BG) (opt_hmm : cell P7_HMM) (opt_trarr : cell (list P7_TRACE))
    (opt_gm : cell P7_PROFILE) (opt_om : cell P7_OPROFILE)
    (opt_postmsa : cell ESL_MSA) (log : Log) stage s b m h t gm om l :
  let run := p7_Builder X bld msa bg opt_hmm opt_trarr opt_gm opt_om opt_postmsa log in
  fails_at X bld msa bg opt_trarr opt_gm opt_om opt_postmsa log stage s b m h t gm om l ->
  (reporting_stage stage = true ->
     gm = opt_gm /\ om = opt_om /\
     (forall old, opt_gm = Some old -> In (Ev_profile_Destroy old) (run_log run)) /\
     (forall old, opt_om = Some old -> In (Ev_oprofile_Destroy old) (run_log run)))
  /\
  (reporting_stage stage = false ->
     forall gm0 om0,
       requested gm0 = requested opt_gm -> requested om0 = requested opt_om ->
       fails_at X bld msa bg opt_trarr gm0 om0 opt_postmsa log stage s b m h t gm om l /\
       p7_Builder X bld msa bg opt_hmm opt_trarr gm0 om0 opt_postmsa log = run).
Proof.
  intros run F. subst run.
  assert (Hsame : forall gm0 om0 stage' s' b' m' h' t' gm' om' l',
            fails_at X bld msa bg opt_trarr gm0 om0 opt_postmsa log
              stage' s' b' m' h' t' gm' om' l' ->
            fails_at X bld msa bg opt_trarr opt_gm opt_om opt_postmsa log
              stage s b m h t gm om l ->
            stage' = stage -> s' = s -> b' = b -> m' = m -> h' = h -> t' = t ->
            gm' = gm -> om' = om -> l' = l ->
            fails_at X bld msa bg opt_trarr gm0 om0 opt_postmsa log stage s b m h t gm om l /\
            p7_Builder X bld msa bg opt_hmm opt_trarr gm0 om0 opt_postmsa log =
            p7_Builder X bld msa bg opt_hmm opt_trarr opt_gm opt_om opt_postmsa log).
  { intros gm0 om0 stage' s' b' m' h' t' gm' om' l' F0 F1 -> -> -> -> -> -> -> -> ->.
    split; [exact F0|].
    rewrite (fails_at_ERROR _ _ _ _ opt_hmm _ _ _ _ _ _ _ _ _ _ _ _ _ _ F0).
    rewrite (fails_at_ERROR _ _ _ _ opt_hmm _ _ _ _ _ _ _ _ _ _ _ _ _ _ F1).
    reflexivity. }
  pose proof F as F1.
  rewrite (fails_at_ERROR _ _ _ _ opt_hmm _ _ _ _ _ _ _ _ _ _ _ _ _ _ F) in *.
  cbn [run_log builder_ERROR]. unfold builder_cleanup.
  assert (Hin : gm = opt_gm -> om = opt_om ->
            (forall old, opt_gm = Some old ->
               In (Ev_profile_Destroy old)
                 (l ++ [Ev_hmm_Destroy h; Ev_trace_DestroyArray t (msa_nseq m)]
                    ++ match gm with Some p => [Ev_profile_Destroy p] | None => [] end
                    ++ match om with Some p => [Ev_oprofile_Destroy p] | None => [] end)) /\
            (forall old, opt_om = Some old ->
               In (Ev_oprofile_Destroy old)
                 (l ++ [Ev_hmm_Destroy h; Ev_trace_DestroyArray t (msa_nseq m)]
                    ++ match gm with Some p => [Ev_profile_Destroy p] | None => [] end
                    ++ match om with Some p => [Ev_oprofile_Destroy p] | None => [] end))).
  { intros -> ->. split; intros old ->.
    - apply in_or_app. right. cbn. auto.
    - apply in_or_app. right. apply in_or_app. right.
      apply in_or_app. right. cbn. auto. }
  destruct F as
    [ s b m l E Hs
    | b0 m0 l0 c h t b m l A E
    | b0 m h0 t l0 s b h l A E Hs
    | b0 m h0 t l0 s b h l A E Hs
    | b0 m h0 t l0 s b h l A E Hs
    | b0 m h0 t l0 s b h gm om l A E Hs
    | b m h t gm om l0 s pm l A E Hs ];
    cbn [reporting_stage]; (split; intros Hr; try discriminate Hr); clear Hr;
    try (destruct (Hin eq_refl eq_refl) as [H1 H2]; now repeat split).
  - intros gm0 om0 Hg Ho.
    eapply Hsame; [| exact F1 | reflexivity ..].
    eapply fail_calibrate; [exact A | | exact Hs].
    rewrite <- E. now apply calibrate_clears.
  - intros gm0 om0 Hg Ho.
    eapply Hsame; [| exact F1 | reflexivity ..].
    destruct A as (b0 & h0 & l1 & A & Ec).
    eapply fail_make_post_msa; [| exact E | exact Hs].
    exists b0, h0, l1. split; [exact A|]. rewrite <- Ec. now apply calibrate_clears.
Qed.

Lemma p7_Builder_destroys_profiles_witness :
  let bld := config p7_WGT_GSC 1000 p7_EFFN_SET 2 6 42 in
  let run := p7_Builder nominal bld (nameless_msa 4) sample_bg
               (Some None) None (Some (Some (profile_id 9))) None None [] in
  run_status run = eslEINVAL /\
  In (Ev_profile_Destroy (Some (profile_id 9))) (run_log run).
Proof.
  intros bld run.
  eassert (F : fails_at nominal bld (nameless_msa 4) sample_bg None
                 (Some (Some (profile_id 9))) None None [] Stage_annotate eslEINVAL
                 _ (nameless_msa 4) (Some _) None _ _ _).
  { eapply fail_annotate.
    - do 3 eexists. split.
      + do 3 eexists. split.
        * do 3 eexists. split.
          -- reflexivity.
          -- reflexivity.
        * reflexivity.
      + reflexivity.
    - reflexivity.
    - discriminate. }
  split; [reflexivity|].
  destruct (p7_Builder_destroys_profiles nominal bld (nameless_msa 4) sample_bg
              (Some None) None (Some (Some (profile_id 9))) None None []
              _ _ _ _ _ _ _ _ _ F) as [Hearly _].
  destruct (Hearly eq_refl) as (_ & _ & Hgm & _).
  apply Hgm. reflexivity.
Defined.

(** ** Alignment reconstruction *)

(** X16.  [make_post_msa] without a variable for the result returns
    [eslOK] and calls nothing.  With one, it calls
    [p7_tracealign_MSA] once: on success the new alignment is in the
    variable; on failure the variable is left as it was, the code is
    returned, and an alignment the routine left behind is destroyed. *)
Theorem make_post_msa_outcome (X : Collaborators) (bld : P7_BUILDER) (premsa : ESL_MSA)
    (hmm : P7_HMM) (tr : option (list P7_TRACE)) (opt_postmsa : cell ESL_MSA) (log : Log) :
  let out := make_post_msa X bld premsa hmm tr opt_postmsa log in
  (opt_postmsa = None -> out = (eslOK, None, log))
  /\
  (forall old, opt_postmsa = Some old ->
     (forall post,
        p7_tracealign_MSA X premsa tr (hmm_M hmm) (p7_DEFAULT X) = Done post ->
        out = (eslOK, Some (Some post), log ++ [Ev_tracealign_MSA])) /\
     (forall c left,
        p7_tracealign_MSA X premsa tr (hmm_M hmm) (p7_DEFAULT X) = Failed c left ->
        fst (fst out) = Z.pos c /\ snd (fst out) = Some old /\
        snd out = log ++ [Ev_tracealign_MSA]
                      ++ match left with Some m => [Ev_msa_Destroy m] | None => [] end)).
Proof.
  intros out. subst out. unfold make_post_msa. split.
  - intros ->. reflexivity.
  - intros old ->. split.
    + intros post ->. reflexivity.
    + intros c left ->. cbn [fst snd]. repeat split.
      destruct left; [now rewrite <- app_assoc | now rewrite app_nil_r].
Qed.

Lemma make_post_msa_outcome_witness :
  make_post_msa nominal (config p7_WGT_GSC 1000 p7_EFFN_SET 2 6 42) (sample_msa 4)
    (sample_hmm 3 4) None None [] = (eslOK, None, [])
  /\
  snd (fst (make_post_msa (world 0 0 None 0 (Some 5%positive) None true None)
              (config p7_WGT_GSC 1000 p7_EFFN_SET 2 6 42) (sample_msa 4)
              (sample_hmm 3 4) (Some [sample_trace]) (Some (Some (nameless_msa 1))) []))
    = Some (Some (nameless_msa 1)).
Proof.
  split.
  - apply (make_post_msa_outcome nominal (config p7_WGT_GSC 1000 p7_EFFN_SET 2 6 42)
             (sample_msa 4) (sample_hmm 3 4) None None []).
    reflexivity.
  - destruct (make_post_msa_outcome (world 0 0 None 0 (Some 5%positive) None true None)
                (config p7_WGT_GSC 1000 p7_EFFN_SET 2 6 42) (sample_msa 4)
                (sample_hmm 3 4) (Some [sample_trace]) (Some (Some (nameless_msa 1))) [])
      as [_ Hreq].
    destruct (Hreq _ eq_refl) as [_ Hfail].
    apply (Hfail 5%positive None). reflexivity.
Defined.
